(** * Disaster-response backend: proximity resource search, cache and broadcast

    A shallow embedding of the server-side core of the disaster platform:

    - [server/utils/cache.js]: [getCachedData], [setCachedData],
      [cleanExpiredCache] over the [cache] table;
    - [server/routes/resources.js]: the [GET /resources/:disasterId] and
      [POST /resources] handlers, [generateMockResources] and
      [calculateDistance];
    - [server/routes/auth.js]: [authenticateUser], which guards
      [POST /resources], the login endpoint and [GET /auth/me], with the
      error handling middleware of [server/index.js];
    - [server/routes/updates.js]: the [GET /updates/:disasterId] handler;
    - [server/routes/socialMedia.js]: [classifyPriority].

    JavaScript numbers are idealised: a finite double is a real number, and
    the non-finite values [NaN], [Infinity] and [-Infinity] are kept apart;
    rounding and overflow are not modelled.
    Timestamps are integer milliseconds since the epoch, the resolution of
    [Date] and of the ISO strings the code stores.  Everything the code
    obtains from its environment (the clock, [Math.random], [uuidv4], whether
    a datastore call is served, rejected or throws) is read from oracle
    streams carried by the [World]. *)

From Stdlib Require Import ZArith List String Ascii Reals Lra Lia Bool.
From stdpp Require Import gmap strings.
Import ListNotations.

Set Warnings "-register-all".
Open Scope Z_scope.

(** ** JavaScript values *)

Module Js.

(** A JavaScript number. *)
Inductive num : Type :=
| NaN
| Inf (negative : bool)
| Fin (x : R).

(** [a + b] on numbers. *)
Definition add (a b : num) : num :=
  match a, b with
  | NaN, _ | _, NaN => NaN
  | Fin x, Fin y => Fin (x + y)
  | Inf s, Fin _ | Fin _, Inf s => Inf s
  | Inf s, Inf t => if Bool.eqb s t then Inf s else NaN
  end.

(** [a / d] for a finite positive divisor [d]. *)
Definition div_pos (a : num) (d : R) : num :=
  match a with
  | NaN => NaN
  | Inf s => Inf s
  | Fin x => Fin (x / d)
  end.

(** A value as it arrives in a parsed JSON body or a query string. *)
Inductive value : Type :=
| Undefined
| Null
| Bool (b : bool)
| Num (n : num)
| Str (s : string)
| Obj (fields : list (string * value))
| Arr (items : list value).

(** ToBoolean: what [if (v)], [!v] and [a && b] test. *)
Definition truthy (v : value) : bool :=
  match v with
  | Undefined | Null => false
  | Bool b => b
  | Num NaN => false
  | Num (Inf _) => true
  | Num (Fin x) => if Req_dec_T x 0 then false else true
  | Str s => negb (String.eqb s "")
  | Obj _ | Arr _ => true
  end.

(** A query-string parameter: a string, or [undefined] when not sent. *)
Definition param_value (p : option string) : value :=
  match p with
  | Some s => Str s
  | None => Undefined
  end.

(** A parameter interpolated into a template literal. *)
Definition param_text (p : option string) : string :=
  match p with
  | Some s => s
  | None => "undefined"
  end.

(** *** Numeric literals in strings *)

(** The ASCII characters of StrWhiteSpaceChar: TAB, LF, VT, FF, CR, SP. *)
Definition is_space (c : ascii) : bool :=
  let n := nat_of_ascii c in
  Nat.eqb n 9 || Nat.eqb n 10 || Nat.eqb n 11 || Nat.eqb n 12
  || Nat.eqb n 13 || Nat.eqb n 32.

Fixpoint skip_space (s : string) : string :=
  match s with
  | String c rest => if is_space c then skip_space rest else s
  | EmptyString => s
  end.

(** The value of [c] as a digit of the given radix (2, 8, 10 or 16). *)
Definition digit_in (radix : Z) (c : ascii) : option Z :=
  let n := Z.of_nat (nat_of_ascii c) in
  let d :=
    if (48 <=? n) && (n <=? 57) then Some (n - 48)
    else if (97 <=? n) && (n <=? 102) then Some (n - 87)
    else if (65 <=? n) && (n <=? 70) then Some (n - 55)
    else None in
  match d with
  | Some v => if v <? radix then Some v else None
  | None => None
  end.

(** Longest run of digits at the head of [s]: the accumulated value, how many
    digits were read, and the rest of the string. *)
Fixpoint scan_digits (radix : Z) (s : string) (acc : Z) (cnt : nat)
  : Z * nat * string :=
  match s with
  | String c rest =>
      match digit_in radix c with
      | Some d => scan_digits radix rest (acc * radix + d) (S cnt)
      | None => (acc, cnt, s)
      end
  | EmptyString => (acc, cnt, s)
  end.

(** An optional ExponentPart at the head of [s]; a malformed one is left
    unread. *)
Definition scan_exponent (s : string) : Z * string :=
  match s with
  | String c rest =>
      if Ascii.eqb c "e" || Ascii.eqb c "E" then
        let '(neg, digits) :=
          match rest with
          | String "-" r => (true, r)
          | String "+" r => (false, r)
          | _ => (false, rest)
          end in
        let '(e, cnt, rest') := scan_digits 10 digits 0 0 in
        match cnt with
        | O => (0, s)
        | S _ => (if neg then - e else e, rest')
        end
      else (0, s)
  | EmptyString => (0, s)
  end.

(** An unsigned decimal literal at the head of [s] (digits, fraction,
    exponent): mantissa, power of ten, and the rest; [None] when no literal
    starts there. *)
Definition scan_unsigned_decimal (s : string) : option (Z * Z * string) :=
  let '(ip, ni, r1) := scan_digits 10 s 0 0 in
  let '(m, nf, r2) :=
    match r1 with
    | String "." r =>
        let '(m, nf, r') := scan_digits 10 r ip 0 in
        match ni, nf with
        | O, O => (ip, O, r1)
        | _, _ => (m, nf, r')
        end
    | _ => (ip, O, r1)
    end in
  match ni, nf with
  | O, O => None
  | _, _ =>
      let '(e, r3) := scan_exponent r2 in
      Some (m, e - Z.of_nat nf, r3)
  end.

Definition decimal_value (m e : Z) : R := (IZR m * powerRZ 10 e)%R.

Definition signed (neg : bool) (n : num) : num :=
  match n with
  | NaN => NaN
  | Inf s => Inf (xorb neg s)
  | Fin x => Fin (if neg then (- x)%R else x)
  end.

(** An optional sign at the head of [s]. *)
Definition scan_sign (s : string) : bool * string :=
  match s with
  | String "-" r => (true, r)
  | String "+" r => (false, r)
  | _ => (false, s)
  end.

Definition strip_prefix (p s : string) : option string :=
  if String.prefix p s
  then Some (String.substring (String.length p)
                              (String.length s - String.length p) s)
  else None.

(** A StrDecimalLiteral at the head of [s]: its value and the rest. *)
Definition scan_decimal_literal (s : string) : option (num * string) :=
  let '(neg, body) := scan_sign s in
  match strip_prefix "Infinity" body with
  | Some rest => Some (Inf neg, rest)
  | None =>
      match scan_unsigned_decimal body with
      | Some (m, e, rest) => Some (signed neg (Fin (decimal_value m e)), rest)
      | None => None
      end
  end.

(** [parseFloat(s)]: the longest decimal literal after leading white space;
    trailing characters are ignored. *)
Definition parseFloat (s : string) : num :=
  match scan_decimal_literal (skip_space s) with
  | Some (n, _) => n
  | None => NaN
  end.

(** [parseInt(s)] with no radix: an integer prefix, hexadecimal after [0x]. *)
Definition parseInt (s : string) : num :=
  let '(neg, body) := scan_sign (skip_space s) in
  let '(radix, digits) :=
    match body with
    | String "0" (String x r) =>
        if Ascii.eqb x "x" || Ascii.eqb x "X" then (16, r) else (10, body)
    | _ => (10, body)
    end in
  let '(v, cnt, _) := scan_digits radix digits 0 0 in
  match cnt with
  | O => NaN
  | S _ => signed neg (Fin (IZR v))
  end.

Definition radix_of_prefix (c : ascii) : option Z :=
  if Ascii.eqb c "x" || Ascii.eqb c "X" then Some 16
  else if Ascii.eqb c "o" || Ascii.eqb c "O" then Some 8
  else if Ascii.eqb c "b" || Ascii.eqb c "B" then Some 2
  else None.

Definition only_space (s : string) : bool :=
  String.eqb (skip_space s) "".

(** StringToNumber, the coercion applied when a string meets [-], [*] or [/]:
    the whole string, white space trimmed, must be one literal; the empty
    string is 0. *)
Definition string_to_number (s : string) : num :=
  let t := skip_space s in
  if String.eqb t "" then Fin 0
  else
    let nondecimal :=
      match t with
      | String "0" (String x r) =>
          match radix_of_prefix x with
          | Some radix =>
              let '(v, cnt, rest) := scan_digits radix r 0 0 in
              Some (match cnt with
                    | O => NaN
                    | S _ => if only_space rest then Fin (IZR v) else NaN
                    end)
          | None => None
          end
      | _ => None
      end in
    match nondecimal with
    | Some n => n
    | None =>
        match scan_decimal_literal t with
        | Some (n, rest) => if only_space rest then n else NaN
        | None => NaN
        end
    end.

End Js.

(** ** Data model *)

(** A row of [disasters], as selected by the handlers ([id, title]). *)
Record Disaster : Type := mkDisaster {
  d_id : string;
  d_title : string
}.

(** A row of [resources].  Columns filled from a request body hold the JSON
    value that was submitted; [r_location] is the pair interpolated into
    [POINT(lng lat)], absent when no point was written. *)
Record ResourceRow : Type := mkResourceRow {
  r_id : string;
  r_disaster_id : Js.value;
  r_name : Js.value;
  r_location_name : Js.value;
  r_type : Js.value;
  r_capacity : Js.value;
  r_contact_info : Js.value;
  r_location : option (Js.value * Js.value);
  r_created_at : Z
}.

(** An entry of the fixed catalogue in [generateMockResources]. *)
Record BaseResource : Type := mkBaseResource {
  base_name : string;
  base_type : string;
  base_capacity : Z;
  base_contact_info : list (string * string)
}.

(** A synthesized resource; [m_distance_km] is [None] for [null]. *)
Record MockResource : Type := mkMockResource {
  m_id : string;
  m_disaster_id : string;
  m_name : string;
  m_type : string;
  m_capacity : Z;
  m_contact_info : list (string * string);
  m_location_name : string;
  m_latitude : Js.num;
  m_longitude : Js.num;
  m_distance_km : option Js.num;
  m_created_at : Z
}.

(** An element of the [resources] array of a response: a stored row passed
    through as the datastore returned it, or a synthesized resource. *)
Inductive ResourceItem : Type :=
| Stored (row : ResourceRow)
| Synthesized (mock : MockResource).

Record SearchCenter : Type := mkSearchCenter {
  center_lat : Js.num;
  center_lng : Js.num
}.

(** The body of a successful [GET /resources/:disasterId]. *)
Record ResourcesResponse : Type := mkResourcesResponse {
  resp_disaster_id : string;
  resp_disaster_title : string;
  resp_search_center : option SearchCenter;
  resp_search_radius_km : Js.num;
  resp_total_resources : nat;
  resp_resources : list ResourceItem;
  resp_last_updated : Z
}.

(** What the [value] column of [cache] holds: a resources response, or any
    other JSON document (the table is shared with the other routes). *)
Inductive Payload : Type :=
| PResources (r : ResourcesResponse)
| PJson (v : Js.value).

(** A row of [cache], keyed by [key]: the columns the code reads and writes. *)
Record CacheRow : Type := mkCacheRow {
  c_value : Payload;
  c_expires_at : Z
}.

(** How the datastore answers one call. *)
Inductive Fault : Type :=
| Served
| Failed (code : string)
| Threw.

(** The [{ data, error }] pair a datastore call resolves to. *)
Inductive QueryResult (A : Type) : Type :=
| QData (data : A)
| QError (code : string).
Arguments QData {A} data.
Arguments QError {A} code.

(** The three tables and the oracle streams of the environment. *)
Record World : Type := mkWorld {
  w_cache : gmap string CacheRow;
  w_disasters : gmap string Disaster;
  w_resources : list ResourceRow;
  w_clock : nat -> Z;
  w_random : nat -> R;
  w_uuid : nat -> string;
  w_fault : nat -> Fault
}.

(** A socket.io room. [DisasterRoom v] is the room named
    [`disaster_${v}`]. *)
Inductive Room : Type :=
| DisasterRoom (id : Js.value).

Inductive LogLevel : Type := LogInfo | LogError.

(** What a run does to the outside, in order. *)
Inductive Effect : Type :=
| CacheSelect (key : string)
| CacheDelete (key : string)
| CacheUpsert (key : string) (expires_at : Z)
| CacheDeleteExpired (cutoff : Z)
| DisasterSelect (id : string)
| ResourcesSelect (disaster_id : string) (type : option string)
                  (result : QueryResult (list ResourceRow))
| ResourcesInsert (result : QueryResult ResourceRow)
| Emit (room : Room) (event : string) (payload : ResourceRow)
| Log (level : LogLevel) (message : string).

(** ** The effect monad: state, a trace of effects, and exceptions *)

Inductive Outcome (A : Type) : Type :=
| Ret (a : A)
| Thrown.
Arguments Ret {A} a.
Arguments Thrown {A}.

Definition M (A : Type) : Type := World -> Outcome A * World * list Effect.

Definition ret {A : Type} (a : A) : M A := fun w => (Ret a, w, []).

Definition bind {A B : Type} (m : M A) (f : A -> M B) : M B :=
  fun w =>
    match m w with
    | (Ret a, w1, t1) =>
        match f a w1 with
        | (o, w2, t2) => (o, w2, t1 ++ t2)
        end
    | (Thrown, w1, t1) => (Thrown, w1, t1)
    end.

Notation "'let*' x := m 'in' k" := (bind m (fun x => k))
  (at level 10, x name, m at level 100, k at level 200).

Definition throw {A : Type} : M A := fun w => (Thrown, w, []).

(** [try { body } catch (error) { handler }]. *)
Definition try_catch {A : Type} (body handler : M A) : M A :=
  fun w =>
    match body w with
    | (Ret a, w1, t1) => (Ret a, w1, t1)
    | (Thrown, w1, t1) =>
        match handler w1 with
        | (o, w2, t2) => (o, w2, t1 ++ t2)
        end
    end.

Definition get_world : M World := fun w => (Ret w, w, []).
Definition effect (e : Effect) : M unit := fun w => (Ret tt, w, [e]).

Fixpoint mapM {A B : Type} (f : A -> M B) (l : list A) : M (list B) :=
  match l with
  | [] => ret []
  | x :: rest =>
      let* y := f x in
      let* ys := mapM f rest in
      ret (y :: ys)
  end.

Definition shift {A : Type} (s : nat -> A) : nat -> A := fun n => s (S n).

Definition advance_clock (w : World) : World :=
  mkWorld (w_cache w) (w_disasters w) (w_resources w)
          (shift (w_clock w)) (w_random w) (w_uuid w) (w_fault w).

Definition advance_random (w : World) : World :=
  mkWorld (w_cache w) (w_disasters w) (w_resources w)
          (w_clock w) (shift (w_random w)) (w_uuid w) (w_fault w).

Definition advance_uuid (w : World) : World :=
  mkWorld (w_cache w) (w_disasters w) (w_resources w)
          (w_clock w) (w_random w) (shift (w_uuid w)) (w_fault w).

Definition advance_fault (w : World) : World :=
  mkWorld (w_cache w) (w_disasters w) (w_resources w)
          (w_clock w) (w_random w) (w_uuid w) (shift (w_fault w)).

Definition with_cache (c : gmap string CacheRow) (w : World) : World :=
  mkWorld c (w_disasters w) (w_resources w)
          (w_clock w) (w_random w) (w_uuid w) (w_fault w).

Definition with_resources (rs : list ResourceRow) (w : World) : World :=
  mkWorld (w_cache w) (w_disasters w) rs
          (w_clock w) (w_random w) (w_uuid w) (w_fault w).

(** [Date.now()] / [new Date()]: the next reading of the clock. *)
Definition clock_now : M Z :=
  fun w => (Ret (w_clock w 0%nat), advance_clock w, []).

(** [Math.random()]. *)
Definition math_random : M R :=
  fun w => (Ret (w_random w 0%nat), advance_random w, []).

(** [uuidv4()]. *)
Definition uuidv4 : M string :=
  fun w => (Ret (w_uuid w 0%nat), advance_uuid w, []).

(** The answer of the datastore to the call being made. *)
Definition next_fault : M Fault :=
  fun w => (Ret (w_fault w 0%nat), advance_fault w, []).

Definition set_cache (c : gmap string CacheRow) : M unit :=
  fun w => (Ret tt, with_cache c w, []).

Definition set_resources (rs : list ResourceRow) : M unit :=
  fun w => (Ret tt, with_resources rs w, []).

Definition logger (level : LogLevel) (message : string) : M unit :=
  effect (Log level message).

(** ** Distance *)

Open Scope R_scope.

(** [Math.atan2(y, x)] on finite arguments. *)
Definition atan2 (y x : R) : R :=
  if Rlt_dec 0 x then atan (y / x)
  else if Rlt_dec x 0 then
    if Rle_dec 0 y then atan (y / x) + PI else atan (y / x) - PI
  else if Rlt_dec 0 y then PI / 2
  else if Rlt_dec y 0 then - PI / 2
  else 0.

(** [calculateDistance(lat1, lng1, lat2, lng2)] on finite arguments, in
    exact arithmetic.  (In double arithmetic the rounded term [a] can exceed
    1 for nearly antipodal points, and [Math.sqrt(1 - a)] is then [NaN]; the
    properties proved of this function are its values at equal arguments,
    its symmetry, its agreement with the haversine formula and a bound for
    nearby points.) *)
Definition calculateDistance (lat1 lng1 lat2 lng2 : R) : R :=
  let R := 6371 in
  let dLat := (lat2 - lat1) * PI / 180 in
  let dLng := (lng2 - lng1) * PI / 180 in
  let a :=
    sin (dLat / 2) * sin (dLat / 2) +
    cos (lat1 * PI / 180) * cos (lat2 * PI / 180) *
    sin (dLng / 2) * sin (dLng / 2) in
  let c := 2 * atan2 (sqrt a) (sqrt (1 - a)) in
  R * c.

(** [calculateDistance] on JavaScript numbers.  A non-finite argument makes
    [dLat] or [dLng] non-finite or [NaN], its sine is [NaN], and [NaN]
    propagates through every later operation. *)
Definition calculateDistance_num (lat1 lng1 lat2 lng2 : Js.num) : Js.num :=
  match lat1, lng1, lat2, lng2 with
  | Js.Fin a, Js.Fin b, Js.Fin c, Js.Fin d =>
      Js.Fin (calculateDistance a b c d)
  | _, _, _, _ => Js.NaN
  end.

(** The haversine formula as the specification words it, on angles in
    radians and for a sphere of radius [radius]:
    a = sin²(Δlat/2) + cos(lat1)·cos(lat2)·sin²(Δlng/2);
    c = 2·atan2(√a, √(1−a)); distance = R·c. *)
Definition haversine (radius phi1 lambda1 phi2 lambda2 : R) : R :=
  let a :=
    (sin ((phi2 - phi1) / 2))² +
    cos phi1 * cos phi2 * (sin ((lambda2 - lambda1) / 2))² in
  let c := 2 * atan2 (sqrt a) (sqrt (1 - a)) in
  radius * c.

Definition radians (degrees : R) : R := degrees * PI / 180.

Close Scope R_scope.

(** ** The datastore boundary

    Each call consumes one answer of the fault oracle.  A served call acts on
    the tables; a failed one resolves to an error object and leaves them as
    they are; a throwing one raises an exception. *)

Module Store.

(** The code PostgREST gives when [.single()] finds no row. *)
Definition NO_ROWS : string := "PGRST116".

(** [from('cache').select('value, expires_at').eq('key', key).single()] *)
Definition cache_select_single (key : string) : M (QueryResult CacheRow) :=
  let* f := next_fault in
  let* _ := effect (CacheSelect key) in
  match f with
  | Threw => throw
  | Failed code => ret (QError code)
  | Served =>
      let* w := get_world in
      match w_cache w !! key with
      | Some row => ret (QData row)
      | None => ret (QError NO_ROWS)
      end
  end.

(** [from('cache').delete().eq('key', key)]; the error, if any. *)
Definition cache_delete (key : string) : M (option string) :=
  let* f := next_fault in
  let* _ := effect (CacheDelete key) in
  match f with
  | Threw => throw
  | Failed code => ret (Some code)
  | Served =>
      let* w := get_world in
      let* _ := set_cache (delete key (w_cache w)) in
      ret None
  end.

(** [from('cache').upsert({ key, value, expires_at })] *)
Definition cache_upsert (key : string) (value : Payload) (expires_at : Z)
  : M (option string) :=
  let* f := next_fault in
  let* _ := effect (CacheUpsert key expires_at) in
  match f with
  | Threw => throw
  | Failed code => ret (Some code)
  | Served =>
      let* w := get_world in
      let* _ := set_cache (<[key := mkCacheRow value expires_at]> (w_cache w)) in
      ret None
  end.

(** [from('cache').delete().lt('expires_at', cutoff)] *)
Definition cache_delete_lt (cutoff : Z) : M (option string) :=
  let* f := next_fault in
  let* _ := effect (CacheDeleteExpired cutoff) in
  match f with
  | Threw => throw
  | Failed code => ret (Some code)
  | Served =>
      let* w := get_world in
      let* _ := set_cache
                  (filter (fun kv => ~ (c_expires_at (snd kv) < cutoff))
                          (w_cache w)) in
      ret None
  end.

(** [from('disasters').select('id, title').eq('id', id).single()] *)
Definition disasters_select_single (id : string) : M (QueryResult Disaster) :=
  let* f := next_fault in
  let* _ := effect (DisasterSelect id) in
  match f with
  | Threw => throw
  | Failed code => ret (QError code)
  | Served =>
      let* w := get_world in
      match w_disasters w !! id with
      | Some d => ret (QData d)
      | None => ret (QError NO_ROWS)
      end
  end.

(** [.eq(column, s)] on a text column. *)
Definition column_eq (v : Js.value) (s : string) : bool :=
  match v with
  | Js.Str t => String.eqb t s
  | _ => false
  end.

Definition matches (disaster_id : string) (type : option string)
           (row : ResourceRow) : bool :=
  column_eq (r_disaster_id row) disaster_id
  && match type with
     | Some t => column_eq (r_type row) t
     | None => true
     end.

(** The awaited [resources] query:
    [from('resources').select('*').eq('disaster_id', id)], with
    [.eq('type', type)] when it was added. *)
Definition resources_select (disaster_id : string) (type : option string)
  : M (QueryResult (list ResourceRow)) :=
  let* f := next_fault in
  match f with
  | Threw =>
      let* _ := effect (ResourcesSelect disaster_id type (QError "")) in
      throw
  | Failed code =>
      let* _ := effect (ResourcesSelect disaster_id type (QError code)) in
      ret (QError code)
  | Served =>
      let* w := get_world in
      let rows := List.filter (matches disaster_id type) (w_resources w) in
      let* _ := effect (ResourcesSelect disaster_id type (QData rows)) in
      ret (QData rows)
  end.

(** The object handed to [insert]. *)
Record NewResource : Type := mkNewResource {
  n_id : string;
  n_disaster_id : Js.value;
  n_name : Js.value;
  n_location_name : Js.value;
  n_type : Js.value;
  n_capacity : Js.value;
  n_contact_info : Js.value;
  n_location : option (Js.value * Js.value)
}.

(** [from('resources').insert([resource]).select().single()]: the stored row
    comes back with [created_at] filled in by the column default. *)
Definition resources_insert (r : NewResource) : M (QueryResult ResourceRow) :=
  let* f := next_fault in
  match f with
  | Threw =>
      let* _ := effect (ResourcesInsert (QError "")) in
      throw
  | Failed code =>
      let* _ := effect (ResourcesInsert (QError code)) in
      ret (QError code)
  | Served =>
      let* w := get_world in
      let row :=
        mkResourceRow (n_id r) (n_disaster_id r) (n_name r)
                      (n_location_name r) (n_type r) (n_capacity r)
                      (n_contact_info r) (n_location r)
                      (w_clock w 0%nat) in
      let* _ := set_resources (w_resources w ++ [row]) in
      let* _ := effect (ResourcesInsert (QData row)) in
      ret (QData row)
  end.

End Store.

(** ** Cache store ([server/utils/cache.js]) *)

(** Get cached data if not expired. *)
Definition getCachedData (key : string) : M (option Payload) :=
  try_catch
    (let* q := Store.cache_select_single key in
     match q with
     | QError code =>
         if String.eqb code Store.NO_ROWS then ret None
         else
           let* _ := logger LogError "Error fetching from cache:" in
           ret None
     | QData data =>
         let* now := clock_now in
         if c_expires_at data <? now then
           let* _ := Store.cache_delete key in
           ret None
         else ret (Some (c_value data))
     end)
    (let* _ := logger LogError "Error in getCachedData:" in
     ret None).

(** Set cached data with TTL in seconds. *)
Definition setCachedData (key : string) (value : Payload) (ttlSeconds : Z)
  : M unit :=
  try_catch
    (let* now := clock_now in
     let expiresAt := now + ttlSeconds * 1000 in
     let* error := Store.cache_upsert key value expiresAt in
     match error with
     | Some _ => logger LogError "Error setting cache:"
     | None => ret tt
     end)
    (logger LogError "Error in setCachedData:").

(** [setCachedData(key, value)]: the parameter default [ttlSeconds = 3600]. *)
Definition setCachedData_default (key : string) (value : Payload) : M unit :=
  setCachedData key value 3600.

(** Clean expired cache entries. *)
Definition cleanExpiredCache : M unit :=
  try_catch
    (let* now := clock_now in
     let* error := Store.cache_delete_lt now in
     match error with
     | Some _ => logger LogError "Error cleaning expired cache:"
     | None => logger LogInfo "Expired cache entries cleaned"
     end)
    (logger LogError "Error in cleanExpiredCache:").

(** ** Resource routes ([server/routes/resources.js]) *)

(** [req.params] and [req.query] of [GET /resources/:disasterId].  A query
    parameter is the string that was sent, or absent. *)
Record GetRequest : Type := mkGetRequest {
  req_disasterId : string;
  req_lat : option string;
  req_lng : option string;
  req_radius : option string;
  req_type : option string
}.

Inductive Body : Type :=
| BodyResources (r : ResourcesResponse)
| BodyCached (p : Payload)
| BodyCreated (resource : ResourceRow)
| BodyError (error : string).

Record HttpResponse : Type := mkHttpResponse {
  status : Z;
  body : Body
}.

(** [if (cachedData)] *)
Definition payload_truthy (p : option Payload) : bool :=
  match p with
  | Some (PResources _) => true
  | Some (PJson v) => Js.truthy v
  | None => false
  end.

(** [lat && lng] on two query parameters. *)
Definition both_given (lat lng : option string) : bool :=
  Js.truthy (Js.param_value lat) && Js.truthy (Js.param_value lng).

(** [radius] after its default [= 10000], as text. *)
Definition radius_text (radius : option string) : string :=
  match radius with
  | Some s => s
  | None => "10000"
  end.

(** ToNumber of a query parameter. *)
Definition to_number (p : option string) : Js.num :=
  match p with
  | Some s => Js.string_to_number s
  | None => Js.NaN
  end.

Definition cache_key (req : GetRequest) : string :=
  "resources_" ++ req_disasterId req ++ "_" ++ Js.param_text (req_lat req)
  ++ "_" ++ Js.param_text (req_lng req) ++ "_" ++ radius_text (req_radius req)
  ++ "_" ++ Js.param_text (req_type req).

Definition baseResources : list BaseResource :=
  [ mkBaseResource "Community Emergency Shelter" "shelter" 200
      [("phone", "(555) 123-4567"); ("email", "shelter@community.org")];
    mkBaseResource "City General Hospital" "medical" 150
      [("phone", "(555) 987-6543"); ("emergency", "911")];
    mkBaseResource "Food Distribution Center" "food" 500
      [("phone", "(555) 456-7890"); ("hours", "9AM-6PM")];
    mkBaseResource "Emergency Supply Station" "supplies" 300
      [("phone", "(555) 234-5678"); ("coordinator", "Jane Smith")];
    mkBaseResource "Temporary Housing Complex" "housing" 100
      [("phone", "(555) 345-6789"); ("manager", "Bob Johnson")] ].

(** The callback of [baseResources.map] in [generateMockResources]. *)
Definition mock_resource (disasterId : string)
           (centerLat centerLng : option string) (resource : BaseResource)
  : M MockResource :=
  let* coords :=
    (if both_given centerLat centerLng then
       let* r1 := math_random in
       let offsetLat := ((r1 - 0.5) * 0.1)%R in
       let* r2 := math_random in
       let offsetLng := ((r2 - 0.5) * 0.1)%R in
       ret (Js.add (Js.parseFloat (Js.param_text centerLat)) (Js.Fin offsetLat),
            Js.add (Js.parseFloat (Js.param_text centerLng)) (Js.Fin offsetLng))
     else
       let* r1 := math_random in
       let* r2 := math_random in
       ret (Js.Fin (40.7128 + (r1 - 0.5) * 0.1)%R,
            Js.Fin (-74.0060 + (r2 - 0.5) * 0.1)%R)) in
  let lat := fst coords in
  let lng := snd coords in
  let* id := uuidv4 in
  let* created := clock_now in
  ret (mkMockResource
         id disasterId (base_name resource) (base_type resource)
         (base_capacity resource) (base_contact_info resource)
         (base_name resource ++ " Location") lat lng
         (if both_given centerLat centerLng
          then Some (calculateDistance_num (to_number centerLat)
                                           (to_number centerLng) lat lng)
          else None)
         created).

(** Generate mock resources for demonstration. *)
Definition generateMockResources (disasterId : string)
           (centerLat centerLng : option string) : M (list MockResource) :=
  mapM (mock_resource disasterId centerLat centerLng) baseResources.

Definition json (code : Z) (b : Body) : M HttpResponse :=
  ret (mkHttpResponse code b).

Definition search_center_of (lat lng : option string) : option SearchCenter :=
  if both_given lat lng
  then Some (mkSearchCenter (Js.parseFloat (Js.param_text lat))
                            (Js.parseFloat (Js.param_text lng)))
  else None.

(** [if (type) query = query.eq('type', type)] *)
Definition type_filter_of (req : GetRequest) : option string :=
  if Js.truthy (Js.param_value (req_type req)) then req_type req else None.

(** [query = query.rpc('get_resources_within_distance', {...})].  [query] is
    the filter builder that [from('resources').select('*').eq(...)] returns;
    in the client library [rpc] is a method of the client, not of a builder,
    so [query.rpc] is [undefined] and calling it raises a TypeError, before
    any request is sent. *)
Definition query_rpc {A : Type} : M A := throw.

(** The [response] object, built the same way on both paths. *)
Definition response_of (req : GetRequest) (disaster : Disaster)
           (resources : list ResourceItem) (now : Z) : ResourcesResponse :=
  mkResourcesResponse
    (req_disasterId req) (d_title disaster)
    (search_center_of (req_lat req) (req_lng req))
    (Js.div_pos (Js.string_to_number (radius_text (req_radius req))) 1000)
    (List.length resources) resources now.

(** The handler past the cache probe: verify the disaster, build the scoped
    query (with the call of [rpc] when both coordinates are given), await
    it, fall back to mock data when it is empty, cache and answer. *)
Definition on_cache_miss (req : GetRequest) : M HttpResponse :=
  let disasterId := req_disasterId req in
  let cacheKey := cache_key req in
  let* d := Store.disasters_select_single disasterId in
  match d with
  | QError code =>
      if String.eqb code Store.NO_ROWS then
        json 404 (BodyError "Disaster not found")
      else
        let* _ := logger LogError "Error fetching disaster for resources:" in
        json 500 (BodyError "Failed to fetch disaster")
  | QData disaster =>
      let* q :=
        (if both_given (req_lat req) (req_lng req) then query_rpc
         else Store.resources_select disasterId (type_filter_of req)) in
      match q with
      | QError _ =>
          let* _ := logger LogError "Error fetching resources:" in
          json 500 (BodyError "Failed to fetch resources")
      | QData resources =>
          if Nat.eqb (List.length resources) 0 then
            let* mockResources :=
              generateMockResources disasterId (req_lat req) (req_lng req) in
            let* now := clock_now in
            let response :=
              response_of req disaster (List.map Synthesized mockResources)
                          now in
            let* _ := setCachedData cacheKey (PResources response) 1800 in
            json 200 (BodyResources response)
          else
            let* now := clock_now in
            let response :=
              response_of req disaster (List.map Stored resources) now in
            let* _ := setCachedData cacheKey (PResources response) 1800 in
            let* _ := logger LogInfo "Resources fetched for disaster" in
            json 200 (BodyResources response)
      end
  end.

(** Get resources for a disaster with geospatial filtering. *)
Definition getResources (req : GetRequest) : M HttpResponse :=
  try_catch
    (let* cachedData := getCachedData (cache_key req) in
     match cachedData with
     | Some p =>
         if payload_truthy cachedData then
           let* _ := logger LogInfo "Serving cached resources data for disaster" in
           json 200 (BodyCached p)
         else on_cache_miss req
     | None => on_cache_miss req
     end)
    (let* _ := logger LogError "Unexpected error in GET /resources/:disasterId:" in
     json 500 (BodyError "Internal server error")).

(** The fields destructured from [req.body] of [POST /resources]. *)
Record PostBody : Type := mkPostBody {
  b_disaster_id : Js.value;
  b_name : Js.value;
  b_location_name : Js.value;
  b_lat : Js.value;
  b_lng : Js.value;
  b_type : Js.value;
  b_capacity : Js.value;
  b_contact_info : Js.value
}.

(** [req.user], set by [authenticateUser]. *)
Record User : Type := mkUser {
  u_id : string;
  u_username : string;
  u_role : string
}.

Record PostRequest : Type := mkPostRequest {
  req_body : PostBody;
  req_user : User
}.

(** A destructuring default [field = d]: taken when the field is
    [undefined]. *)
Definition with_default (v d : Js.value) : Js.value :=
  match v with
  | Js.Undefined => d
  | _ => v
  end.

(** Create new resource. *)
Definition createResource (req : PostRequest) : M HttpResponse :=
  try_catch
    (let disaster_id := b_disaster_id (req_body req) in
     let name := b_name (req_body req) in
     let location_name := b_location_name (req_body req) in
     let lat := b_lat (req_body req) in
     let lng := b_lng (req_body req) in
     let type := b_type (req_body req) in
     let capacity :=
       with_default (b_capacity (req_body req)) (Js.Num (Js.Fin 0)) in
     let contact_info :=
       with_default (b_contact_info (req_body req)) (Js.Obj []) in
     if negb (Js.truthy disaster_id) || negb (Js.truthy name)
        || negb (Js.truthy type) then
       json 400 (BodyError "disaster_id, name, and type are required")
     else
       let* id := uuidv4 in
       let resource :=
         Store.mkNewResource
           id disaster_id name location_name type capacity contact_info
           (if Js.truthy lat && Js.truthy lng then Some (lng, lat) else None) in
       let* q := Store.resources_insert resource in
       match q with
       | QError _ =>
           let* _ := logger LogError "Error creating resource:" in
           json 500 (BodyError "Failed to create resource")
       | QData data =>
           let* _ := logger LogInfo "Resource created" in
           let* _ := effect (Emit (DisasterRoom disaster_id)
                                  "resources_updated" data) in
           json 201 (BodyCreated data)
       end)
    (let* _ := logger LogError "Unexpected error in POST /resources:" in
     json 500 (BodyError "Internal server error")).

(** ** Descriptions of runs *)

Definition run_outcome {A : Type} (r : Outcome A * World * list Effect)
  : Outcome A := fst (fst r).
Definition run_world {A : Type} (r : Outcome A * World * list Effect)
  : World := snd (fst r).
Definition run_trace {A : Type} (r : Outcome A * World * list Effect)
  : list Effect := snd r.

(** The [disasters] and [resources] tables are as they were. *)
Definition same_tables (w w' : World) : Prop :=
  w_disasters w' = w_disasters w /\ w_resources w' = w_resources w.

(** Nothing was drawn from the random source or the identifier generator. *)
Definition same_draws (w w' : World) : Prop :=
  w_random w' = w_random w /\ w_uuid w' = w_uuid w.

(** Effects on the [cache] table and the log only. *)
Definition cache_effect (e : Effect) : Prop :=
  match e with
  | CacheSelect _ | CacheDelete _ | CacheUpsert _ _ | CacheDeleteExpired _
  | Log _ _ => True
  | _ => False
  end.

(** The offset [(Math.random() - 0.5) * 0.1] for a draw [r]. *)
Definition jitter (r : R) : R := ((r - 0.5) * 0.1)%R.

(** The [i]-th synthesized resource in terms of the streams of [w]: draws
    [2i] and [2i+1] of the random source, the [i]-th identifier and the
    [i]-th clock reading. *)
Definition mock_of (disasterId : string) (centerLat centerLng : option string)
           (w : World) (i : nat) (resource : BaseResource) : MockResource :=
  let lat :=
    if both_given centerLat centerLng
    then Js.add (Js.parseFloat (Js.param_text centerLat))
                (Js.Fin (jitter (w_random w (2 * i)%nat)))
    else Js.Fin (40.7128 + jitter (w_random w (2 * i)%nat))%R in
  let lng :=
    if both_given centerLat centerLng
    then Js.add (Js.parseFloat (Js.param_text centerLng))
                (Js.Fin (jitter (w_random w (2 * i + 1)%nat)))
    else Js.Fin (-74.0060 + jitter (w_random w (2 * i + 1)%nat))%R in
  mkMockResource
    (w_uuid w i) disasterId (base_name resource) (base_type resource)
    (base_capacity resource) (base_contact_info resource)
    (base_name resource ++ " Location") lat lng
    (if both_given centerLat centerLng
     then Some (calculateDistance_num (to_number centerLat)
                                      (to_number centerLng) lat lng)
     else None)
    (w_clock w i).

Fixpoint mocks_from (disasterId : string) (centerLat centerLng : option string)
         (w : World) (i : nat) (l : list BaseResource) : list MockResource :=
  match l with
  | [] => []
  | b :: rest =>
      mock_of disasterId centerLat centerLng w i b
      :: mocks_from disasterId centerLat centerLng w (S i) rest
  end.

(** The world after the draws of [generateMockResources]. *)
Definition after_mocks (w : World) : World :=
  mkWorld (w_cache w) (w_disasters w) (w_resources w)
          (fun n => w_clock w (5 + n)%nat) (fun n => w_random w (10 + n)%nat)
          (fun n => w_uuid w (5 + n)%nat) (w_fault w).

(** The [catch] clause of [GET /resources/:disasterId] applied to a run. *)
Definition catch_get (r : Outcome HttpResponse * World * list Effect)
  : Outcome HttpResponse * World * list Effect :=
  match r with
  | (Thrown, w, t) =>
      (Ret (mkHttpResponse 500 (BodyError "Internal server error")), w,
       t ++ [Log LogError "Unexpected error in GET /resources/:disasterId:"])
  | (Ret a, w, t) => (Ret a, w, t)
  end.

Definition after_trace {A : Type} (t1 : list Effect)
           (r : Outcome A * World * list Effect)
  : Outcome A * World * list Effect :=
  (fst (fst r), snd (fst r), t1 ++ snd r).

(** A synthesized resource lies within 0.05 degrees, per axis, of a point. *)
Definition jittered_around (lat lng : R) (m : MockResource) : Prop :=
  exists x y : R,
    m_latitude m = Js.Fin x /\ m_longitude m = Js.Fin y
    /\ (Rabs (x - lat) <= 0.05)%R /\ (Rabs (y - lng) <= 0.05)%R.

(** The validation of [POST /resources] passes. *)
Definition required_present (b : PostBody) : bool :=
  Js.truthy (b_disaster_id b) && Js.truthy (b_name b) && Js.truthy (b_type b).

(** The row [POST /resources] stores for a request, in terms of the streams
    of [w]. *)
Definition new_row (req : PostRequest) (w : World) : ResourceRow :=
  let b := req_body req in
  mkResourceRow
    (w_uuid w 0%nat) (b_disaster_id b) (b_name b) (b_location_name b)
    (b_type b)
    (with_default (b_capacity b) (Js.Num (Js.Fin 0)))
    (with_default (b_contact_info b) (Js.Obj []))
    (if Js.truthy (b_lat b) && Js.truthy (b_lng b)
     then Some (b_lng b, b_lat b) else None)
    (w_clock w 0%nat).

(** The rows the scoped query of a request selects from a table. *)
Definition scoped_rows (req : GetRequest) (rows : list ResourceRow)
  : list ResourceRow :=
  List.filter (Store.matches (req_disasterId req) (type_filter_of req)) rows.

(** The ways [on_cache_miss] can run, by the coordinates of the request and
    what the datastore answers. *)
Inductive MissRun (req : GetRequest) (w : World)
  : Outcome HttpResponse * World * list Effect -> Prop :=
| miss_lookup_threw :
    w_fault w 0%nat = Threw ->
    MissRun req w
      (Thrown, advance_fault w, [DisasterSelect (req_disasterId req)])
| miss_not_found :
    (w_fault w 0%nat = Served /\ w_disasters w !! req_disasterId req = None)
    \/ w_fault w 0%nat = Failed Store.NO_ROWS ->
    MissRun req w
      (Ret (mkHttpResponse 404 (BodyError "Disaster not found")),
       advance_fault w, [DisasterSelect (req_disasterId req)])
| miss_lookup_failed (code : string) :
    w_fault w 0%nat = Failed code ->
    code <> Store.NO_ROWS ->
    MissRun req w
      (Ret (mkHttpResponse 500 (BodyError "Failed to fetch disaster")),
       advance_fault w,
       [DisasterSelect (req_disasterId req);
        Log LogError "Error fetching disaster for resources:"])
| miss_rpc_threw (d : Disaster) :
    w_fault w 0%nat = Served ->
    w_disasters w !! req_disasterId req = Some d ->
    both_given (req_lat req) (req_lng req) = true ->
    MissRun req w
      (Thrown, advance_fault w, [DisasterSelect (req_disasterId req)])
| miss_query_threw (d : Disaster) :
    w_fault w 0%nat = Served ->
    w_disasters w !! req_disasterId req = Some d ->
    both_given (req_lat req) (req_lng req) = false ->
    w_fault w 1%nat = Threw ->
    MissRun req w
      (Thrown, advance_fault (advance_fault w),
       [DisasterSelect (req_disasterId req);
        ResourcesSelect (req_disasterId req) (type_filter_of req)
                        (QError "")])
| miss_query_failed (d : Disaster) (code : string) :
    w_fault w 0%nat = Served ->
    w_disasters w !! req_disasterId req = Some d ->
    both_given (req_lat req) (req_lng req) = false ->
    w_fault w 1%nat = Failed code ->
    MissRun req w
      (Ret (mkHttpResponse 500 (BodyError "Failed to fetch resources")),
       advance_fault (advance_fault w),
       [DisasterSelect (req_disasterId req);
        ResourcesSelect (req_disasterId req) (type_filter_of req)
                        (QError code);
        Log LogError "Error fetching resources:"])
| miss_synthesized (d : Disaster) (w' : World) (t : list Effect) :
    w_fault w 0%nat = Served ->
    w_disasters w !! req_disasterId req = Some d ->
    both_given (req_lat req) (req_lng req) = false ->
    w_fault w 1%nat = Served ->
    scoped_rows req (w_resources w) = [] ->
    same_tables w w' ->
    Forall cache_effect t ->
    MissRun req w
      (Ret (mkHttpResponse 200
              (BodyResources
                 (response_of req d
                    (List.map Synthesized
                       (mocks_from (req_disasterId req) (req_lat req)
                                   (req_lng req) w 0 baseResources))
                    (w_clock w 5%nat)))),
       w',
       [DisasterSelect (req_disasterId req);
        ResourcesSelect (req_disasterId req) (type_filter_of req)
                        (QData [])] ++ t)
| miss_stored (d : Disaster) (w' : World) (t : list Effect) :
    w_fault w 0%nat = Served ->
    w_disasters w !! req_disasterId req = Some d ->
    both_given (req_lat req) (req_lng req) = false ->
    w_fault w 1%nat = Served ->
    scoped_rows req (w_resources w) <> [] ->
    same_tables w w' ->
    Forall cache_effect t ->
    MissRun req w
      (Ret (mkHttpResponse 200
              (BodyResources
                 (response_of req d
                    (List.map Stored (scoped_rows req (w_resources w)))
                    (w_clock w 0%nat)))),
       w',
       [DisasterSelect (req_disasterId req);
        ResourcesSelect (req_disasterId req) (type_filter_of req)
                        (QData (scoped_rows req (w_resources w)))] ++ t).

(** ** Sample worlds and requests *)

Module Sample.

(** A datastore that serves every call, a clock that stands at [t], a
    generator that counts, and a random source that gives 1/2. *)
Definition quiet_world (t : Z) : World :=
  mkWorld ∅ ∅ [] (fun _ => t) (fun _ => (1 / 2)%R)
          (fun n => String (ascii_of_nat (48 + n)) "") (fun _ => Served).

(** One cache entry under ["k"] that expires at 1000, read at 1000. *)
Definition boundary_world : World :=
  with_cache {[ "k" := mkCacheRow (PJson (Js.Str "v")) 1000 ]}
             (quiet_world 1000).

(** A world with one disaster and no resources. *)
Definition city_world : World :=
  mkWorld ∅ {[ "d1" := mkDisaster "d1" "Flood" ]} []
          (fun _ => 1000) (fun _ => (1 / 2)%R)
          (fun n => String (ascii_of_nat (48 + n)) "") (fun _ => Served).

(** A search around the point (40.7128, -74.0060). *)
Definition city_request : GetRequest :=
  mkGetRequest "d1" (Some "40.7128") (Some "-74.0060") None None.

(** A shelter stored at the point (40.7128, -74.0060). *)
Definition shelter_row : ResourceRow :=
  mkResourceRow "r1" (Js.Str "d1") (Js.Str "Harbor Shelter")
                (Js.Str "Pier 4") (Js.Str "shelter") (Js.Num (Js.Fin 80))
                (Js.Obj [])
                (Some (Js.Num (Js.Fin (-74.0060)), Js.Num (Js.Fin 40.7128)))
                500.

(** [city_world] with that shelter in the [resources] table. *)
Definition shelter_world : World :=
  with_resources [shelter_row] city_world.

(** A search for the resources of disaster ["d1"], without coordinates. *)
Definition plain_request : GetRequest :=
  mkGetRequest "d1" None None None None.

(** A search for a disaster that has no row. *)
Definition missing_request : GetRequest :=
  mkGetRequest "nope" None None None None.

(** The tables after [DELETE /disasters/:id] removed the row of [id]: the
    [resources] rows that reference it go with it (ON DELETE CASCADE); the
    [cache] table is not touched. *)
Definition without_disaster (id : string) (w : World) : World :=
  mkWorld (w_cache w) (delete id (w_disasters w))
          (List.filter (fun r => negb (Store.column_eq (r_disaster_id r) id))
                       (w_resources w))
          (w_clock w) (w_random w) (w_uuid w) (w_fault w).

(** [city_world] after one search without coordinates and the deletion of
    the disaster. *)
Definition stale_world : World :=
  without_disaster "d1" (run_world (getResources plain_request city_world)).

Definition responder : User := mkUser "responder1" "responder1" "contributor".

(** A resource submitted with coordinates on the equator and the prime
    meridian. *)
Definition equator_post : PostRequest :=
  mkPostRequest
    (mkPostBody (Js.Str "d1") (Js.Str "Field Clinic") (Js.Str "Camp 2")
                (Js.Num (Js.Fin 0)) (Js.Num (Js.Fin 0)) (Js.Str "medical")
                Js.Undefined Js.Undefined)
    responder.

(** The same submission without a name. *)
Definition nameless_post : PostRequest :=
  mkPostRequest
    (mkPostBody (Js.Str "d1") Js.Undefined (Js.Str "Camp 2")
                (Js.Num (Js.Fin 0)) (Js.Num (Js.Fin 0)) (Js.Str "medical")
                Js.Undefined Js.Undefined)
    responder.


End Sample.


(** ** Authentication ([server/routes/auth.js]) and the application
    ([server/index.js]) *)

(** An entry of [mockUsers]. *)
Record MockUser : Type := mkMockUser {
  mu_id : string;
  mu_username : string;
  mu_role : string;
  mu_password : string
}.

(** The mock users database, by key, in the order it is written. *)
Definition mockUsers : list (string * MockUser) :=
  [ ("netrunnerX",
     mkMockUser "netrunnerX" "netrunnerX" "contributor" "password123");
    ("reliefAdmin", mkMockUser "reliefAdmin" "reliefAdmin" "admin" "admin123");
    ("responder1",
     mkMockUser "responder1" "responder1" "contributor" "responder123") ].

(** The fields of [req.user] the handlers read. *)
Definition user_of (u : MockUser) : User :=
  mkUser (mu_id u) (mu_username u) (mu_role u).

(** How a middleware ends: it calls [next()] with [req.user] set, or it
    answers [res.status(401).json({ error })] itself. *)
Inductive Authenticated : Type :=
| Next (user : MockUser)
| Unauthorized (error : string).

(** [authHeader.substring(7)] *)
Definition substring_from (n : nat) (s : string) : string :=
  String.substring n (String.length s - n) s.

(** Mock authentication middleware.  [authorization] is
    [req.headers.authorization]: the header as sent, or absent. *)
Definition authenticateUser (authorization : option string) : Authenticated :=
  match authorization with
  | None => Unauthorized "Authentication required"
  | Some authHeader =>
      if negb (Js.truthy (Js.Str authHeader))
         || negb (String.prefix "Bearer " authHeader) then
        Unauthorized "Authentication required"
      else
        let token := substring_from 7 authHeader in
        match List.find (fun u => String.eqb (mu_id u) token)
                        (List.map snd mockUsers) with
        | Some user => Next user
        | None => Unauthorized "Invalid authentication token"
        end
  end.

(** [router.post('/', authenticateUser, async (req, res) => ...)] of
    [server/routes/resources.js]: the handler runs only when the middleware
    calls [next()]. *)
Definition resources_post_route (authorization : option string)
           (body : PostBody) : M HttpResponse :=
  match authenticateUser authorization with
  | Unauthorized error => json 401 (BodyError error)
  | Next user => createResource (mkPostRequest body (user_of user))
  end.

(** What the authentication routes and the application-level handlers
    answer. *)
Inductive AuthBody : Type :=
| AuthError (error : string)
| AuthUser (user : User)
| AuthToken (token : string) (user : User)
| AuthUnhandled (error message : string).

Record AuthResponse : Type := mkAuthResponse {
  auth_status : Z;
  auth_body : AuthBody
}.

(** Get current user. *)
Definition getMe (authorization : option string) : AuthResponse :=
  match authenticateUser authorization with
  | Unauthorized error => mkAuthResponse 401 (AuthError error)
  | Next user => mkAuthResponse 200 (AuthUser (user_of user))
  end.

(** The process the server runs in: whether [NODE_ENV] is ['development'],
    and whether the runtime defines a global [localStorage]. *)
Record Runtime : Type := mkRuntime {
  rt_development : bool;
  rt_localStorage : bool
}.

(** The exceptions a handler can raise: evaluating an identifier that is not
    declared, and converting an object that has no primitive form. *)
Inductive JsError : Type :=
| ReferenceError (identifier : string)
| TypeError (message : string).

(** [err.message] *)
Definition message_of (e : JsError) : string :=
  match e with
  | ReferenceError x => x ++ " is not defined"
  | TypeError m => m
  end.

Inductive AuthLog : Type :=
| AuthWarn (message : string)
| AuthInfo (message : string)
| AuthLogError (message : string).

(** A synchronous handler: what it logs, and the response it sends or the
    exception it raises. *)
Definition Sync (A : Type) : Type := list AuthLog * (A + JsError).

Definition sync_ret {A : Type} (a : A) : Sync A := ([], inl a).

Definition sync_bind {A B : Type} (m : Sync A) (f : A -> Sync B) : Sync B :=
  match m with
  | (l1, inl a) => let '(l2, r) := f a in (l1 ++ l2, r)
  | (l1, inr e) => (l1, inr e)
  end.

Definition sync_log (entry : AuthLog) : Sync unit := ([entry], inl tt).

Definition sync_raise {A : Type} (e : JsError) : Sync A := ([], inr e).

(** Whether the string form of a value parsed from JSON can be taken.  An
    object that has a [toString] entry has no callable [toString], and the
    [valueOf] it inherits returns the object itself: converting it raises a
    TypeError.  An array is joined from the string forms of its items. *)
Fixpoint converts (v : Js.value) : bool :=
  match v with
  | Js.Obj fields =>
      negb (List.existsb (fun kv => String.eqb (fst kv) "toString") fields)
  | Js.Arr items => List.forallb converts items
  | _ => true
  end.

(** [mockUsers[username]], when it is one of the entries.  The property key
    is the string form of [username]: a string is its own key, and an array
    of one element has the key of that element; the string form of any other
    value (a number, a boolean, an object, an array of another length) is not
    a key of [mockUsers].  A property inherited from [Object.prototype] is
    not an entry: it has no [password], and is refused like a missing one. *)
Fixpoint user_entry (username : Js.value) : option MockUser :=
  match username with
  | Js.Str s =>
      option_map snd
        (List.find (fun kv => String.eqb (fst kv) s) mockUsers)
  | Js.Arr [item] => user_entry item
  | _ => None
  end.

(** [user.password !== password] *)
Definition password_differs (user : MockUser) (password : Js.value) : bool :=
  match password with
  | Js.Str p => negb (String.eqb (mu_password user) p)
  | _ => true
  end.

(** [localStorage.setItem('token', response.data.token)] in a module that
    declares neither [localStorage] nor [response]: evaluating the callee
    raises when the runtime has no global [localStorage]; otherwise
    evaluating the argument raises. *)
Definition localStorage_setItem_token (rt : Runtime) : Sync unit :=
  if rt_localStorage rt then sync_raise (ReferenceError "response")
  else sync_raise (ReferenceError "localStorage").

(** Login endpoint.  [username] and [password] are the fields of [req.body]. *)
Definition login (rt : Runtime) (username password : Js.value)
  : Sync AuthResponse :=
  if negb (Js.truthy username) || negb (Js.truthy password) then
    sync_ret (mkAuthResponse 400 (AuthError "Username and password required"))
  else if negb (converts username) then
    sync_raise (TypeError "Cannot convert object to primitive value")
  else
    match user_entry username with
    | None =>
        sync_bind (sync_log (AuthWarn "Failed login attempt for username:"))
          (fun _ =>
             sync_ret (mkAuthResponse 401 (AuthError "Invalid credentials")))
    | Some user =>
        if password_differs user password then
          sync_bind (sync_log (AuthWarn "Failed login attempt for username:"))
            (fun _ =>
               sync_ret (mkAuthResponse 401 (AuthError "Invalid credentials")))
        else
          sync_bind (sync_log (AuthInfo "User logged in:"))
            (fun _ =>
               sync_bind (localStorage_setItem_token rt)
                 (fun _ =>
                    sync_ret
                      (mkAuthResponse 200
                         (AuthToken (mu_id user) (user_of user)))))
    end.

(** Error handling middleware of [server/index.js]. *)
Definition error_middleware (rt : Runtime) (err : JsError)
  : Sync AuthResponse :=
  sync_bind (sync_log (AuthLogError "Unhandled error:"))
    (fun _ =>
       sync_ret
         (mkAuthResponse 500
            (AuthUnhandled "Internal server error"
               (if rt_development rt then message_of err
                else "Something went wrong")))).

(** [POST /api/auth/login] as the application answers it: an exception
    raised by the handler is passed to the error handling middleware. *)
Definition login_route (rt : Runtime) (username password : Js.value)
  : list AuthLog * AuthResponse :=
  match login rt username password with
  | (l, inl response) => (l, response)
  | (l, inr err) =>
      match error_middleware rt err with
      | (l', inl response) => (l ++ l', response)
      | (l', inr _) => (l ++ l', mkAuthResponse 500 (AuthError ""))
      end
  end.

(** ** Official updates ([server/routes/updates.js]) *)

(** [await supabase.from('disasters')...] in [server/routes/updates.js].
    The module imports [express], [axios], [cheerio], [logger] and the two
    cache functions, and declares no [supabase]: evaluating the identifier
    raises a ReferenceError, so the statements after it in the [try] block
    are never reached. *)
Definition unbound_supabase {A : Type} : M A := throw.

Definition updates_cache_key (disasterId : string)
           (source_type urgency : option string) : string :=
  "official_updates_" ++ disasterId ++ "_" ++ Js.param_text source_type
  ++ "_" ++ Js.param_text urgency.

(** Get official updates for a disaster. *)
Definition getOfficialUpdates (disasterId : string)
           (source_type urgency : option string) : M HttpResponse :=
  try_catch
    (let cacheKey := updates_cache_key disasterId source_type urgency in
     let* cachedData := getCachedData cacheKey in
     match cachedData with
     | Some p =>
         if payload_truthy cachedData then
           let* _ := logger LogInfo
                            "Serving cached official updates for disaster:" in
           json 200 (BodyCached p)
         else unbound_supabase
     | None => unbound_supabase
     end)
    (let* _ := logger LogError "Unexpected error in GET /updates/:disasterId:" in
     json 500 (BodyError "Internal server error")).

(** ** Priority of a social media post ([server/routes/socialMedia.js]) *)

Module JsText.

(** Strings are sequences of bytes (UTF-8).  [toLowerCase] maps the letters
    [A]-[Z] to [a]-[z], which is what it does to every ASCII character; the
    bytes of the other characters are left as they are. *)
Definition lower (c : ascii) : ascii :=
  let n := nat_of_ascii c in
  if (65 <=? n)%nat && (n <=? 90)%nat then ascii_of_nat (n + 32) else c.

Fixpoint toLowerCase (s : string) : string :=
  match s with
  | EmptyString => EmptyString
  | String c rest => String (lower c) (toLowerCase rest)
  end.

(** [s.includes(k)]: [k] occurs in [s] at some position. *)
Fixpoint includes (s k : string) : bool :=
  String.prefix k s
  || match s with
     | EmptyString => false
     | String _ rest => includes rest k
     end.

End JsText.

Definition urgentKeywords : list string :=
  ["urgent"; "emergency"; "sos"; "help"; "critical"; "immediate"].

Definition mediumKeywords : list string :=
  ["need"; "looking for"; "available"; "shelter"; "food"].

(** Priority classification based on keywords. *)
Definition classifyPriority (content : string) : string :=
  let contentLower := JsText.toLowerCase content in
  if List.existsb (fun keyword => JsText.includes contentLower keyword)
                  urgentKeywords then "high"
  else if List.existsb (fun keyword => JsText.includes contentLower keyword)
                       mediumKeywords then "medium"
  else "low".

(** ** More descriptions of runs *)

(** Effects that store no resource and publish nothing: everything but an
    insert into [resources] and an emitted event. *)
Definition read_effect (e : Effect) : Prop :=
  match e with
  | ResourcesInsert _ | Emit _ _ _ => False
  | _ => True
  end.

(** Effects of the cache probe and of the disaster lookup: what a search
    may do before it queries the [resources] table. *)
Definition lookup_effect (e : Effect) : Prop :=
  match e with
  | CacheSelect _ | CacheDelete _ | DisasterSelect _ | Log _ _ => True
  | _ => False
  end.

(** ** More sample worlds *)

Module Cases.

(** A datastore that is down: every call throws. *)
Definition down_world : World :=
  mkWorld ∅ ∅ [] (fun _ => 1000) (fun _ => (1 / 2)%R)
          (fun n => String (ascii_of_nat (48 + n)) "") (fun _ => Threw).

(** A clock that advances by one hour at each reading. *)
Definition hourly_world : World :=
  mkWorld ∅ ∅ [] (fun n => 3600000 * Z.of_nat n) (fun _ => (1 / 2)%R)
          (fun n => String (ascii_of_nat (48 + n)) "") (fun _ => Served).

(** [Sample.city_world] while the [cache] table cannot be reached: the
    first call, the cache probe, throws; the calls after it are served. *)
Definition outage_world : World :=
  mkWorld ∅ {[ "d1" := mkDisaster "d1" "Flood" ]} []
          (fun _ => 1000) (fun _ => (1 / 2)%R)
          (fun n => String (ascii_of_nat (48 + n)) "")
          (fun n => match n with O => Threw | S _ => Served end).

(** [Sample.city_world] with an answer cached under the key of the search
    around the city, to expire at 2000. *)
Definition cached_world : World :=
  with_cache {[ cache_key Sample.city_request
                := mkCacheRow (PJson (Js.Str "v")) 2000 ]}
             Sample.city_world.

(** [Sample.city_world] with an answer cached under the key of the search
    without coordinates that expired at 500, before the clock reading
    1000. *)
Definition expired_world : World :=
  with_cache {[ cache_key Sample.plain_request
                := mkCacheRow (PJson (Js.Str "v")) 500 ]}
             Sample.city_world.

End Cases.
(** * Properties *)

(** ** Numeric literals *)

Section Literals.

Local Open Scope R_scope.

Lemma decimal_value_0 (m : Z) : Js.decimal_value m 0 = IZR m.
Proof. unfold Js.decimal_value. cbn. ring. Qed.

Example parseFloat_city_lat : Js.parseFloat "40.7128" = Js.Fin 40.7128.
Proof.
  change (Js.parseFloat "40.7128")
    with (Js.Fin (Js.decimal_value 407128 (-4))).
  f_equal. unfold Js.decimal_value, powerRZ.
  change (Pos.to_nat 4) with 4%nat. simpl pow. lra.
Qed.

Example parseFloat_city_lng : Js.parseFloat "-74.0060" = Js.Fin (-74.0060).
Proof.
  change (Js.parseFloat "-74.0060")
    with (Js.Fin (- Js.decimal_value 740060 (-4))).
  f_equal. unfold Js.decimal_value, powerRZ.
  change (Pos.to_nat 4) with 4%nat. simpl pow. lra.
Qed.

Example parseFloat_zero : Js.parseFloat "0" = Js.Fin 0.
Proof.
  change (Js.parseFloat "0") with (Js.Fin (Js.decimal_value 0 0)).
  f_equal. apply decimal_value_0.
Qed.

Example parseFloat_ignores_tail : Js.parseFloat " 12.5km" = Js.Fin 12.5.
Proof.
  change (Js.parseFloat " 12.5km") with (Js.Fin (Js.decimal_value 125 (-1))).
  f_equal. unfold Js.decimal_value, powerRZ.
  change (Pos.to_nat 1) with 1%nat. simpl pow. lra.
Qed.

Example parseFloat_not_a_number : Js.parseFloat "north" = Js.NaN.
Proof. reflexivity. Qed.

Example string_to_number_rejects_tail : Js.string_to_number "12.5km" = Js.NaN.
Proof. reflexivity. Qed.

Example string_to_number_empty : Js.string_to_number "" = Js.Fin 0.
Proof. reflexivity. Qed.

Example string_to_number_hex : Js.string_to_number "0x10" = Js.Fin 16.
Proof. reflexivity. Qed.

Example parseInt_default_radius : Js.parseInt "10000" = Js.Fin 10000.
Proof. reflexivity. Qed.

Example parseInt_stops_at_point : Js.parseInt "2500.75" = Js.Fin 2500.
Proof. reflexivity. Qed.

Example truthy_zero_string : Js.truthy (Js.Str "0") = true.
Proof. reflexivity. Qed.


End Literals.

(** ** Cache store *)

Lemma getCachedData_served (w : World) (key : string) :
  w_fault w 0%nat = Served ->
  w_fault w 1%nat = Served ->
  getCachedData key w =
    match w_cache w !! key with
    | Some row =>
        if c_expires_at row <? w_clock w 0%nat then
          (Ret None,
           with_cache (delete key (w_cache w))
             (advance_fault (advance_clock (advance_fault w))),
           [CacheSelect key; CacheDelete key])
        else
          (Ret (Some (c_value row)), advance_clock (advance_fault w),
           [CacheSelect key])
    | None => (Ret None, advance_fault w, [CacheSelect key])
    end.
Proof.
  intros Hselect Hdelete.
  unfold getCachedData, try_catch, Store.cache_select_single, bind, next_fault.
  rewrite Hselect; cbn.
  destruct (w_cache w !! key) as [row|]; cbn; [|reflexivity].
  destruct (c_expires_at row <? w_clock w 0%nat); cbn; [|reflexivity].
  unfold Store.cache_delete, bind, next_fault; cbn.
  unfold shift; rewrite Hdelete; reflexivity.
Qed.

Lemma getCachedData_fresh (w : World) (key : string) (row : CacheRow) :
  w_fault w 0%nat = Served ->
  w_cache w !! key = Some row ->
  w_clock w 0%nat <= c_expires_at row ->
  getCachedData key w =
    (Ret (Some (c_value row)), advance_clock (advance_fault w),
     [CacheSelect key]).
Proof.
  intros Hselect Hrow Hfresh.
  unfold getCachedData, try_catch, Store.cache_select_single, bind, next_fault.
  rewrite Hselect; cbn. rewrite Hrow; cbn.
  destruct (Z.ltb_spec (c_expires_at row) (w_clock w 0%nat)); [lia|reflexivity].
Qed.

Lemma getCachedData_absent (w : World) (key : string) :
  w_fault w 0%nat = Served ->
  w_cache w !! key = None ->
  getCachedData key w = (Ret None, advance_fault w, [CacheSelect key]).
Proof.
  intros Hselect Hnone.
  unfold getCachedData, try_catch, Store.cache_select_single, bind, next_fault.
  rewrite Hselect; cbn. rewrite Hnone. reflexivity.
Qed.

Lemma setCachedData_served (w : World) (key : string) (value : Payload)
      (ttlSeconds : Z) :
  w_fault w 0%nat = Served ->
  setCachedData key value ttlSeconds w =
    (Ret tt,
     with_cache
       (<[key := mkCacheRow value (w_clock w 0%nat + ttlSeconds * 1000)]>
          (w_cache w))
       (advance_fault (advance_clock w)),
     [CacheUpsert key (w_clock w 0%nat + ttlSeconds * 1000)]).
Proof.
  intros Hupsert.
  unfold setCachedData, try_catch, Store.cache_upsert, bind, next_fault,
    clock_now; cbn.
  rewrite Hupsert; reflexivity.
Qed.

Lemma cleanExpiredCache_served (w : World) :
  w_fault w 0%nat = Served ->
  cleanExpiredCache w =
    (Ret tt,
     with_cache
       (filter (fun kv => ~ (c_expires_at (snd kv) < w_clock w 0%nat))
               (w_cache w))
       (advance_fault (advance_clock w)),
     [CacheDeleteExpired (w_clock w 0%nat);
      Log LogInfo "Expired cache entries cleaned"]).
Proof.
  intros Hdelete.
  unfold cleanExpiredCache, try_catch, Store.cache_delete_lt, bind,
    next_fault, clock_now; cbn.
  rewrite Hdelete; reflexivity.
Qed.

(** Until the entry written by [setCachedData] expires, [getCachedData]
    gives the value back, whatever was stored under the key before. *)
Lemma set_then_get_until_expiry (w : World) (key : string) (value : Payload)
      (ttlSeconds : Z) :
  w_fault w 0%nat = Served ->
  w_fault w 1%nat = Served ->
  w_clock w 1%nat <= w_clock w 0%nat + ttlSeconds * 1000 ->
  run_outcome ((let* _ := setCachedData key value ttlSeconds in
                getCachedData key) w)
  = Ret (Some value).
Proof.
  intros Hupsert Hselect Hfresh.
  unfold bind. rewrite (setCachedData_served _ _ _ _ Hupsert).
  rewrite getCachedData_fresh
    with (row := mkCacheRow value (w_clock w 0%nat + ttlSeconds * 1000)).
  - reflexivity.
  - exact Hselect.
  - cbn. apply lookup_insert_eq.
  - exact Hfresh.
Qed.

(** C2 (amended): when the datastore serves the lookup and the eviction,
    [getCachedData key] returns the stored value exactly when an entry for
    the key exists and its expiry is not earlier than the current time;
    otherwise it returns nothing, an entry found expired (expiry strictly
    earlier than now) is deleted, and an unexpired one is left in place. *)
Theorem getCachedData_returns_unexpired (w : World) (key : string) :
  w_fault w 0%nat = Served ->
  w_fault w 1%nat = Served ->
  let r := getCachedData key w in
  let now := w_clock w 0%nat in
  (forall v,
      run_outcome r = Ret (Some v) <->
      exists row, w_cache w !! key = Some row /\ c_value row = v
                  /\ now <= c_expires_at row)
  /\ ((~ exists row, w_cache w !! key = Some row /\ now <= c_expires_at row) ->
      run_outcome r = Ret None)
  /\ (forall row, w_cache w !! key = Some row -> c_expires_at row < now ->
      w_cache (run_world r) = delete key (w_cache w))
  /\ ((forall row, w_cache w !! key = Some row -> now <= c_expires_at row) ->
      w_cache (run_world r) = w_cache w).
Proof.
  intros Hselect Hdelete r now; subst r now.
  rewrite (getCachedData_served _ _ Hselect Hdelete).
  destruct (w_cache w !! key) as [row|] eqn:Hrow.
  - destruct (Z.ltb_spec (c_expires_at row) (w_clock w 0%nat)) as [Hold|Hnew].
    + repeat split.
      * discriminate.
      * intros (row' & Heq & _ & Hle). injection Heq as <-. lia.
      * intros Hno. exfalso. specialize (Hno row eq_refl). lia.
    + repeat split.
      * intros Heq. injection Heq as <-. exists row. auto.
      * intros (row' & Heq & <- & _). injection Heq as <-. reflexivity.
      * intros Hno. exfalso. apply Hno. exists row. auto.
      * intros row' Heq Hlt. injection Heq as <-. lia.
  - repeat split.
    + discriminate.
    + intros (row' & Heq & _). discriminate.
    + intros row' Heq. discriminate.
Qed.

Lemma getCachedData_returns_unexpired_witness :
  let w := Sample.boundary_world in
  let r := getCachedData "k" w in
  let now := w_clock w 0%nat in
  (forall v,
      run_outcome r = Ret (Some v) <->
      exists row, w_cache w !! "k" = Some row /\ c_value row = v
                  /\ now <= c_expires_at row)
  /\ ((~ exists row, w_cache w !! "k" = Some row /\ now <= c_expires_at row) ->
      run_outcome r = Ret None)
  /\ (forall row, w_cache w !! "k" = Some row -> c_expires_at row < now ->
      w_cache (run_world r) = delete "k" (w_cache w))
  /\ ((forall row, w_cache w !! "k" = Some row -> now <= c_expires_at row) ->
      w_cache (run_world r) = w_cache w).
Proof.
  apply (getCachedData_returns_unexpired Sample.boundary_world "k");
    reflexivity.
Defined.

(** C2 as stated fails: an entry whose expiry equals the current time is not
    strictly later than now, yet [getCachedData] returns its value. *)
Lemma getCachedData_serves_entry_expiring_now :
  let w := Sample.boundary_world in
  ~ (forall v,
        run_outcome (getCachedData "k" w) = Ret (Some v) <->
        exists row, w_cache w !! "k" = Some row /\ c_value row = v
                    /\ c_expires_at row > w_clock w 0%nat).
Proof.
  intros w Hclaim.
  destruct (Hclaim (PJson (Js.Str "v"))) as [Hreturned _].
  destruct Hreturned as (row & Hrow & _ & Hlater).
  - unfold w. rewrite getCachedData_served by reflexivity. reflexivity.
  - unfold w, Sample.boundary_world in Hrow; cbn in Hrow.
    rewrite lookup_singleton_eq in Hrow. injection Hrow as <-.
    cbn in Hlater. lia.
Qed.

(** C3: with a positive TTL, [setCachedData key value ttl] followed at once
    by [getCachedData key] (less than a second between the two clock
    readings) returns [value], whether or not the key already had an entry;
    the entry written expires at now + ttl seconds. *)
Theorem set_then_get_returns_value
        (w : World) (key : string) (value : Payload) (ttlSeconds : Z) :
  w_fault w 0%nat = Served ->
  w_fault w 1%nat = Served ->
  0 < ttlSeconds ->
  w_clock w 1%nat < w_clock w 0%nat + 1000 ->
  run_outcome ((let* _ := setCachedData key value ttlSeconds in
                getCachedData key) w)
  = Ret (Some value)
  /\ w_cache (run_world (setCachedData key value ttlSeconds w)) !! key
     = Some (mkCacheRow value (w_clock w 0%nat + ttlSeconds * 1000)).
Proof.
  intros Hupsert Hselect Httl Hsoon. split.
  - apply set_then_get_until_expiry; [assumption|assumption|lia].
  - rewrite (setCachedData_served _ _ _ _ Hupsert). cbn.
    apply lookup_insert_eq.
Qed.

Lemma set_then_get_returns_value_witness :
  let w := Sample.boundary_world in
  let value := PJson (Js.Str "fresh") in
  run_outcome ((let* _ := setCachedData "k" value 1800 in
                getCachedData "k") w)
  = Ret (Some value)
  /\ w_cache (run_world (setCachedData "k" value 1800 w)) !! "k"
     = Some (mkCacheRow value (w_clock w 0%nat + 1800 * 1000)).
Proof.
  apply (set_then_get_returns_value
           Sample.boundary_world "k" (PJson (Js.Str "fresh")) 1800);
    [reflexivity | reflexivity | lia | cbn; lia].
Defined.

(** C8 (amended): when the datastore serves the sweep,
    [cleanExpiredCache] deletes exactly the entries whose expiry is strictly
    earlier than the current time, and leaves every entry whose expiry is the
    current time or later unchanged. *)
Theorem cleanExpiredCache_deletes_past_entries (w : World) :
  w_fault w 0%nat = Served ->
  let now := w_clock w 0%nat in
  let swept := w_cache (run_world (cleanExpiredCache w)) in
  (forall key row, w_cache w !! key = Some row -> c_expires_at row < now ->
                   swept !! key = None)
  /\ (forall key row, w_cache w !! key = Some row -> now <= c_expires_at row ->
                      swept !! key = Some row)
  /\ (forall key, w_cache w !! key = None -> swept !! key = None).
Proof.
  intros Hdelete now swept; subst now swept.
  rewrite (cleanExpiredCache_served _ Hdelete). cbn.
  repeat split.
  - intros key row Hrow Hold.
    apply map_lookup_filter_None. right. intros row' Heq Hkeep.
    rewrite Hrow in Heq. injection Heq as <-. cbn in Hkeep. lia.
  - intros key row Hrow Hnew.
    apply map_lookup_filter_Some. split; [exact Hrow|]. cbn. lia.
  - intros key Hnone.
    apply map_lookup_filter_None. left. exact Hnone.
Qed.

Lemma cleanExpiredCache_deletes_past_entries_witness :
  let w := Sample.boundary_world in
  let now := w_clock w 0%nat in
  let swept := w_cache (run_world (cleanExpiredCache w)) in
  (forall key row, w_cache w !! key = Some row -> c_expires_at row < now ->
                   swept !! key = None)
  /\ (forall key row, w_cache w !! key = Some row -> now <= c_expires_at row ->
                      swept !! key = Some row)
  /\ (forall key, w_cache w !! key = None -> swept !! key = None).
Proof.
  apply (cleanExpiredCache_deletes_past_entries Sample.boundary_world).
  reflexivity.
Defined.

(** C8 as stated fails: an entry whose expiry equals the current time
    (expiry <= now) survives the sweep. *)
Lemma cleanExpiredCache_keeps_entry_expiring_now :
  let w := Sample.boundary_world in
  ~ (forall key row,
        w_cache w !! key = Some row ->
        c_expires_at row <= w_clock w 0%nat ->
        w_cache (run_world (cleanExpiredCache w)) !! key = None).
Proof.
  intros w Hclaim.
  specialize (Hclaim "k" (mkCacheRow (PJson (Js.Str "v")) 1000)).
  unfold w in Hclaim.
  rewrite cleanExpiredCache_served in Hclaim by reflexivity.
  cbn in Hclaim.
  rewrite lookup_singleton_eq in Hclaim.
  assert (Hgone := Hclaim eq_refl ltac:(lia)).
  apply map_lookup_filter_None in Hgone.
  destruct Hgone as [Hnone | Hdrop].
  - rewrite lookup_singleton_eq in Hnone. discriminate.
  - apply (Hdrop (mkCacheRow (PJson (Js.Str "v")) 1000)).
    + apply lookup_singleton_eq.
    + cbn. lia.
Qed.

(** ** Distance *)

Section Distance.

Local Open Scope R_scope.

Lemma atan2_0_1 : atan2 0 1 = 0.
Proof.
  unfold atan2.
  destruct (Rlt_dec 0 1) as [_|Hno]; [|exfalso; lra].
  replace (0 / 1) with 0 by field. apply atan_0.
Qed.

Lemma sin_half_swap (x y : R) :
  sin ((x - y) * PI / 180 / 2) = - sin ((y - x) * PI / 180 / 2).
Proof.
  replace ((x - y) * PI / 180 / 2) with (- ((y - x) * PI / 180 / 2)) by field.
  apply sin_neg.
Qed.

Lemma calculateDistance_sym (lat1 lng1 lat2 lng2 : R) :
  calculateDistance lat1 lng1 lat2 lng2 = calculateDistance lat2 lng2 lat1 lng1.
Proof.
  unfold calculateDistance.
  rewrite (sin_half_swap lat2 lat1), (sin_half_swap lng2 lng1).
  set (s := sin ((lat1 - lat2) * PI / 180 / 2)).
  set (t := sin ((lng1 - lng2) * PI / 180 / 2)).
  set (c1 := cos (lat1 * PI / 180)).
  set (c2 := cos (lat2 * PI / 180)).
  replace (- s * - s + c1 * c2 * - t * - t) with (s * s + c2 * c1 * t * t)
    by ring.
  reflexivity.
Qed.

Lemma calculateDistance_same (lat lng : R) :
  calculateDistance lat lng lat lng = 0.
Proof.
  unfold calculateDistance.
  replace ((lat - lat) * PI / 180 / 2) with 0 by field.
  replace ((lng - lng) * PI / 180 / 2) with 0 by field.
  rewrite sin_0.
  replace (0 * 0 + cos (lat * PI / 180) * cos (lat * PI / 180) * 0 * 0)
    with 0 by ring.
  rewrite Rminus_0_r, sqrt_0, sqrt_1, atan2_0_1. ring.
Qed.

Lemma calculateDistance_haversine (lat1 lng1 lat2 lng2 : R) :
  calculateDistance lat1 lng1 lat2 lng2
  = haversine 6371 (radians lat1) (radians lng1) (radians lat2) (radians lng2).
Proof.
  unfold calculateDistance, haversine, radians, Rsqr.
  replace ((lat2 * PI / 180 - lat1 * PI / 180) / 2)
    with ((lat2 - lat1) * PI / 180 / 2) by field.
  replace ((lng2 * PI / 180 - lng1 * PI / 180) / 2)
    with ((lng2 - lng1) * PI / 180 / 2) by field.
  set (s := sin ((lat2 - lat1) * PI / 180 / 2)).
  set (t := sin ((lng2 - lng1) * PI / 180 / 2)).
  set (c1 := cos (lat1 * PI / 180)).
  set (c2 := cos (lat2 * PI / 180)).
  replace (s * s + c1 * c2 * t * t) with (s * s + c1 * c2 * (t * t)) by ring.
  reflexivity.
Qed.

Lemma sin_half_sqr (d : R) : sin (d / 2) * sin (d / 2) = (1 - cos d) / 2.
Proof.
  pose proof (cos_2a_sin (d / 2)) as Hcos.
  replace (2 * (d / 2)) with d in Hcos by field. lra.
Qed.

(** The term under the square roots lies in [0, 1], so both roots are taken
    of non-negative numbers, as in the floating-point run. *)
Lemma haversine_term_bounds (phi1 phi2 dlambda : R) :
  0 <= sin ((phi2 - phi1) / 2) * sin ((phi2 - phi1) / 2)
       + cos phi1 * cos phi2 * sin (dlambda / 2) * sin (dlambda / 2) <= 1.
Proof.
  rewrite sin_half_sqr.
  replace (cos phi1 * cos phi2 * sin (dlambda / 2) * sin (dlambda / 2))
    with (cos phi1 * cos phi2 * (sin (dlambda / 2) * sin (dlambda / 2)))
    by ring.
  rewrite sin_half_sqr.
  pose proof (COS_bound (phi2 - phi1)) as [Hm1 Hm2].
  pose proof (COS_bound (phi2 + phi1)) as [Hp1 Hp2].
  pose proof (COS_bound dlambda) as [Hl1 Hl2].
  rewrite cos_minus in Hm1, Hm2. rewrite cos_plus in Hp1, Hp2.
  rewrite cos_minus.
  set (c1 := cos phi1) in *. set (c2 := cos phi2) in *.
  set (s1 := sin phi1) in *. set (s2 := sin phi2) in *.
  set (u := cos dlambda) in *.
  split; nra.
Qed.

(** C4: [calculateDistance] is the haversine formula with Earth radius
    6371 km on the arguments converted from degrees to radians; it is
    symmetric in its two points, and the distance from a point to itself
    is 0. *)
Theorem calculateDistance_is_symmetric_haversine :
  (forall lat1 lng1 lat2 lng2 : R,
      calculateDistance lat1 lng1 lat2 lng2
      = haversine 6371 (radians lat1) (radians lng1)
                       (radians lat2) (radians lng2))
  /\ (forall lat1 lng1 lat2 lng2 : R,
         calculateDistance lat1 lng1 lat2 lng2
         = calculateDistance lat2 lng2 lat1 lng1)
  /\ (forall lat lng : R, calculateDistance lat lng lat lng = 0).
Proof.
  split; [|split].
  - exact calculateDistance_haversine.
  - exact calculateDistance_sym.
  - exact calculateDistance_same.
Qed.

End Distance.

(** ** Resource search *)

Lemma generateMockResources_run
      (disasterId : string) (lat lng : option string) (w : World) :
  generateMockResources disasterId lat lng w
  = (Ret (mocks_from disasterId lat lng w 0 baseResources), after_mocks w, []).
Proof.
  unfold generateMockResources, baseResources, mocks_from, mock_of, jitter.
  unfold mapM, mock_resource.
  destruct (both_given lat lng); reflexivity.
Qed.

(** Closes [run = (Ret _, _, _) /\ same_tables _ _ /\ same_draws _ _
    /\ Forall cache_effect _] once the run has been computed. *)
Ltac cache_only_run :=
  split; [reflexivity|];
  split; [split; reflexivity|];
  split; [split; reflexivity|repeat constructor].

(** [getCachedData] never throws, and touches only the [cache] table. *)
Lemma getCachedData_total (key : string) (w : World) :
  exists o w' t,
    getCachedData key w = (Ret o, w', t)
    /\ same_tables w w'
    /\ same_draws w w'
    /\ Forall cache_effect t.
Proof.
  unfold getCachedData, try_catch, Store.cache_select_single, bind, next_fault.
  destruct (w_fault w 0%nat) as [|code|]; cbn.
  - destruct (w_cache w !! key) as [row|]; cbn.
    + destruct (c_expires_at row <? w_clock w 0%nat); cbn.
      * unfold Store.cache_delete, bind, next_fault; cbn.
        destruct (shift (w_fault w) 0%nat); cbn;
          do 3 eexists; cache_only_run.
      * do 3 eexists; cache_only_run.
    + do 3 eexists; cache_only_run.
  - destruct (String.eqb code Store.NO_ROWS); cbn;
      do 3 eexists; cache_only_run.
  - do 3 eexists; cache_only_run.
Qed.

(** [setCachedData] never throws, and touches only the [cache] table. *)
Lemma setCachedData_total (key : string) (value : Payload) (ttl : Z)
      (w : World) :
  exists w' t,
    setCachedData key value ttl w = (Ret tt, w', t)
    /\ same_tables w w'
    /\ same_draws w w'
    /\ Forall cache_effect t.
Proof.
  unfold setCachedData, try_catch, Store.cache_upsert, bind, next_fault,
    clock_now; cbn.
  destruct (w_fault w 0%nat); cbn; do 2 eexists; cache_only_run.
Qed.

Lemma disasters_select_single_run (id : string) (w : World) :
  Store.disasters_select_single id w =
    (match w_fault w 0%nat with
     | Served =>
         match w_disasters w !! id with
         | Some d => Ret (QData d)
         | None => Ret (QError Store.NO_ROWS)
         end
     | Failed code => Ret (QError code)
     | Threw => Thrown
     end,
     advance_fault w, [DisasterSelect id]).
Proof.
  unfold Store.disasters_select_single, bind, next_fault; cbn.
  destruct (w_fault w 0%nat); cbn; [|reflexivity|reflexivity].
  destruct (w_disasters w !! id); reflexivity.
Qed.

Lemma resources_select_run (id : string) (type : option string) (w : World) :
  Store.resources_select id type w =
    match w_fault w 0%nat with
    | Served =>
        (Ret (QData (List.filter (Store.matches id type) (w_resources w))),
         advance_fault w,
         [ResourcesSelect id type
            (QData (List.filter (Store.matches id type) (w_resources w)))])
    | Failed code =>
        (Ret (QError code), advance_fault w,
         [ResourcesSelect id type (QError code)])
    | Threw =>
        (Thrown, advance_fault w, [ResourcesSelect id type (QError "")])
    end.
Proof.
  unfold Store.resources_select, bind, next_fault; cbn.
  destruct (w_fault w 0%nat); reflexivity.
Qed.

Arguments generateMockResources : simpl never.
Arguments setCachedData : simpl never.
Arguments getCachedData : simpl never.
Arguments on_cache_miss : simpl never.
Arguments response_of : simpl never.
Arguments mocks_from : simpl never.
Arguments type_filter_of : simpl never.
Arguments cache_key : simpl never.
Arguments Store.matches : simpl never.
Arguments Store.resources_select : simpl never.
Arguments Store.disasters_select_single : simpl never.
Arguments Store.resources_insert : simpl never.
Arguments after_mocks : simpl never.
Arguments advance_fault : simpl never.
Arguments advance_clock : simpl never.

Lemma Forall_cache_effect_app (t1 t2 : list Effect) :
  Forall cache_effect t1 -> Forall cache_effect t2 ->
  Forall cache_effect (t1 ++ t2).
Proof. intros H1 H2. apply Forall_app; split; assumption. Qed.

Lemma mocks_from_advance_fault (id : string) (lat lng : option string)
      (w : World) (i : nat) (l : list BaseResource) :
  mocks_from id lat lng (advance_fault w) i l = mocks_from id lat lng w i l.
Proof.
  revert i. induction l as [|b l IH]; intros i; [reflexivity|].
  change (mock_of id lat lng (advance_fault w) i b
          :: mocks_from id lat lng (advance_fault w) (S i) l
          = mock_of id lat lng w i b :: mocks_from id lat lng w (S i) l).
  rewrite IH. reflexivity.
Qed.

Lemma on_cache_miss_run (req : GetRequest) (w : World) :
  MissRun req w (on_cache_miss req w).
Proof.
  unfold on_cache_miss.
  unfold bind at 1. rewrite disasters_select_single_run.
  destruct (w_fault w 0%nat) as [|code|] eqn:Hlookup.
  - destruct (w_disasters w !! req_disasterId req) as [d|] eqn:Hd.
    + destruct (both_given (req_lat req) (req_lng req)) eqn:Hgiven.
      { cbn. apply (miss_rpc_threw req w d); assumption. }
      unfold bind at 1. rewrite resources_select_run.
      change (w_fault (advance_fault w) 0%nat) with (w_fault w 1%nat).
      change (w_resources (advance_fault w)) with (w_resources w).
      fold (scoped_rows req (w_resources w)).
      destruct (w_fault w 1%nat) as [|qcode|] eqn:Hquery.
      * set (rows := scoped_rows req (w_resources w)).
        destruct (Nat.eqb_spec (List.length rows) 0) as [Hempty|Hsome].
        -- apply length_zero_iff_nil in Hempty.
           rewrite Hempty.
           unfold bind at 1. rewrite generateMockResources_run.
           unfold bind. cbn [clock_now].
           rewrite !mocks_from_advance_fault.
           change (w_clock (after_mocks (advance_fault (advance_fault w))) 0%nat)
             with (w_clock w 5%nat).
           match goal with
           | |- context [setCachedData ?k ?v ?ttl ?w0] =>
               destruct (setCachedData_total k v ttl w0)
                 as (w' & t & Hset & Hsame & _ & Ht)
           end.
           rewrite Hset. cbn.
           rewrite app_nil_r.
           apply (miss_synthesized req w d w' t); assumption.
        -- unfold bind. cbn [clock_now].
           change (w_clock (advance_fault (advance_fault w)) 0%nat)
             with (w_clock w 0%nat).
           match goal with
           | |- context [setCachedData ?k ?v ?ttl ?w0] =>
               destruct (setCachedData_total k v ttl w0)
                 as (w' & t & Hset & Hsame & _ & Ht)
           end.
           rewrite Hset. cbn.
           apply (miss_stored req w d w'
                    (t ++ [Log LogInfo "Resources fetched for disaster"])).
           all: try assumption.
           ++ intros Hnil. apply Hsome. fold rows in Hnil.
              rewrite Hnil. reflexivity.
           ++ apply Forall_cache_effect_app; [exact Ht|repeat constructor].
      * cbn. apply (miss_query_failed req w d qcode); assumption.
      * cbn. apply (miss_query_threw req w d); assumption.
    + cbn. apply miss_not_found. left. split; assumption.
  - cbn. destruct (String.eqb_spec code Store.NO_ROWS) as [->|Hne].
    + cbn. apply miss_not_found. right. exact Hlookup.
    + cbn. apply (miss_lookup_failed req w code); assumption.
  - cbn. apply miss_lookup_threw. exact Hlookup.
Qed.

(** A request is answered from the cache when the probe gives a truthy
    payload, and by [on_cache_miss] otherwise. *)
Lemma getResources_run (req : GetRequest) (w : World) :
  exists o w1 t1,
    getCachedData (cache_key req) w = (Ret o, w1, t1)
    /\ same_tables w w1
    /\ same_draws w w1
    /\ Forall cache_effect t1
    /\ ((exists p, o = Some p /\ payload_truthy o = true
                   /\ getResources req w
                      = (Ret (mkHttpResponse 200 (BodyCached p)), w1,
                         t1 ++ [Log LogInfo
                                 "Serving cached resources data for disaster"]))
        \/ (payload_truthy o = false
            /\ getResources req w
               = after_trace t1 (catch_get (on_cache_miss req w1)))).
Proof.
  destruct (getCachedData_total (cache_key req) w)
    as (o & w1 & t1 & Hprobe & Htables & Hdraws & Ht1).
  exists o, w1, t1.
  repeat (split; [assumption|]).
  assert (Hrun :
            getResources req w
            = if payload_truthy o then
                match o with
                | Some p =>
                    (Ret (mkHttpResponse 200 (BodyCached p)), w1,
                     t1 ++ [Log LogInfo
                             "Serving cached resources data for disaster"])
                | None => after_trace t1 (catch_get (on_cache_miss req w1))
                end
              else after_trace t1 (catch_get (on_cache_miss req w1))).
  { unfold getResources, try_catch. unfold bind at 1. rewrite Hprobe.
    destruct o as [p|].
    - destruct (payload_truthy (Some p)).
      + reflexivity.
      + destruct (on_cache_miss req w1) as [[[a|] w2] t2];
        [reflexivity|].
        unfold after_trace, catch_get; cbn. rewrite <- app_assoc. reflexivity.
    - cbn [payload_truthy].
      destruct (on_cache_miss req w1) as [[[a|] w2] t2];
        [reflexivity|].
        unfold after_trace, catch_get; cbn. rewrite <- app_assoc. reflexivity. }
  destruct (payload_truthy o) eqn:Htruthy.
  - left. destruct o as [p|]; [|discriminate].
    exists p. split; [reflexivity|]. split; [reflexivity|exact Hrun].
  - right. split; [reflexivity|exact Hrun].
Qed.

(** *** The synthesized catalogue *)

Lemma jitter_bound (r : R) : (0 <= r < 1)%R -> (Rabs (jitter r) <= 0.05)%R.
Proof.
  intros [Hlo Hhi]. unfold jitter. apply Rabs_le. lra.
Qed.

Lemma search_center_given (lat lng : option string) (c : SearchCenter) :
  search_center_of lat lng = Some c ->
  both_given lat lng = true
  /\ center_lat c = Js.parseFloat (Js.param_text lat)
  /\ center_lng c = Js.parseFloat (Js.param_text lng).
Proof.
  unfold search_center_of.
  destruct (both_given lat lng); [|discriminate].
  intros Heq. injection Heq as <-. repeat split.
Qed.

Lemma search_center_absent (lat lng : option string) :
  search_center_of lat lng = None -> both_given lat lng = false.
Proof.
  unfold search_center_of. destruct (both_given lat lng); [discriminate|].
  reflexivity.
Qed.

Lemma mock_of_jittered (id : string) (lat lng : option string) (w : World)
      (i : nat) (b : BaseResource) :
  (forall n, (0 <= w_random w n < 1)%R) ->
  match search_center_of lat lng with
  | Some c =>
      forall clat clng : R,
        center_lat c = Js.Fin clat -> center_lng c = Js.Fin clng ->
        jittered_around clat clng (mock_of id lat lng w i b)
  | None => jittered_around 40.7128 (-74.0060) (mock_of id lat lng w i b)
  end.
Proof.
  intros Hrandom.
  pose proof (jitter_bound _ (Hrandom (2 * i)%nat)) as Hlat.
  pose proof (jitter_bound _ (Hrandom (2 * i + 1)%nat)) as Hlng.
  destruct (search_center_of lat lng) as [c|] eqn:Hcenter.
  - apply search_center_given in Hcenter.
    destruct Hcenter as (Hgiven & Hclat & Hclng).
    intros clat clng Hlat_fin Hlng_fin.
    rewrite Hclat in Hlat_fin. rewrite Hclng in Hlng_fin.
    unfold jittered_around, mock_of; cbn [m_latitude m_longitude].
    rewrite Hgiven, Hlat_fin, Hlng_fin. cbn [Js.add].
    eexists _, _. split; [reflexivity|]. split; [reflexivity|].
    split.
    + replace (clat + jitter (w_random w (2 * i)%nat) - clat)%R
        with (jitter (w_random w (2 * i)%nat)) by ring.
      exact Hlat.
    + replace (clng + jitter (w_random w (2 * i + 1)%nat) - clng)%R
        with (jitter (w_random w (2 * i + 1)%nat)) by ring.
      exact Hlng.
  - apply search_center_absent in Hcenter.
    unfold jittered_around, mock_of; cbn [m_latitude m_longitude].
    rewrite Hcenter.
    eexists _, _. split; [reflexivity|]. split; [reflexivity|].
    split.
    + replace (40.7128 + jitter (w_random w (2 * i)%nat) - 40.7128)%R
        with (jitter (w_random w (2 * i)%nat)) by ring.
      exact Hlat.
    + replace (-74.0060 + jitter (w_random w (2 * i + 1)%nat) - -74.0060)%R
        with (jitter (w_random w (2 * i + 1)%nat)) by ring.
      exact Hlng.
Qed.

Lemma mocks_from_jittered (id : string) (lat lng : option string) (w : World)
      (l : list BaseResource) (i : nat) :
  (forall n, (0 <= w_random w n < 1)%R) ->
  match search_center_of lat lng with
  | Some c =>
      forall clat clng : R,
        center_lat c = Js.Fin clat -> center_lng c = Js.Fin clng ->
        Forall (jittered_around clat clng) (mocks_from id lat lng w i l)
  | None =>
      Forall (jittered_around 40.7128 (-74.0060)) (mocks_from id lat lng w i l)
  end.
Proof.
  intros Hrandom.
  destruct (search_center_of lat lng) as [c|] eqn:Hcenter.
  - intros clat clng Hclat Hclng. revert i.
    induction l as [|b l IH]; intros i; [constructor|].
    change (mocks_from id lat lng w i (b :: l))
      with (mock_of id lat lng w i b :: mocks_from id lat lng w (S i) l).
    constructor; [|apply IH].
    pose proof (mock_of_jittered id lat lng w i b Hrandom) as Hmock.
    rewrite Hcenter in Hmock. apply Hmock; assumption.
  - revert i.
    induction l as [|b l IH]; intros i; [constructor|].
    change (mocks_from id lat lng w i (b :: l))
      with (mock_of id lat lng w i b :: mocks_from id lat lng w (S i) l).
    constructor; [|apply IH].
    pose proof (mock_of_jittered id lat lng w i b Hrandom) as Hmock.
    rewrite Hcenter in Hmock. exact Hmock.
Qed.

Lemma mocks_from_disaster (id : string) (lat lng : option string) (w : World)
      (l : list BaseResource) (i : nat) :
  Forall (fun m => m_disaster_id m = id) (mocks_from id lat lng w i l).
Proof.
  revert i. induction l as [|b l IH]; intros i; [constructor|].
  change (mocks_from id lat lng w i (b :: l))
    with (mock_of id lat lng w i b :: mocks_from id lat lng w (S i) l).
  constructor; [reflexivity|apply IH].
Qed.

Lemma mocks_from_ids (id : string) (lat lng : option string) (w : World) :
  List.map m_id (mocks_from id lat lng w 0 baseResources)
  = List.map (w_uuid w) [0; 1; 2; 3; 4]%nat.
Proof. reflexivity. Qed.

Lemma mocks_from_types (id : string) (lat lng : option string) (w : World) :
  List.map m_type (mocks_from id lat lng w 0 baseResources)
  = ["shelter"; "medical"; "food"; "supplies"; "housing"].
Proof. reflexivity. Qed.

Lemma NoDup_map_injective (f : nat -> string) (l : list nat) :
  (forall i j, f i = f j -> i = j) -> NoDup l -> NoDup (List.map f l).
Proof.
  intros Hinj Hl. induction Hl as [|x l Hx Hl IH]; [constructor|].
  cbn. constructor; [|exact IH].
  intros Hin. apply list_elem_of_In in Hin. apply in_map_iff in Hin.
  destruct Hin as (y & Hy & Hyl). apply Hinj in Hy. subst y.
  apply Hx. apply list_elem_of_In. exact Hyl.
Qed.

(** *** Runs by what the request and the datastore give *)

Lemma getResources_uncached (req : GetRequest) (w : World) :
  w_fault w 0%nat = Served ->
  w_cache w !! cache_key req = None ->
  getResources req w
  = after_trace [CacheSelect (cache_key req)]
                (catch_get (on_cache_miss req (advance_fault w))).
Proof.
  intros Hselect Hnone.
  unfold getResources, try_catch. unfold bind at 1.
  rewrite (getCachedData_absent _ _ Hselect Hnone).
  destruct (on_cache_miss req (advance_fault w)) as [[[a|] w2] t2];
    reflexivity.
Qed.

Lemma on_cache_miss_synthesized (req : GetRequest) (w : World) (d : Disaster) :
  w_fault w 0%nat = Served ->
  w_disasters w !! req_disasterId req = Some d ->
  both_given (req_lat req) (req_lng req) = false ->
  w_fault w 1%nat = Served ->
  scoped_rows req (w_resources w) = [] ->
  exists w' t,
    on_cache_miss req w
    = (Ret (mkHttpResponse 200
              (BodyResources
                 (response_of req d
                    (List.map Synthesized
                       (mocks_from (req_disasterId req) (req_lat req)
                                   (req_lng req) w 0 baseResources))
                    (w_clock w 5%nat)))),
       w',
       [DisasterSelect (req_disasterId req);
        ResourcesSelect (req_disasterId req) (type_filter_of req)
                        (QData [])] ++ t)
    /\ same_tables w w'
    /\ Forall cache_effect t.
Proof.
  intros Hlookup Hd Hgiven Hquery Hrows.
  destruct (on_cache_miss_run req w);
    try congruence;
    try match goal with
        | H : _ \/ _ |- _ => destruct H as [[_ H] | H]; congruence
        end.
  replace d0 with d by congruence.
  exists w', t. split; [reflexivity|]. split; assumption.
Qed.

Lemma on_cache_miss_stored (req : GetRequest) (w : World) (d : Disaster) :
  w_fault w 0%nat = Served ->
  w_disasters w !! req_disasterId req = Some d ->
  both_given (req_lat req) (req_lng req) = false ->
  w_fault w 1%nat = Served ->
  scoped_rows req (w_resources w) <> [] ->
  exists w' t,
    on_cache_miss req w
    = (Ret (mkHttpResponse 200
              (BodyResources
                 (response_of req d
                    (List.map Stored (scoped_rows req (w_resources w)))
                    (w_clock w 0%nat)))),
       w',
       [DisasterSelect (req_disasterId req);
        ResourcesSelect (req_disasterId req) (type_filter_of req)
                        (QData (scoped_rows req (w_resources w)))] ++ t)
    /\ same_tables w w'
    /\ Forall cache_effect t.
Proof.
  intros Hlookup Hd Hgiven Hquery Hrows.
  destruct (on_cache_miss_run req w);
    try congruence;
    try match goal with
        | H : _ \/ _ |- _ => destruct H as [[_ H] | H]; congruence
        end.
  replace d0 with d by congruence.
  exists w', t. split; [reflexivity|]. split; assumption.
Qed.

(** With both coordinates given, the handler raises at the call of [rpc],
    once the disaster is found: no resource query is made. *)
Lemma on_cache_miss_center (req : GetRequest) (w : World) (d : Disaster) :
  both_given (req_lat req) (req_lng req) = true ->
  w_fault w 0%nat = Served ->
  w_disasters w !! req_disasterId req = Some d ->
  on_cache_miss req w
  = (Thrown, advance_fault w, [DisasterSelect (req_disasterId req)]).
Proof.
  intros Hgiven Hlookup Hd.
  unfold on_cache_miss. unfold bind at 1.
  rewrite disasters_select_single_run, Hlookup, Hd, Hgiven.
  reflexivity.
Qed.

Lemma getResources_cached (req : GetRequest) (w : World) (row : CacheRow) :
  w_fault w 0%nat = Served ->
  w_cache w !! cache_key req = Some row ->
  w_clock w 0%nat <= c_expires_at row ->
  payload_truthy (Some (c_value row)) = true ->
  getResources req w
  = (Ret (mkHttpResponse 200 (BodyCached (c_value row))),
     advance_clock (advance_fault w),
     [CacheSelect (cache_key req);
      Log LogInfo "Serving cached resources data for disaster"]).
Proof.
  intros Hselect Hrow Hfresh Htruthy.
  unfold getResources, try_catch. unfold bind at 1.
  rewrite (getCachedData_fresh _ _ _ Hselect Hrow Hfresh).
  rewrite Htruthy. reflexivity.
Qed.

(** A first search without coordinates that finds no rows, on a datastore
    that serves the four calls: the synthesized response is written to the
    cache for 1800 s. *)
Lemma getResources_first_search (req : GetRequest) (w : World) (d : Disaster) :
  w_fault w 0%nat = Served ->
  w_fault w 1%nat = Served ->
  w_fault w 2%nat = Served ->
  w_fault w 3%nat = Served ->
  w_cache w !! cache_key req = None ->
  w_disasters w !! req_disasterId req = Some d ->
  both_given (req_lat req) (req_lng req) = false ->
  scoped_rows req (w_resources w) = [] ->
  let response :=
    response_of req d
      (List.map Synthesized
         (mocks_from (req_disasterId req) (req_lat req) (req_lng req) w 0
                     baseResources))
      (w_clock w 5%nat) in
  getResources req w
  = (Ret (mkHttpResponse 200 (BodyResources response)),
     mkWorld
       (<[cache_key req := mkCacheRow (PResources response)
                                      (w_clock w 6%nat + 1800 * 1000)]>
          (w_cache w))
       (w_disasters w) (w_resources w)
       (fun n => w_clock w (7 + n)%nat) (fun n => w_random w (10 + n)%nat)
       (fun n => w_uuid w (5 + n)%nat) (fun n => w_fault w (4 + n)%nat),
     [CacheSelect (cache_key req); DisasterSelect (req_disasterId req);
      ResourcesSelect (req_disasterId req) (type_filter_of req) (QData []);
      CacheUpsert (cache_key req) (w_clock w 6%nat + 1800 * 1000)]).
Proof.
  intros H0 H1 H2 H3 Hnone Hd Hgiven Hrows response.
  rewrite (getResources_uncached _ _ H0 Hnone).
  unfold on_cache_miss.
  unfold bind at 1. rewrite disasters_select_single_run.
  change (w_fault (advance_fault w) 0%nat) with (w_fault w 1%nat).
  change (w_disasters (advance_fault w)) with (w_disasters w).
  rewrite H1, Hd, Hgiven.
  unfold bind at 1. rewrite resources_select_run.
  change (w_fault (advance_fault (advance_fault w)) 0%nat)
    with (w_fault w 2%nat).
  change (w_resources (advance_fault (advance_fault w))) with (w_resources w).
  fold (scoped_rows req (w_resources w)).
  rewrite H2, Hrows.
  cbn [length Nat.eqb].
  unfold bind at 1. rewrite generateMockResources_run.
  unfold bind. cbn [clock_now].
  rewrite !mocks_from_advance_fault.
  change (w_clock (after_mocks (advance_fault (advance_fault (advance_fault w))))
                  0%nat)
    with (w_clock w 5%nat).
  fold response.
  rewrite setCachedData_served by exact H3.
  reflexivity.
Qed.

(** A search with both coordinates given that finds no entry in the cache,
    for a disaster that exists: the exception raised at [rpc] is caught and
    answered 500; the [resources] table is not queried and nothing is
    written to the cache. *)
Lemma getResources_center_uncached (req : GetRequest) (w : World)
      (d : Disaster) :
  both_given (req_lat req) (req_lng req) = true ->
  w_fault w 0%nat = Served ->
  w_cache w !! cache_key req = None ->
  w_fault w 1%nat = Served ->
  w_disasters w !! req_disasterId req = Some d ->
  getResources req w
  = (Ret (mkHttpResponse 500 (BodyError "Internal server error")),
     advance_fault (advance_fault w),
     [CacheSelect (cache_key req); DisasterSelect (req_disasterId req);
      Log LogError "Unexpected error in GET /resources/:disasterId:"]).
Proof.
  intros Hgiven Hprobe Hnone Hlookup Hd.
  rewrite (getResources_uncached _ _ Hprobe Hnone).
  rewrite (on_cache_miss_center req (advance_fault w) d Hgiven Hlookup Hd).
  reflexivity.
Qed.

Lemma on_cache_miss_not_found (req : GetRequest) (w : World) :
  w_fault w 0%nat = Served ->
  w_disasters w !! req_disasterId req = None ->
  on_cache_miss req w
  = (Ret (mkHttpResponse 404 (BodyError "Disaster not found")),
     advance_fault w, [DisasterSelect (req_disasterId req)]).
Proof.
  intros Hlookup Hnone.
  unfold on_cache_miss. unfold bind at 1.
  rewrite disasters_select_single_run, Hlookup, Hnone.
  reflexivity.
Qed.

(** *** A search center *)

(** C1: the fallback is never reached when a search center is supplied.
    For the disaster ["d1"], which exists and has no stored resource, the
    search around (40.7128, -74.0060) is answered 500 "Internal server
    error": the handler raises at the call of [rpc] after the disaster
    lookup, makes no resource query and synthesizes nothing.
    [generateMockResources] called with the same center does give five
    resources within 0.05 degrees of it, which is what the handler was to
    return. *)
Lemma getResources_center_search_synthesizes_nothing :
  w_disasters Sample.city_world !! req_disasterId Sample.city_request
  = Some (mkDisaster "d1" "Flood")
  /\ w_resources Sample.city_world = []
  /\ getResources Sample.city_request Sample.city_world
     = (Ret (mkHttpResponse 500 (BodyError "Internal server error")),
        advance_fault (advance_fault Sample.city_world),
        [CacheSelect (cache_key Sample.city_request); DisasterSelect "d1";
         Log LogError "Unexpected error in GET /resources/:disasterId:"])
  /\ exists mocks : list MockResource,
      run_outcome (generateMockResources "d1" (req_lat Sample.city_request)
                     (req_lng Sample.city_request) Sample.city_world)
      = Ret mocks
      /\ List.length mocks = 5%nat
      /\ Forall (jittered_around 40.7128 (-74.0060)) mocks.
Proof.
  split; [apply lookup_singleton_eq|].
  split; [reflexivity|].
  split.
  - apply (getResources_center_uncached
             Sample.city_request Sample.city_world (mkDisaster "d1" "Flood")).
    + reflexivity.
    + reflexivity.
    + apply lookup_empty.
    + reflexivity.
    + apply lookup_singleton_eq.
  - rewrite generateMockResources_run.
    eexists. split; [reflexivity|]. split; [reflexivity|].
    assert (Hrandom : forall n, (0 <= w_random Sample.city_world n < 1)%R)
      by (intros n; cbn; lra).
    pose proof (mocks_from_jittered
                  "d1" (req_lat Sample.city_request)
                  (req_lng Sample.city_request) Sample.city_world
                  baseResources 0 Hrandom) as Hnear.
    unfold search_center_of in Hnear.
    change (both_given (req_lat Sample.city_request)
                       (req_lng Sample.city_request)) with true in Hnear.
    apply Hnear; [exact parseFloat_city_lat|exact parseFloat_city_lng].
Qed.

(** *** Errors *)

(** C5 (amended): for every request that is not answered from the cache,
    a disaster id with no row gives 404 "Disaster not found" once the
    datastore serves the lookup (never a resource list); a lookup that fails
    with another error or throws, and a resource query that fails or throws,
    give 500 with an error body only; and an error response leaves the cache
    as the probe left it. *)
Theorem getResources_errors_when_not_cached (req : GetRequest) (w : World) :
  let r := getResources req w in
  let w1 := run_world (getCachedData (cache_key req) w) in
  (forall p, run_outcome r <> Ret (mkHttpResponse 200 (BodyCached p))) ->
  (w_disasters w !! req_disasterId req = None ->
   w_fault w1 0%nat = Served ->
   run_outcome r = Ret (mkHttpResponse 404 (BodyError "Disaster not found")))
  /\ (w_fault w1 0%nat = Threw
      \/ (exists code, w_fault w1 0%nat = Failed code
                       /\ code <> Store.NO_ROWS) ->
      exists message,
        run_outcome r = Ret (mkHttpResponse 500 (BodyError message)))
  /\ (w_fault w1 0%nat = Served ->
      w_disasters w !! req_disasterId req <> None ->
      w_fault w1 1%nat <> Served ->
      exists message,
        run_outcome r = Ret (mkHttpResponse 500 (BodyError message)))
  /\ (forall code message,
         run_outcome r = Ret (mkHttpResponse code (BodyError message)) ->
         w_cache (run_world r) = w_cache w1).
Proof.
  intros r w1 Hnot_cached; subst r w1.
  destruct (getResources_run req w)
    as (o & w1 & t1 & Hprobe & [Hdis _] & _ & _ & [Hhit | Hmiss]).
  { exfalso. destruct Hhit as (p & _ & _ & Hrun).
    apply (Hnot_cached p). rewrite Hrun. reflexivity. }
  destruct Hmiss as (_ & Hrun).
  rewrite Hrun, Hprobe. clear Hrun Hprobe Hnot_cached.
  change (run_world (Ret o, w1, t1)) with w1.
  rewrite <- Hdis.
  destruct (on_cache_miss_run req w1) as
      [Hf | [[Hf Hd] | Hf] | code Hf Hcode | d Hf Hd Hg
       | d Hf Hd Hg Hq | d code Hf Hd Hg Hq
       | d w' t Hf Hd Hg Hq Hrows Hsame Ht
       | d w' t Hf Hd Hg Hq Hrows Hsame Ht];
    cbn.
  all: repeat split.
  all: try (intros; congruence).
  all: try (intros; eexists; reflexivity).
  all: try (intros [? | (? & ? & ?)]; congruence).
  all: try (intros [? | (? & ? & ?)]; eexists; reflexivity).
Qed.

Lemma getResources_errors_when_not_cached_witness :
  run_outcome (getResources Sample.missing_request Sample.city_world)
  = Ret (mkHttpResponse 404 (BodyError "Disaster not found")).
Proof.
  assert (Hrun :
            getResources Sample.missing_request Sample.city_world
            = (Ret (mkHttpResponse 404 (BodyError "Disaster not found")),
               advance_fault (advance_fault Sample.city_world),
               [CacheSelect (cache_key Sample.missing_request);
                DisasterSelect "nope"])).
  { rewrite getResources_uncached; [|reflexivity|apply lookup_empty].
    rewrite on_cache_miss_not_found; [reflexivity|reflexivity|].
    apply lookup_singleton_ne. discriminate. }
  apply (getResources_errors_when_not_cached
           Sample.missing_request Sample.city_world).
  - intros p. rewrite Hrun. discriminate.
  - apply lookup_singleton_ne. discriminate.
  - rewrite getCachedData_absent; [reflexivity|reflexivity|apply lookup_empty].
Defined.


(** C5 as stated fails: after a search has been cached and the disaster
    deleted, the same request is answered 200 from the cache although the
    disaster id no longer exists. *)
Lemma getResources_answers_deleted_disaster_from_cache :
  w_disasters Sample.stale_world !! req_disasterId Sample.plain_request = None
  /\ exists resp : ResourcesResponse,
      run_outcome (getResources Sample.plain_request Sample.stale_world)
      = Ret (mkHttpResponse 200 (BodyCached (PResources resp)))
      /\ List.length (resp_resources resp) = 5%nat.
Proof.
  pose proof (getResources_first_search
                Sample.plain_request Sample.city_world
                (mkDisaster "d1" "Flood") eq_refl eq_refl eq_refl eq_refl
                (lookup_empty _) (lookup_singleton_eq _ _) eq_refl eq_refl)
    as Hfirst.
  cbv zeta in Hfirst.
  unfold Sample.stale_world. rewrite Hfirst. clear Hfirst.
  set (resp :=
         response_of Sample.plain_request (mkDisaster "d1" "Flood")
           (map Synthesized
              (mocks_from (req_disasterId Sample.plain_request)
                 (req_lat Sample.plain_request) (req_lng Sample.plain_request)
                 Sample.city_world 0 baseResources))
           (w_clock Sample.city_world 5)).
  split.
  - cbn. apply lookup_delete_eq.
  - exists resp. split; [|reflexivity].
    rewrite (getResources_cached _ _
               (mkCacheRow (PResources resp)
                           (w_clock Sample.city_world 6 + 1800 * 1000))).
    + reflexivity.
    + reflexivity.
    + cbn. apply lookup_insert_eq.
    + cbn. lia.
    + reflexivity.
Qed.

(** *** Distance fields *)

Lemma mocks_from_distance (id : string) (lat lng : option string) (w : World)
      (l : list BaseResource) (i : nat) :
  Forall (fun m =>
            m_distance_km m
            = if both_given lat lng
              then Some (calculateDistance_num (to_number lat) (to_number lng)
                                               (m_latitude m) (m_longitude m))
              else None)
         (mocks_from id lat lng w i l).
Proof.
  revert i. induction l as [|b l IH]; intros i; [constructor|].
  change (mocks_from id lat lng w i (b :: l))
    with (mock_of id lat lng w i b :: mocks_from id lat lng w (S i) l).
  constructor; [reflexivity|apply IH].
Qed.



Lemma resp_resources_response_of (req : GetRequest) (d : Disaster)
      (items : list ResourceItem) (now : Z) :
  resp_resources (response_of req d items now) = items.
Proof. reflexivity. Qed.


Lemma body_resources_inj (code : Z) (a b : ResourcesResponse) :
  Ret (mkHttpResponse code (BodyResources a))
  = Ret (mkHttpResponse code (BodyResources b)) ->
  a = b.
Proof. intros Heq. injection Heq as Heq. exact Heq. Qed.



(** The search without coordinates on [shelter_world]: the stored shelter is
    returned. *)
Lemma shelter_search_run :
  run_outcome (getResources Sample.plain_request Sample.shelter_world)
  = Ret (mkHttpResponse 200
           (BodyResources
              (response_of Sample.plain_request (mkDisaster "d1" "Flood")
                           [Stored Sample.shelter_row]
                           (w_clock Sample.shelter_world 0%nat)))).
Proof.
  destruct (on_cache_miss_stored
              Sample.plain_request (advance_fault Sample.shelter_world)
              (mkDisaster "d1" "Flood") eq_refl
              (lookup_singleton_eq _ _) eq_refl eq_refl)
    as (w' & t & Hrun & _).
  { discriminate. }
  rewrite getResources_uncached; [|reflexivity|apply lookup_empty].
  rewrite Hrun. reflexivity.
Qed.


(** ** Resource creation *)

Lemma createResource_invalid (req : PostRequest) (w : World) :
  required_present (req_body req) = false ->
  createResource req w
  = (Ret (mkHttpResponse 400
            (BodyError "disaster_id, name, and type are required")),
     w, []).
Proof.
  unfold required_present, createResource, try_catch. intros Hmissing.
  destruct (Js.truthy (b_disaster_id (req_body req)));
    destruct (Js.truthy (b_name (req_body req)));
    destruct (Js.truthy (b_type (req_body req)));
    try discriminate Hmissing; reflexivity.
Qed.

Lemma resources_insert_run (r : Store.NewResource) (w : World) :
  Store.resources_insert r w =
    match w_fault w 0%nat with
    | Served =>
        let row :=
          mkResourceRow (Store.n_id r) (Store.n_disaster_id r)
                        (Store.n_name r) (Store.n_location_name r)
                        (Store.n_type r) (Store.n_capacity r)
                        (Store.n_contact_info r) (Store.n_location r)
                        (w_clock w 0%nat) in
        (Ret (QData row),
         with_resources (w_resources w ++ [row]) (advance_fault w),
         [ResourcesInsert (QData row)])
    | Failed code =>
        (Ret (QError code), advance_fault w, [ResourcesInsert (QError code)])
    | Threw => (Thrown, advance_fault w, [ResourcesInsert (QError "")])
    end.
Proof.
  unfold Store.resources_insert, bind, next_fault; cbn.
  destruct (w_fault w 0%nat); reflexivity.
Qed.

(** What [POST /resources] does once the required fields are there, by the
    answer of the datastore to the insert. *)
Lemma createResource_valid (req : PostRequest) (w : World) :
  required_present (req_body req) = true ->
  createResource req w =
    match w_fault w 0%nat with
    | Served =>
        (Ret (mkHttpResponse 201 (BodyCreated (new_row req w))),
         with_resources (w_resources w ++ [new_row req w])
                        (advance_fault (advance_uuid w)),
         [ResourcesInsert (QData (new_row req w));
          Log LogInfo "Resource created";
          Emit (DisasterRoom (b_disaster_id (req_body req)))
               "resources_updated" (new_row req w)])
    | Failed code =>
        (Ret (mkHttpResponse 500 (BodyError "Failed to create resource")),
         advance_fault (advance_uuid w),
         [ResourcesInsert (QError code); Log LogError "Error creating resource:"])
    | Threw =>
        (Ret (mkHttpResponse 500 (BodyError "Internal server error")),
         advance_fault (advance_uuid w),
         [ResourcesInsert (QError "");
          Log LogError "Unexpected error in POST /resources:"])
    end.
Proof.
  unfold required_present, createResource, try_catch. intros Hpresent.
  destruct (Js.truthy (b_disaster_id (req_body req)));
    [|discriminate Hpresent].
  destruct (Js.truthy (b_name (req_body req))); [|discriminate Hpresent].
  destruct (Js.truthy (b_type (req_body req))); [|discriminate Hpresent].
  cbn [negb orb].
  unfold bind at 1. cbn [uuidv4].
  unfold bind at 1. rewrite resources_insert_run.
  change (w_fault (advance_uuid w) 0%nat) with (w_fault w 0%nat).
  destruct (w_fault w 0%nat); reflexivity.
Qed.

(** C9: when [disaster_id], [name] or [type] is missing from the body,
    [POST /resources] answers 400 at once: nothing is drawn, no datastore
    call is made (the trace is empty, so no insert), and the world,
    with its [resources] table, is exactly as before. *)
Theorem createResource_rejects_missing_field (req : PostRequest) (w : World) :
  b_disaster_id (req_body req) = Js.Undefined
  \/ b_name (req_body req) = Js.Undefined
  \/ b_type (req_body req) = Js.Undefined ->
  createResource req w
  = (Ret (mkHttpResponse 400
            (BodyError "disaster_id, name, and type are required")),
     w, []).
Proof.
  intros Hmissing. apply createResource_invalid.
  unfold required_present.
  destruct Hmissing as [-> | [-> | ->]]; cbn [Js.truthy].
  - reflexivity.
  - rewrite andb_false_r. reflexivity.
  - apply andb_false_r.
Qed.

Lemma createResource_rejects_missing_field_witness :
  createResource Sample.nameless_post Sample.city_world
  = (Ret (mkHttpResponse 400
            (BodyError "disaster_id, name, and type are required")),
     Sample.city_world, []).
Proof.
  apply (createResource_rejects_missing_field
           Sample.nameless_post Sample.city_world).
  right. left. reflexivity.
Defined.

(** C7: in every run of [POST /resources] that persists a resource, the
    trace is the insert, a log line, and then exactly one
    [resources_updated] event to the room of the submitted disaster id whose
    payload is the row the datastore stored and returned; the row is in the
    table and is the body of the 201 answer.  In a run that persists
    nothing, no event is published and the table is as before.  A valid
    request whose insert the datastore serves does persist. *)
Theorem createResource_publishes_after_persisting
        (req : PostRequest) (w : World) :
  let r := createResource req w in
  (forall row,
      In (ResourcesInsert (QData row)) (run_trace r) ->
      run_trace r
      = [ResourcesInsert (QData row); Log LogInfo "Resource created";
         Emit (DisasterRoom (b_disaster_id (req_body req)))
              "resources_updated" row]
      /\ w_resources (run_world r) = w_resources w ++ [row]
      /\ run_outcome r = Ret (mkHttpResponse 201 (BodyCreated row)))
  /\ ((forall row, ~ In (ResourcesInsert (QData row)) (run_trace r)) ->
      (forall room event payload,
          ~ In (Emit room event payload) (run_trace r))
      /\ w_resources (run_world r) = w_resources w)
  /\ (required_present (req_body req) = true ->
      w_fault w 0%nat = Served ->
      In (ResourcesInsert (QData (new_row req w))) (run_trace r)).
Proof.
  intros r; subst r.
  destruct (required_present (req_body req)) eqn:Hpresent.
  - rewrite (createResource_valid _ _ Hpresent).
    destruct (w_fault w 0%nat) as [|code|]; cbn.
    + split; [|split].
      * intros row [Heq | [Heq | [Heq | []]]]; try discriminate Heq.
        injection Heq as <-. repeat split.
      * intros Hnone. exfalso. apply (Hnone (new_row req w)). left.
        reflexivity.
      * intros _ _. left. reflexivity.
    + split; [|split].
      * intros row [Heq | [Heq | []]]; discriminate Heq.
      * intros _. split; [|reflexivity].
        intros room event payload [Heq | [Heq | []]]; discriminate Heq.
      * intros _ Hserved. discriminate Hserved.
    + split; [|split].
      * intros row [Heq | [Heq | []]]; discriminate Heq.
      * intros _. split; [|reflexivity].
        intros room event payload [Heq | [Heq | []]]; discriminate Heq.
      * intros _ Hserved. discriminate Hserved.
  - rewrite (createResource_invalid _ _ Hpresent). cbn.
    split; [|split].
    + intros row [].
    + intros _. split; [|reflexivity]. intros room event payload [].
    + intros Habsurd. discriminate Habsurd.
Qed.

Lemma createResource_publishes_after_persisting_witness :
  run_trace (createResource Sample.equator_post Sample.city_world)
  = [ResourcesInsert
       (QData (new_row Sample.equator_post Sample.city_world));
     Log LogInfo "Resource created";
     Emit (DisasterRoom (Js.Str "d1")) "resources_updated"
          (new_row Sample.equator_post Sample.city_world)].
Proof.
  destruct (createResource_publishes_after_persisting
              Sample.equator_post Sample.city_world)
    as (Hpersisted & _ & Hserved).
  apply Hpersisted. apply Hserved; reflexivity.
Defined.

(** ** Presence of coordinates *)







(** * Further properties *)

(** ** The cache store under any datastore behaviour *)

Lemma cleanExpiredCache_total (w : World) :
  exists w' t,
    cleanExpiredCache w = (Ret tt, w', t)
    /\ same_tables w w'
    /\ same_draws w w'
    /\ Forall cache_effect t.
Proof.
  unfold cleanExpiredCache, try_catch, Store.cache_delete_lt, bind, next_fault,
    clock_now, advance_clock; cbn.
  destruct (w_fault w 0%nat); cbn; do 2 eexists; cache_only_run.
Qed.

(** The [cache] table after [getCachedData key]: as it was, or without the
    entry of [key]. *)
Lemma getCachedData_cache (key : string) (w : World) :
  w_cache (run_world (getCachedData key w)) = w_cache w
  \/ w_cache (run_world (getCachedData key w)) = delete key (w_cache w).
Proof.
  unfold getCachedData, try_catch, Store.cache_select_single, bind, next_fault,
    advance_fault.
  destruct (w_fault w 0%nat) as [|code|]; cbn.
  - destruct (w_cache w !! key) as [row|]; cbn; [|left; reflexivity].
    destruct (c_expires_at row <? w_clock w 0%nat); cbn; [|left; reflexivity].
    unfold Store.cache_delete, bind, next_fault, advance_clock; cbn.
    destruct (shift (w_fault w) 0%nat); cbn;
      [right; reflexivity|left; reflexivity|left; reflexivity].
  - destruct (String.eqb code Store.NO_ROWS); cbn; left; reflexivity.
  - left; reflexivity.
Qed.

(** The [cache] table after [setCachedData key value ttl]: as it was, or with
    the entry of [key] replaced. *)
Lemma setCachedData_cache (key : string) (value : Payload) (ttl : Z)
      (w : World) :
  w_cache (run_world (setCachedData key value ttl w)) = w_cache w
  \/ w_cache (run_world (setCachedData key value ttl w))
     = <[key := mkCacheRow value (w_clock w 0%nat + ttl * 1000)]> (w_cache w).
Proof.
  unfold setCachedData, try_catch, Store.cache_upsert, bind, next_fault,
    clock_now, advance_clock; cbn.
  destruct (w_fault w 0%nat); cbn;
    [right; reflexivity|left; reflexivity|left; reflexivity].
Qed.

(** X1: the three cache operations never raise an exception, whatever the
    datastore does (serves, rejects or throws at each call): [getCachedData]
    always returns a value or absent, [setCachedData] and
    [cleanExpiredCache] always return.  None of them changes the [disasters]
    or the [resources] table, and all they do outside is read or write the
    [cache] table and log. *)
Theorem cache_operations_never_throw
        (key : string) (value : Payload) (ttl : Z) (w : World) :
  let get := getCachedData key w in
  let set := setCachedData key value ttl w in
  let sweep := cleanExpiredCache w in
  (exists o, run_outcome get = Ret o)
  /\ run_outcome set = Ret tt
  /\ run_outcome sweep = Ret tt
  /\ same_tables w (run_world get)
  /\ same_tables w (run_world set)
  /\ same_tables w (run_world sweep)
  /\ Forall cache_effect (run_trace get)
  /\ Forall cache_effect (run_trace set)
  /\ Forall cache_effect (run_trace sweep).
Proof.
  intros get set sweep; subst get set sweep.
  destruct (getCachedData_total key w) as (o & w1 & t1 & -> & Hg & _ & Htg).
  destruct (setCachedData_total key value ttl w)
    as (w2 & t2 & -> & Hs & _ & Hts).
  destruct (cleanExpiredCache_total w) as (w3 & t3 & -> & Hc & _ & Htc).
  cbn. split; [exists o; reflexivity|].
  repeat (split; [first [reflexivity|assumption]|]). assumption.
Qed.

(** X2: when the datastore rejects or throws at the call a cache operation
    makes, the operation changes nothing: the lookup counts as a miss
    ([getCachedData] returns absent), [setCachedData] stores nothing and
    [cleanExpiredCache] removes nothing. *)
Theorem cache_failure_changes_nothing
        (key : string) (value : Payload) (ttl : Z) (w : World) :
  w_fault w 0%nat <> Served ->
  run_outcome (getCachedData key w) = Ret None
  /\ w_cache (run_world (getCachedData key w)) = w_cache w
  /\ w_cache (run_world (setCachedData key value ttl w)) = w_cache w
  /\ w_cache (run_world (cleanExpiredCache w)) = w_cache w.
Proof.
  intros Hdown.
  unfold getCachedData, setCachedData, cleanExpiredCache, try_catch,
    Store.cache_select_single, Store.cache_upsert, Store.cache_delete_lt,
    bind, next_fault, clock_now, advance_clock, advance_fault; cbn.
  destruct (w_fault w 0%nat) as [|code|]; [congruence| |]; cbn.
  - destruct (String.eqb code Store.NO_ROWS); cbn; repeat split.
  - repeat split.
Qed.

Lemma cache_failure_changes_nothing_witness :
  run_outcome (getCachedData "k" Cases.down_world) = Ret None.
Proof.
  destruct (cache_failure_changes_nothing
              "k" (PJson Js.Null) 60 Cases.down_world) as [Hget _].
  - cbn. discriminate.
  - exact Hget.
Defined.

(** X3: an entry is not served once its time to live has passed.  When the
    clock reads later than the expiry written by [setCachedData] (the time of
    the write plus [ttl] seconds), a [getCachedData] on the same key returns
    absent and removes the entry. *)
Theorem set_then_get_after_expiry
        (key : string) (value : Payload) (ttl : Z) (w : World) :
  w_fault w 0%nat = Served ->
  w_fault w 1%nat = Served ->
  w_fault w 2%nat = Served ->
  w_clock w 0%nat + ttl * 1000 < w_clock w 1%nat ->
  let r := (let* _ := setCachedData key value ttl in getCachedData key) w in
  run_outcome r = Ret None
  /\ w_cache (run_world r) !! key = None.
Proof.
  intros Hupsert Hselect Hdelete Hlate r; subst r.
  unfold bind. rewrite (setCachedData_served _ _ _ _ Hupsert).
  rewrite getCachedData_served by assumption.
  cbn [w_cache with_cache].
  rewrite lookup_insert_eq. cbn [c_expires_at].
  change (w_clock (with_cache _ (advance_fault (advance_clock w))) 0%nat)
    with (w_clock w 1%nat).
  destruct (Z.ltb_spec (w_clock w 0%nat + ttl * 1000) (w_clock w 1%nat));
    [|lia].
  cbn. split; [reflexivity|]. apply lookup_delete_eq.
Qed.

Lemma set_then_get_after_expiry_witness :
  run_outcome
    ((let* _ := setCachedData "k" (PJson (Js.Str "v")) 1800 in
      getCachedData "k") Cases.hourly_world)
  = Ret None.
Proof.
  destruct (set_then_get_after_expiry
              "k" (PJson (Js.Str "v")) 1800 Cases.hourly_world) as [Hget _].
  - reflexivity.
  - reflexivity.
  - reflexivity.
  - cbn. lia.
  - exact Hget.
Defined.

(** X4: the periodic sweep never changes what a read returns.  On a clock
    that does not run backwards, [getCachedData key] after
    [cleanExpiredCache] returns what it would have returned at the same
    clock reading had the sweep removed nothing: every entry the sweep
    deletes is one the read would have treated as expired. *)
Theorem cleanExpiredCache_is_invisible (key : string) (w : World) :
  w_fault w 0%nat = Served ->
  w_fault w 1%nat = Served ->
  w_fault w 2%nat = Served ->
  w_clock w 0%nat <= w_clock w 1%nat ->
  run_outcome ((let* _ := cleanExpiredCache in getCachedData key) w)
  = run_outcome (getCachedData key (advance_fault (advance_clock w))).
Proof.
  intros Hsweep Hselect Hdelete Hclock.
  unfold bind. rewrite (cleanExpiredCache_served _ Hsweep).
  rewrite !getCachedData_served by assumption.
  cbn [w_cache with_cache].
  change (w_cache (advance_fault (advance_clock w))) with (w_cache w).
  change (w_clock (with_cache _ (advance_fault (advance_clock w))) 0%nat)
    with (w_clock w 1%nat).
  change (w_clock (advance_fault (advance_clock w)) 0%nat)
    with (w_clock w 1%nat).
  destruct (w_cache w !! key) as [row|] eqn:Hrow.
  - destruct (Z.ltb_spec (c_expires_at row) (w_clock w 0%nat)) as [Hold|Hnew].
    + assert (Hgone :
                filter (fun kv => ~ (c_expires_at (snd kv) < w_clock w 0%nat))
                       (w_cache w) !! key = None).
      { apply map_lookup_filter_None. right. intros row' Hrow' Hkeep.
        cbn in Hkeep. replace row' with row in Hkeep by congruence. lia. }
      rewrite Hgone.
      destruct (Z.ltb_spec (c_expires_at row) (w_clock w 1%nat));
        [reflexivity|lia].
    + assert (Hkept :
                filter (fun kv => ~ (c_expires_at (snd kv) < w_clock w 0%nat))
                       (w_cache w) !! key = Some row).
      { apply map_lookup_filter_Some. split; [exact Hrow|]. cbn. lia. }
      rewrite Hkept.
      destruct (c_expires_at row <? w_clock w 1%nat); reflexivity.
  - assert (Hgone :
              filter (fun kv => ~ (c_expires_at (snd kv) < w_clock w 0%nat))
                     (w_cache w) !! key = None).
    { apply map_lookup_filter_None. left. exact Hrow. }
    rewrite Hgone. reflexivity.
Qed.

Lemma cleanExpiredCache_is_invisible_witness :
  run_outcome ((let* _ := cleanExpiredCache in getCachedData "k")
                 Sample.boundary_world)
  = run_outcome (getCachedData "k"
                   (advance_fault (advance_clock Sample.boundary_world))).
Proof.
  apply (cleanExpiredCache_is_invisible "k" Sample.boundary_world).
  - reflexivity.
  - reflexivity.
  - reflexivity.
  - cbn. lia.
Defined.

(** X5: a cache operation on one key leaves the entries of every other key
    as they were, whatever the datastore answers: after [getCachedData key]
    or [setCachedData key value ttl], the entry of a key other than [key] is
    what it was before. *)
Theorem cache_access_is_per_key
        (key other : string) (value : Payload) (ttl : Z) (w : World) :
  other <> key ->
  w_cache (run_world (getCachedData key w)) !! other = w_cache w !! other
  /\ w_cache (run_world (setCachedData key value ttl w)) !! other
     = w_cache w !! other.
Proof.
  intros Hother. split.
  - destruct (getCachedData_cache key w) as [-> | ->]; [reflexivity|].
    apply lookup_delete_ne. congruence.
  - destruct (setCachedData_cache key value ttl w) as [-> | ->]; [reflexivity|].
    apply lookup_insert_ne. congruence.
Qed.

Lemma cache_access_is_per_key_witness :
  w_cache (run_world (setCachedData "j" (PJson Js.Null) 60
                                    Sample.boundary_world)) !! "k"
  = w_cache Sample.boundary_world !! "k".
Proof.
  destruct (cache_access_is_per_key
              "j" "k" (PJson Js.Null) 60 Sample.boundary_world) as [_ Hset].
  - discriminate.
  - exact Hset.
Defined.

(** ** The search route under any datastore behaviour *)

Lemma cache_effect_read_effect (t : list Effect) :
  Forall cache_effect t -> Forall read_effect t.
Proof.
  apply List.Forall_impl. intros e He. destruct e; cbn in *; tauto.
Qed.

Lemma same_tables_trans (w1 w2 w3 : World) :
  same_tables w1 w2 -> same_tables w2 w3 -> same_tables w1 w3.
Proof. unfold same_tables. intros [H1 H2] [H3 H4]. split; congruence. Qed.

Lemma same_tables_advance_fault (w1 w2 : World) :
  same_tables w1 w2 -> same_tables w1 (advance_fault w2).
Proof. unfold same_tables. intros [H1 H2]. split; assumption. Qed.

(** X6: [GET /resources/:disasterId] always answers, whatever the request
    and whatever the datastore does at each call: the handler never lets an
    exception escape, the status is 200, 404 or 500, and the body is an
    error message exactly when the status is not 200.  A search stores no
    resource and publishes no event, and leaves the [disasters] and
    [resources] tables as they were. *)
Theorem getResources_always_answers (req : GetRequest) (w : World) :
  let r := getResources req w in
  exists resp : HttpResponse,
    run_outcome r = Ret resp
    /\ (status resp = 200 \/ status resp = 404 \/ status resp = 500)
    /\ (status resp <> 200 <-> exists error, body resp = BodyError error)
    /\ same_tables w (run_world r)
    /\ Forall read_effect (run_trace r).
Proof.
  intros r; subst r.
  destruct (getResources_run req w)
    as (o & w1 & t1 & _ & Htables & _ & Ht1 & [Hhit | Hmiss]).
  - destruct Hhit as (p & _ & _ & ->). eexists. split; [reflexivity|].
    cbn. split; [left; reflexivity|].
    split; [split; [congruence|intros [e He]; discriminate He]|].
    split; [exact Htables|].
    apply Forall_app; split;
      [apply cache_effect_read_effect; exact Ht1|repeat constructor].
  - destruct Hmiss as (_ & ->).
    apply cache_effect_read_effect in Ht1.
    destruct (on_cache_miss_run req w1) as
        [Hf | Hf | code Hf Hcode | d Hf Hd Hg
         | d Hf Hd Hg Hq | d code Hf Hd Hg Hq
         | d w' t Hf Hd Hg Hq Hrows Hsame Ht
         | d w' t Hf Hd Hg Hq Hrows Hsame Ht];
      unfold after_trace, catch_get, run_outcome, run_world, run_trace;
      cbn [fst snd]; eexists; (split; [reflexivity|]); cbn [status body].
    all: try apply cache_effect_read_effect in Ht.
    all: split; [tauto|].
    all: split;
      [split;
       [intros Hs; first [congruence | eexists; reflexivity]
       |intros [e He]; first [discriminate He | congruence]]|].
    all: split;
      [first [exact (same_tables_trans _ _ _ Htables Hsame)
             |repeat apply same_tables_advance_fault; exact Htables]|].
    all: repeat (apply Forall_app; split); try assumption;
      repeat constructor.
Qed.

(** *** Reuse of a search result *)

(** [getCachedData] advances the fault oracle and the clock, and nothing
    else of the streams. *)
Lemma getCachedData_streams (key : string) (w : World) :
  exists i j : nat,
    w_fault (run_world (getCachedData key w)) = (fun n => w_fault w (i + n)%nat)
    /\ w_clock (run_world (getCachedData key w))
       = (fun n => w_clock w (j + n)%nat).
Proof.
  unfold getCachedData, try_catch, Store.cache_select_single, bind, next_fault,
    advance_fault.
  destruct (w_fault w 0%nat) as [|code|]; cbn.
  - destruct (w_cache w !! key) as [row|]; cbn;
      [|exists 1%nat, 0%nat; split; reflexivity].
    destruct (c_expires_at row <? w_clock w 0%nat); cbn;
      [|exists 1%nat, 1%nat; split; reflexivity].
    unfold Store.cache_delete, bind, next_fault, advance_clock; cbn.
    destruct (shift (w_fault w) 0%nat); cbn;
      exists 2%nat, 1%nat; split; reflexivity.
  - destruct (String.eqb code Store.NO_ROWS); cbn;
      exists 1%nat, 0%nat; split; reflexivity.
  - exists 1%nat, 0%nat; split; reflexivity.
Qed.

(** A miss of a request without both coordinates on a datastore that
    serves the three calls, for a disaster that exists: the response is
    written to the cache under the key of the request, to expire 1800 s
    after a reading of the clock. *)
Lemma on_cache_miss_served (req : GetRequest) (w : World) (d : Disaster) :
  w_fault w 0%nat = Served ->
  w_fault w 1%nat = Served ->
  w_fault w 2%nat = Served ->
  w_disasters w !! req_disasterId req = Some d ->
  both_given (req_lat req) (req_lng req) = false ->
  exists (response : ResourcesResponse) (w' : World) (t : list Effect)
         (i j k : nat),
    on_cache_miss req w
    = (Ret (mkHttpResponse 200 (BodyResources response)), w', t)
    /\ w_cache w'
       = <[cache_key req := mkCacheRow (PResources response)
                                       (w_clock w k + 1800 * 1000)]>
           (w_cache w)
    /\ w_fault w' = (fun n => w_fault w (i + n)%nat)
    /\ w_clock w' = (fun n => w_clock w (j + n)%nat).
Proof.
  intros H0 H1 H2 Hd Hgiven.
  unfold on_cache_miss.
  unfold bind at 1. rewrite disasters_select_single_run, H0, Hd, Hgiven.
  unfold bind at 1. rewrite resources_select_run.
  change (w_fault (advance_fault w) 0%nat) with (w_fault w 1%nat).
  rewrite H1.
  destruct (Nat.eqb (List.length _) 0).
  - unfold bind at 1. rewrite generateMockResources_run.
    unfold bind. cbn [clock_now].
    rewrite setCachedData_served by exact H2.
    eexists _, _, _, 3%nat, 7%nat, 6%nat.
    split; [reflexivity|]. split; [reflexivity|]. split; reflexivity.
  - unfold bind. cbn [clock_now].
    rewrite setCachedData_served by exact H2.
    eexists _, _, _, 3%nat, 2%nat, 1%nat.
    split; [reflexivity|]. split; [reflexivity|]. split; reflexivity.
Qed.

(** X7: a search result is reused for thirty minutes.  On a datastore that
    serves every call and a clock whose readings stay within 1800 s of each
    other, once [GET /resources/:disasterId] has answered a request with a
    freshly built response, the same request is answered 200 with that very
    response, read from the cache: the second run makes no disaster lookup
    and no resource query, and changes no table. *)
Theorem getResources_repeat_is_served_from_cache
        (req : GetRequest) (w : World) (resp : ResourcesResponse) :
  (forall n, w_fault w n = Served) ->
  (forall n m, w_clock w m <= w_clock w n + 1800 * 1000) ->
  run_outcome (getResources req w)
  = Ret (mkHttpResponse 200 (BodyResources resp)) ->
  let w' := run_world (getResources req w) in
  getResources req w'
  = (Ret (mkHttpResponse 200 (BodyCached (PResources resp))),
     advance_clock (advance_fault w'),
     [CacheSelect (cache_key req);
      Log LogInfo "Serving cached resources data for disaster"]).
Proof.
  intros Hserved Hclock Hfirst w'; subst w'.
  destruct (getResources_run req w)
    as (o & w1 & t1 & Hprobe & _ & _ & _ & [Hhit | Hmiss]).
  { exfalso. destruct Hhit as (p & _ & _ & Hrun).
    rewrite Hrun in Hfirst. discriminate Hfirst. }
  destruct Hmiss as (_ & Hrun).
  destruct (getCachedData_streams (cache_key req) w) as (i0 & j0 & Hf & Hc).
  rewrite Hprobe in Hf, Hc.
  change (run_world (Ret o, w1, t1)) with w1 in Hf, Hc.
  assert (Hserved1 : forall n, w_fault w1 n = Served).
  { intros n. rewrite Hf. apply Hserved. }
  destruct (w_disasters w1 !! req_disasterId req) as [d|] eqn:Hd.
  - destruct (both_given (req_lat req) (req_lng req)) eqn:Hgiven.
    { exfalso.
      rewrite Hrun, (on_cache_miss_center req w1 d Hgiven (Hserved1 0%nat) Hd)
        in Hfirst.
      discriminate Hfirst. }
    destruct (on_cache_miss_served req w1 d (Hserved1 0%nat) (Hserved1 1%nat)
                                   (Hserved1 2%nat) Hd Hgiven)
      as (response & w2 & t & i & j & k & Hmiss & Hcache & Hf2 & Hc2).
    rewrite Hrun, Hmiss in Hfirst |- *.
    unfold after_trace, catch_get, run_outcome, run_world in Hfirst |- *.
    cbn [fst snd] in Hfirst |- *.
    apply body_resources_inj in Hfirst. subst response.
    rewrite (getResources_cached req w2
               (mkCacheRow (PResources resp) (w_clock w1 k + 1800 * 1000))).
    + reflexivity.
    + rewrite Hf2. apply Hserved1.
    + rewrite Hcache. apply lookup_insert_eq.
    + rewrite Hc2, Hc. cbn [c_expires_at]. apply Hclock.
    + reflexivity.
  - exfalso.
    rewrite Hrun, (on_cache_miss_not_found req w1 (Hserved1 0%nat) Hd)
      in Hfirst.
    discriminate Hfirst.
Qed.

Lemma getResources_repeat_is_served_from_cache_witness :
  exists resp : ResourcesResponse,
    run_outcome
      (getResources Sample.plain_request
         (run_world (getResources Sample.plain_request Sample.shelter_world)))
    = Ret (mkHttpResponse 200 (BodyCached (PResources resp))).
Proof.
  eexists.
  rewrite (getResources_repeat_is_served_from_cache
             Sample.plain_request Sample.shelter_world _
             (fun _ => eq_refl)
             (fun _ _ => ltac:(cbn; lia))
             shelter_search_run).
  reflexivity.
Defined.

(** *** What a freshly built response holds *)

Lemma column_eq_true (v : Js.value) (s : string) :
  Store.column_eq v s = true <-> v = Js.Str s.
Proof.
  unfold Store.column_eq. split.
  - destruct v; try discriminate. intros Heq.
    apply String.eqb_eq in Heq. congruence.
  - intros ->. apply String.eqb_refl.
Qed.

Lemma type_filter_given (req : GetRequest) (t : string) :
  type_filter_of req = Some t <-> req_type req = Some t /\ t <> "".
Proof.
  unfold type_filter_of. destruct (req_type req) as [s|]; cbn.
  - destruct (String.eqb_spec s ""); cbn; split.
    + discriminate.
    + intros [Hs Hne]. congruence.
    + intros Hs. split; congruence.
    + intros [Hs _]. exact Hs.
  - split; [discriminate|intros [Hs _]; discriminate Hs].
Qed.

Lemma matches_columns (id : string) (type : option string)
      (row : ResourceRow) :
  Store.matches id type row = true <->
  r_disaster_id row = Js.Str id
  /\ forall t, type = Some t -> r_type row = Js.Str t.
Proof.
  unfold Store.matches. rewrite andb_true_iff, column_eq_true. split.
  - intros [Hid Htype]. split; [exact Hid|].
    intros t ->. apply column_eq_true. exact Htype.
  - intros [Hid Htype]. split; [exact Hid|].
    destruct type as [t|]; [|reflexivity].
    apply column_eq_true. exact (Htype t eq_refl).
Qed.

Lemma In_map_Stored (row : ResourceRow) (l : list ResourceRow) :
  In (Stored row) (List.map Stored l) <-> In row l.
Proof.
  rewrite in_map_iff. split.
  - intros (row' & Heq & Hin). injection Heq as <-. exact Hin.
  - intros Hin. exists row. split; [reflexivity|exact Hin].
Qed.

Lemma not_In_map_Synthesized (row : ResourceRow) (l : list MockResource) :
  ~ In (Stored row) (List.map Synthesized l).
Proof.
  intros Hin. apply in_map_iff in Hin.
  destruct Hin as (m & Heq & _). discriminate Heq.
Qed.

Lemma mocks_from_length (id : string) (lat lng : option string) (w : World)
      (i : nat) (l : list BaseResource) :
  List.length (mocks_from id lat lng w i l) = List.length l.
Proof.
  revert i. induction l as [|b l IH]; intros i; [reflexivity|].
  change (S (List.length (mocks_from id lat lng w (S i) l))
          = S (List.length l)).
  rewrite IH. reflexivity.
Qed.

(** X8: a freshly built search response is scoped to the request.  Whenever
    [GET /resources/:disasterId] answers with a response it built (not a
    cached one), the response names the requested disaster, its
    [total_resources] is the number of resources listed, and the list is
    either stored rows only or the five synthesized resources only.  Every
    stored row listed is a row of the [resources] table whose [disaster_id]
    is the requested id and, when a non-empty [type] was asked for, whose
    [type] is that type.  When no coordinates are given, every such row of
    the table is listed, so the synthesized catalogue appears only when the
    table has none. *)
Theorem getResources_rows_are_scoped
        (req : GetRequest) (w : World) (resp : ResourcesResponse) :
  run_outcome (getResources req w)
  = Ret (mkHttpResponse 200 (BodyResources resp)) ->
  resp_disaster_id resp = req_disasterId req
  /\ resp_total_resources resp = List.length (resp_resources resp)
  /\ ((exists rows, resp_resources resp = List.map Stored rows)
      \/ (exists mocks, resp_resources resp = List.map Synthesized mocks
                        /\ List.length mocks = 5%nat))
  /\ (forall row,
         In (Stored row) (resp_resources resp) ->
         In row (w_resources w)
         /\ r_disaster_id row = Js.Str (req_disasterId req)
         /\ (forall t, req_type req = Some t -> t <> "" ->
                       r_type row = Js.Str t))
  /\ (both_given (req_lat req) (req_lng req) = false ->
      forall row,
        In row (w_resources w) ->
        r_disaster_id row = Js.Str (req_disasterId req) ->
        (forall t, req_type req = Some t -> t <> "" ->
                   r_type row = Js.Str t) ->
        In (Stored row) (resp_resources resp)).
Proof.
  intros Hout.
  destruct (getResources_run req w)
    as (o & w1 & t1 & _ & [_ Hres] & _ & _ & [Hhit | Hmiss]).
  { exfalso. destruct Hhit as (p & _ & _ & Hrun).
    rewrite Hrun in Hout. discriminate Hout. }
  destruct Hmiss as (_ & Hrun). rewrite Hrun in Hout. clear Hrun.
  assert (Hfilter :
            forall row,
              In row (w_resources w) ->
              r_disaster_id row = Js.Str (req_disasterId req) ->
              (forall t, req_type req = Some t -> t <> "" ->
                         r_type row = Js.Str t) ->
              In row (scoped_rows req (w_resources w1))).
  { intros row Hin Hid Htype. apply filter_In. rewrite Hres.
    split; [exact Hin|].
    apply matches_columns. split; [exact Hid|].
    intros t Ht. apply type_filter_given in Ht. destruct Ht as [Ht Hne].
    exact (Htype t Ht Hne). }
  destruct (on_cache_miss_run req w1) as
      [Hf | Hf | code Hf Hcode | d Hf Hd Hg
       | d Hf Hd Hg Hq | d code Hf Hd Hg Hq
       | d w' t Hf Hd Hg Hq Hrows Hsame Ht
       | d w' t Hf Hd Hg Hq Hrows Hsame Ht];
    unfold run_outcome, after_trace, catch_get in Hout;
    cbn [fst snd] in Hout; try discriminate Hout;
    apply body_resources_inj in Hout; subst resp;
    rewrite resp_resources_response_of.
  - split; [reflexivity|]. split; [reflexivity|].
    split.
    { right. eexists. split; [reflexivity|]. apply mocks_from_length. }
    split.
    + intros row Hin. exfalso. exact (not_In_map_Synthesized _ _ Hin).
    + intros _ row Hin Hid Htype. exfalso.
      pose proof (Hfilter row Hin Hid Htype) as Hrow.
      rewrite Hrows in Hrow. exact Hrow.
  - split; [reflexivity|]. split; [reflexivity|].
    split; [left; eexists; reflexivity|].
    split.
    + intros row Hin. apply In_map_Stored in Hin.
      apply filter_In in Hin. destruct Hin as [Hin Hm].
      rewrite Hres in Hin. split; [exact Hin|].
      apply matches_columns in Hm. destruct Hm as [Hid Htype].
      split; [exact Hid|].
      intros ty Hty Hne. apply Htype. apply type_filter_given.
      split; assumption.
    + intros _ row Hin Hid Htype. apply In_map_Stored.
      exact (Hfilter row Hin Hid Htype).
Qed.

Lemma getResources_rows_are_scoped_witness :
  exists resp : ResourcesResponse,
    run_outcome (getResources Sample.plain_request Sample.shelter_world)
    = Ret (mkHttpResponse 200 (BodyResources resp))
    /\ resp_total_resources resp = List.length (resp_resources resp)
    /\ In (Stored Sample.shelter_row) (resp_resources resp)
    /\ forall row, In (Stored row) (resp_resources resp) ->
                   r_disaster_id row = Js.Str "d1".
Proof.
  eexists. split; [exact shelter_search_run|].
  destruct (getResources_rows_are_scoped
              Sample.plain_request Sample.shelter_world _ shelter_search_run)
    as (_ & Htotal & _ & Hsound & Hcomplete).
  split; [exact Htotal|]. split.
  - apply (Hcomplete eq_refl Sample.shelter_row).
    + left. reflexivity.
    + reflexivity.
    + intros t Ht. discriminate Ht.
  - intros row Hin. exact (proj1 (proj2 (Hsound row Hin))).
Defined.

(** *** A search while the cache cannot be reached *)

Lemma getCachedData_failed (key : string) (w : World) :
  w_fault w 0%nat <> Served ->
  exists t,
    getCachedData key w = (Ret None, advance_fault w, t)
    /\ Forall cache_effect t.
Proof.
  intros Hdown.
  unfold getCachedData, try_catch, Store.cache_select_single, bind, next_fault.
  destruct (w_fault w 0%nat) as [|code|]; [congruence| |]; cbn.
  - destruct (String.eqb code Store.NO_ROWS); cbn;
      eexists; (split; [reflexivity|repeat constructor]).
  - eexists; (split; [reflexivity|repeat constructor]).
Qed.

(** X9: a search without a center does not depend on the cache being
    available.  When the cache probe is rejected or throws, [lat] or [lng]
    is not given, and the datastore serves the disaster lookup and the
    resource query for a disaster that exists, [GET /resources/:disasterId]
    still answers 200 with a freshly built response, whatever happens to the
    attempt to cache it afterwards. *)
Theorem getResources_survives_cache_outage
        (req : GetRequest) (w : World) (d : Disaster) :
  both_given (req_lat req) (req_lng req) = false ->
  w_fault w 0%nat <> Served ->
  w_fault w 1%nat = Served ->
  w_fault w 2%nat = Served ->
  w_disasters w !! req_disasterId req = Some d ->
  exists resp : ResourcesResponse,
    run_outcome (getResources req w)
    = Ret (mkHttpResponse 200 (BodyResources resp))
    /\ resp_disaster_title resp = d_title d.
Proof.
  intros Hgiven Hdown Hlookup Hquery Hd.
  destruct (getCachedData_failed (cache_key req) w Hdown) as (t1 & Hprobe & _).
  assert (Hrun :
            getResources req w
            = after_trace t1 (catch_get (on_cache_miss req (advance_fault w)))).
  { unfold getResources, try_catch. unfold bind at 1. rewrite Hprobe.
    destruct (on_cache_miss req (advance_fault w)) as [[[a|] w2] t2];
      [reflexivity|].
    unfold after_trace, catch_get; cbn. rewrite <- app_assoc. reflexivity. }
  rewrite Hrun.
  destruct (on_cache_miss_run req (advance_fault w)) as
      [Hf | [[Hf Hd'] | Hf] | code Hf Hcode | d' Hf Hd' Hg
       | d' Hf Hd' Hg Hq | d' code Hf Hd' Hg Hq
       | d' w' t Hf Hd' Hg Hq Hrows Hsame Ht
       | d' w' t Hf Hd' Hg Hq Hrows Hsame Ht];
    change (w_fault (advance_fault w) 0%nat) with (w_fault w 1%nat) in *;
    change (w_fault (advance_fault w) 1%nat) with (w_fault w 2%nat) in *;
    change (w_disasters (advance_fault w)) with (w_disasters w) in *;
    try congruence.
  - replace d' with d by congruence. eexists. split; reflexivity.
  - replace d' with d by congruence. eexists. split; reflexivity.
Qed.

Lemma getResources_survives_cache_outage_witness :
  exists resp : ResourcesResponse,
    run_outcome (getResources Sample.plain_request Cases.outage_world)
    = Ret (mkHttpResponse 200 (BodyResources resp))
    /\ resp_disaster_title resp = "Flood".
Proof.
  apply (getResources_survives_cache_outage
           Sample.plain_request Cases.outage_world (mkDisaster "d1" "Flood")).
  - reflexivity.
  - cbn. discriminate.
  - reflexivity.
  - reflexivity.
  - apply lookup_singleton_eq.
Defined.

(** ** Resource creation under any datastore behaviour *)

(** X10: [POST /resources] always answers, whatever the body and whatever
    the datastore does: the handler never lets an exception escape and the
    status is 201, 400 or 500.  It never touches the [cache] or the
    [disasters] table, and it never removes or changes a stored resource:
    on 201 the [resources] table is the old one with the returned row
    appended, whose id is the next identifier of the generator; on any other
    status the body is an error message and the table is as it was. *)
Theorem createResource_always_answers (req : PostRequest) (w : World) :
  let r := createResource req w in
  exists resp : HttpResponse,
    run_outcome r = Ret resp
    /\ (status resp = 201 \/ status resp = 400 \/ status resp = 500)
    /\ w_cache (run_world r) = w_cache w
    /\ w_disasters (run_world r) = w_disasters w
    /\ (status resp = 201 ->
        exists row,
          body resp = BodyCreated row
          /\ r_id row = w_uuid w 0%nat
          /\ w_resources (run_world r) = w_resources w ++ [row])
    /\ (status resp <> 201 ->
        (exists error, body resp = BodyError error)
        /\ w_resources (run_world r) = w_resources w).
Proof.
  intros r; subst r.
  destruct (required_present (req_body req)) eqn:Hpresent.
  - rewrite (createResource_valid _ _ Hpresent).
    destruct (w_fault w 0%nat); eexists; (split; [reflexivity|]);
      cbn [status body run_world fst snd].
    + split; [tauto|]. split; [reflexivity|]. split; [reflexivity|].
      split; [|congruence].
      intros _. exists (new_row req w).
      split; [reflexivity|]. split; reflexivity.
    + split; [tauto|]. split; [reflexivity|]. split; [reflexivity|].
      split; [discriminate|].
      intros _. split; [eexists; reflexivity|reflexivity].
    + split; [tauto|]. split; [reflexivity|]. split; [reflexivity|].
      split; [discriminate|].
      intros _. split; [eexists; reflexivity|reflexivity].
  - rewrite (createResource_invalid _ _ Hpresent).
    eexists; (split; [reflexivity|]); cbn [status body run_world fst snd].
    split; [tauto|]. split; [reflexivity|]. split; [reflexivity|].
    split; [discriminate|].
    intros _. split; [eexists; reflexivity|reflexivity].
Qed.

Lemma createResource_world (req : PostRequest) (w : World) :
  exists resp,
    run_outcome (createResource req w) = Ret resp
    /\ w_cache (run_world (createResource req w)) = w_cache w
    /\ w_clock (run_world (createResource req w)) = w_clock w.
Proof.
  destruct (required_present (req_body req)) eqn:Hpresent.
  - rewrite (createResource_valid _ _ Hpresent).
    destruct (w_fault w 0%nat); eexists; repeat split.
  - rewrite (createResource_invalid _ _ Hpresent). eexists; repeat split.
Qed.

(** X11: creating a resource does not refresh cached searches.  When the
    cache holds an unexpired response under the key of a search request,
    that request is answered with the cached response after any
    [POST /resources], successful or not: the search after the creation
    returns what was cached before it. *)
Theorem cached_search_survives_create
        (post : PostRequest) (req : GetRequest) (w : World) (row : CacheRow) :
  w_cache w !! cache_key req = Some row ->
  payload_truthy (Some (c_value row)) = true ->
  w_clock w 0%nat <= c_expires_at row ->
  w_fault (run_world (createResource post w)) 0%nat = Served ->
  run_outcome ((let* _ := createResource post in getResources req) w)
  = Ret (mkHttpResponse 200 (BodyCached (c_value row))).
Proof.
  intros Hrow Htruthy Hfresh Hselect.
  destruct (createResource_world post w) as (resp & Hret & Hcache & Hclock).
  unfold bind.
  destruct (createResource post w) as [[o w1] t1].
  unfold run_outcome, run_world in *. cbn [fst snd] in *. subst o.
  rewrite (getResources_cached req w1 row).
  - reflexivity.
  - exact Hselect.
  - rewrite Hcache. exact Hrow.
  - rewrite Hclock. exact Hfresh.
  - exact Htruthy.
Qed.

Lemma cached_search_survives_create_witness :
  run_outcome ((let* _ := createResource Sample.equator_post in
                getResources Sample.city_request) Cases.cached_world)
  = Ret (mkHttpResponse 200 (BodyCached (PJson (Js.Str "v")))).
Proof.
  apply (cached_search_survives_create
           Sample.equator_post Sample.city_request Cases.cached_world
           (mkCacheRow (PJson (Js.Str "v")) 2000)).
  - apply lookup_singleton_eq.
  - reflexivity.
  - cbn. lia.
  - rewrite createResource_valid by reflexivity. reflexivity.
Defined.




(** ** Authentication *)

Lemma substring_whole (s : string) :
  String.substring 0 (String.length s) s = s.
Proof.
  induction s as [|a s IH]; [reflexivity|]. cbn. rewrite IH. reflexivity.
Qed.

Lemma prefix_split (p s : string) :
  String.prefix p s = true ->
  s = (p ++ substring_from (String.length p) s)%string.
Proof.
  revert s. induction p as [|c p IH]; intros s Hp.
  - unfold substring_from. cbn.
    rewrite Nat.sub_0_r, substring_whole. reflexivity.
  - destruct s as [|a s]; [discriminate Hp|].
    cbn in Hp. destruct (ascii_dec c a) as [->|]; [|discriminate Hp].
    change (String a s
            = String a (p ++ substring_from (String.length p) s)%string).
    f_equal. exact (IH s Hp).
Qed.

Lemma authenticateUser_next (authorization : option string) (user : MockUser) :
  authenticateUser authorization = Next user ->
  In user (List.map snd mockUsers)
  /\ authorization = Some ("Bearer " ++ mu_id user)%string.
Proof.
  unfold authenticateUser.
  destruct authorization as [authHeader|]; [|discriminate].
  destruct (negb (Js.truthy (Js.Str authHeader))); [discriminate|].
  destruct (String.prefix "Bearer " authHeader) eqn:Hprefix;
    [|discriminate].
  cbn [negb orb].
  destruct (List.find _ _) as [found|] eqn:Hfind; [|discriminate].
  intros Heq. injection Heq as ->.
  apply List.find_some in Hfind. destruct Hfind as [Hin Hid].
  apply String.eqb_eq in Hid.
  split; [exact Hin|].
  rewrite Hid. f_equal. exact (prefix_split _ _ Hprefix).
Qed.

Lemma substring_from_bearer (token : string) :
  substring_from 7 ("Bearer " ++ token) = token.
Proof.
  unfold substring_from.
  change (String.length ("Bearer " ++ token) - 7)%nat
    with (String.length token - 0)%nat.
  rewrite Nat.sub_0_r.
  change (String.substring 7 (String.length token) ("Bearer " ++ token))
    with (String.substring 0 (String.length token) token).
  apply substring_whole.
Qed.

Lemma prefix_append (p s : string) : String.prefix p (p ++ s) = true.
Proof.
  induction p as [|c p IH]; [destruct s; reflexivity|].
  change (String.prefix (String c p) (String c (p ++ s)) = true).
  cbn. destruct (ascii_dec c c) as [_|Hne]; [exact IH|].
  exfalso. apply Hne. reflexivity.
Qed.

Lemma authenticateUser_bearer (token : string) :
  authenticateUser (Some ("Bearer " ++ token)%string)
  = match List.find (fun u => String.eqb (mu_id u) token)
                    (List.map snd mockUsers) with
    | Some user => Next user
    | None => Unauthorized "Invalid authentication token"
    end.
Proof.
  unfold authenticateUser. rewrite substring_from_bearer.
  rewrite prefix_append.
  replace (Js.truthy (Js.Str ("Bearer " ++ token))) with true by reflexivity.
  reflexivity.
Qed.

Lemma authenticateUser_user (user : MockUser) :
  In user (List.map snd mockUsers) ->
  authenticateUser (Some ("Bearer " ++ mu_id user)%string) = Next user.
Proof.
  intros Hin. rewrite authenticateUser_bearer.
  cbn in Hin. destruct Hin as [<- | [<- | [<- | []]]]; reflexivity.
Qed.

(** X13: the mock authentication accepts exactly the ids of the mock users
    as bearer tokens.  [authenticateUser] lets a request through, as user
    [user], exactly when [user] is one of the three mock users and the
    [Authorization] header is ["Bearer "] followed by the id of that user.
    A bearer token that is the id of no mock user is answered 401 "Invalid
    authentication token", and a header that is absent or does not start
    with ["Bearer "] is answered 401 "Authentication required".  The id of
    a mock user is its user name, so the user name alone is a valid token:
    [GET /auth/me] with ["Bearer "] and a user name answers with the id, the
    user name and the role of that user. *)
Theorem authenticateUser_accepts_exactly_user_ids :
  (forall authorization user,
      authenticateUser authorization = Next user
      <-> In user (List.map snd mockUsers)
          /\ authorization = Some ("Bearer " ++ mu_id user)%string)
  /\ (forall token,
         (forall user, In user (List.map snd mockUsers) ->
                       mu_id user <> token) ->
         authenticateUser (Some ("Bearer " ++ token)%string)
         = Unauthorized "Invalid authentication token")
  /\ (forall authorization,
         (forall token, authorization <> Some ("Bearer " ++ token)%string) ->
         authenticateUser authorization
         = Unauthorized "Authentication required")
  /\ (forall user,
         In user (List.map snd mockUsers) ->
         getMe (Some ("Bearer " ++ mu_username user)%string)
         = mkAuthResponse 200 (AuthUser (user_of user))).
Proof.
  split; [|split; [|split]].
  - intros authorization user. split.
    + apply authenticateUser_next.
    + intros [Hin ->]. exact (authenticateUser_user user Hin).
  - intros token Hunknown. rewrite authenticateUser_bearer.
    destruct (List.find _ _) as [found|] eqn:Hfind; [|reflexivity].
    exfalso. apply List.find_some in Hfind. destruct Hfind as [Hin Hid].
    apply String.eqb_eq in Hid. exact (Hunknown found Hin Hid).
  - intros authorization Hnot. unfold authenticateUser.
    destruct authorization as [authHeader|]; [|reflexivity].
    destruct (negb (Js.truthy (Js.Str authHeader))); [reflexivity|].
    destruct (String.prefix "Bearer " authHeader) eqn:Hprefix;
      [|reflexivity].
    exfalso. apply (Hnot (substring_from 7 authHeader)).
    f_equal. exact (prefix_split _ _ Hprefix).
  - intros user Hin.
    assert (Hname : mu_username user = mu_id user).
    { cbn in Hin. destruct Hin as [<- | [<- | [<- | []]]]; reflexivity. }
    unfold getMe. rewrite Hname, (authenticateUser_user user Hin).
    reflexivity.
Qed.

(** X14: no resource is created without a valid token.  When the
    [Authorization] header of a [POST /resources] is not ["Bearer "]
    followed by the id of a mock user, the route answers 401 and the handler
    does not run: nothing is drawn, no datastore call is made, nothing is
    logged or published, and the world is exactly as before.  With the id of
    a mock user as token the route is the handler run for that user. *)
Theorem resources_post_route_requires_token :
  (forall (authorization : option string) (body : PostBody) (w : World),
      (forall user, In user (List.map snd mockUsers) ->
                    authorization <> Some ("Bearer " ++ mu_id user)%string) ->
      exists error,
        resources_post_route authorization body w
        = (Ret (mkHttpResponse 401 (BodyError error)), w, []))
  /\ (forall (user : MockUser) (body : PostBody),
         In user (List.map snd mockUsers) ->
         resources_post_route (Some ("Bearer " ++ mu_id user)%string) body
         = createResource (mkPostRequest body (user_of user))).
Proof.
  split.
  - intros authorization body w Hnot. unfold resources_post_route.
    destruct (authenticateUser authorization) as [user|error] eqn:Hauth.
    + exfalso. apply authenticateUser_next in Hauth.
      destruct Hauth as [Hin Heq]. exact (Hnot user Hin Heq).
    + exists error. reflexivity.
  - intros user body Hin. unfold resources_post_route.
    rewrite (authenticateUser_user user Hin). reflexivity.
Qed.

Lemma resources_post_route_requires_token_witness :
  exists error,
    resources_post_route (Some "Bearer intruder")
                         (req_body Sample.equator_post) Sample.city_world
    = (Ret (mkHttpResponse 401 (BodyError error)), Sample.city_world, []).
Proof.
  apply (proj1 resources_post_route_requires_token
           (Some "Bearer intruder") (req_body Sample.equator_post)
           Sample.city_world).
  intros user Hin. cbn in Hin.
  destruct Hin as [<- | [<- | [<- | []]]]; discriminate.
Defined.

Lemma user_entry_In :
  forall (username : Js.value) (user : MockUser),
    user_entry username = Some user ->
    In user (List.map snd mockUsers) /\ Js.truthy username = true.
Proof.
  fix IH 1. intros username user.
  destruct username as [| |b|n|s|fields|items]; try discriminate.
  - cbn [user_entry]. intros Hfind.
    destruct (List.find _ mockUsers) as [[key found]|] eqn:Hkey;
      [|discriminate Hfind].
    injection Hfind as <-.
    apply List.find_some in Hkey. destruct Hkey as [Hin Hs].
    apply String.eqb_eq in Hs. cbn [fst] in Hs. subst s.
    split.
    + apply in_map_iff. exists (key, found). split; [reflexivity|exact Hin].
    + cbn in Hin.
      destruct Hin as [Heq | [Heq | [Heq | []]]];
        injection Heq as <- _; reflexivity.
  - destruct items as [|item [|more rest]]; try discriminate.
    cbn [user_entry]. intros Hitem.
    split; [exact (proj1 (IH item user Hitem))|reflexivity].
Qed.

Lemma mock_password_truthy (user : MockUser) :
  In user (List.map snd mockUsers) ->
  Js.truthy (Js.Str (mu_password user)) = true.
Proof.
  intros Hin. cbn in Hin.
  destruct Hin as [<- | [<- | [<- | []]]]; reflexivity.
Qed.

Lemma password_differs_false (user : MockUser) (password : Js.value) :
  password_differs user password = false
  <-> password = Js.Str (mu_password user).
Proof.
  unfold password_differs. split.
  - destruct password; try discriminate. intros Heq.
    apply negb_false_iff, String.eqb_eq in Heq. congruence.
  - intros ->. rewrite String.eqb_refl. reflexivity.
Qed.

(** X15: the login endpoint never issues a token.  Whatever the runtime and
    whatever [username] and [password] the body holds, [POST /auth/login] is
    answered 400, 401 or 500 and never with a token: 400 exactly when
    [username] or [password] is missing or falsy; 500 "Internal server
    error", from the error handling middleware, exactly when both are given
    and either [username] has no string form or the credentials are those of
    a mock user, because the handler then evaluates
    [localStorage.setItem('token', response.data.token)], which raises;
    every other attempt is answered 401. *)
Theorem login_never_issues_token
        (rt : Runtime) (username password : Js.value) :
  let response := snd (login_route rt username password) in
  (auth_status response = 400 \/ auth_status response = 401
   \/ auth_status response = 500)
  /\ (forall token user, auth_body response <> AuthToken token user)
  /\ (auth_status response = 400
      <-> Js.truthy username = false \/ Js.truthy password = false)
  /\ (auth_status response = 500
      <-> Js.truthy username = true /\ Js.truthy password = true
          /\ (converts username = false
              \/ exists user, user_entry username = Some user
                              /\ password = Js.Str (mu_password user)))
  /\ ((exists user, user_entry username = Some user
                    /\ password = Js.Str (mu_password user)) ->
      auth_status response = 500).
Proof.
  intros response; subst response.
  assert (Hvalid :
            (exists user, user_entry username = Some user
                          /\ password = Js.Str (mu_password user)) ->
            Js.truthy username = true /\ Js.truthy password = true).
  { intros (user & Hentry & ->).
    apply user_entry_In in Hentry. destruct Hentry as [Hin Ht].
    split; [exact Ht|exact (mock_password_truthy _ Hin)]. }
  cut (let response := snd (login_route rt username password) in
       (auth_status response = 400 \/ auth_status response = 401
        \/ auth_status response = 500)
       /\ (forall token user, auth_body response <> AuthToken token user)
       /\ (auth_status response = 400
           <-> Js.truthy username = false \/ Js.truthy password = false)
       /\ (auth_status response = 500
           <-> Js.truthy username = true /\ Js.truthy password = true
               /\ (converts username = false
                   \/ exists user, user_entry username = Some user
                                   /\ password = Js.Str (mu_password user)))).
  { cbv zeta. intros (H1 & H2 & H3 & H4).
    repeat (split; [assumption|]).
    intros Hcred. apply H4. destruct (Hvalid Hcred) as [Hu Hp].
    split; [exact Hu|]. split; [exact Hp|]. right. exact Hcred. }
  clear Hvalid. intros response; subst response.
  unfold login_route, login.
  destruct (Js.truthy username) eqn:Hu; cbn [negb orb].
  2:{ cbn. split; [tauto|]. split; [discriminate|].
      split; [tauto|]. split; [discriminate|].
      intros (Hno & _). discriminate Hno. }
  destruct (Js.truthy password) eqn:Hp; cbn [negb orb].
  2:{ cbn. split; [tauto|]. split; [discriminate|].
      split; [tauto|]. split; [discriminate|].
      intros (_ & Hno & _). discriminate Hno. }
  destruct (converts username) eqn:Hconv; cbn [negb].
  2:{ cbn. split; [tauto|]. split; [discriminate|].
      split; [split; [discriminate|intros [?|?]; discriminate]|].
      split; [intros _|reflexivity].
      split; [reflexivity|]. split; [reflexivity|]. left. reflexivity. }
  destruct (user_entry username) as [user|] eqn:Hentry.
  - destruct (password_differs user password) eqn:Hdiff.
    + cbn. split; [tauto|]. split; [discriminate|].
      split; [split; [discriminate|intros [?|?]; discriminate]|].
      split; [discriminate|].
      intros (_ & _ & [Hno | (user' & Heq & Hpw)]); [discriminate Hno|].
      injection Heq as <-.
      apply password_differs_false in Hpw. congruence.
    + unfold localStorage_setItem_token.
      destruct (rt_localStorage rt); cbn.
      all: split; [tauto|].
      all: split; [discriminate|].
      all: split; [split; [discriminate|intros [?|?]; discriminate]|].
      all: split; [intros _|reflexivity].
      all: split; [reflexivity|]; split; [reflexivity|]; right.
      all: exists user; split; [reflexivity|].
      all: apply password_differs_false; exact Hdiff.
  - cbn. split; [tauto|]. split; [discriminate|].
    split; [split; [discriminate|intros [?|?]; discriminate]|].
    split; [discriminate|].
    intros (_ & _ & [Hno | (user & Heq & _)]);
      [discriminate Hno|discriminate Heq].
Qed.

(** ** Range of the distance *)

Section DistanceRange.

Local Open Scope R_scope.

Lemma atan2_first_quadrant (y x : R) :
  0 <= y -> 0 <= x -> 0 <= atan2 y x <= PI / 2.
Proof.
  intros Hy Hx. pose proof PI_RGT_0 as Hpi. unfold atan2.
  destruct (Rlt_dec 0 x) as [Hpos|Hnpos].
  - pose proof (atan_bound (y / x)) as [_ Hup].
    assert (Hq : 0 <= y / x).
    { apply Rmult_le_pos; [exact Hy|].
      left. apply Rinv_0_lt_compat. exact Hpos. }
    split; [|lra].
    destruct Hq as [Hq | <-]; [|rewrite atan_0; lra].
    pose proof (atan_increasing 0 (y / x) Hq) as Hinc.
    rewrite atan_0 in Hinc. lra.
  - destruct (Rlt_dec x 0) as [Hneg|_]; [lra|].
    destruct (Rlt_dec 0 y) as [_|_]; [lra|].
    destruct (Rlt_dec y 0) as [Hneg|_]; lra.
Qed.

Lemma PI_upper : PI <= 3.1421.
Proof.
  pose proof (PI_2_3_7_ineq 1) as [_ H].
  unfold sum_f_R0, tg_alt, PI_2_3_7_tg, Ratan_seq in H.
  simpl in H. lra.
Qed.

Lemma sin_sqr_le (x : R) : Rabs x <= 1 -> sin x * sin x <= x * x.
Proof.
  intros Hx. pose proof PI2_1 as Hpi.
  assert (Hx' : -1 <= x <= 1).
  { unfold Rabs in Hx. destruct (Rcase_abs x); lra. }
  destruct (Rtotal_order x 0) as [Hneg | [-> | Hpos]].
  - pose proof (sin_gt_x x Hneg) as Hlow.
    assert (Hup : sin x <= 0).
    { rewrite <- (Ropp_involutive x), sin_neg.
      assert (0 <= sin (- x)); [|lra].
      apply sin_ge_0; lra. }
    nra.
  - rewrite sin_0. lra.
  - pose proof (sin_lt_x x Hpos) as Hup.
    assert (Hlow : 0 <= sin x).
    { apply sin_ge_0; lra. }
    nra.
Qed.

Lemma sin_lower (t : R) : 0 <= t <= 1 -> t - t * t * t / 6 <= sin t.
Proof.
  intros [Hlo Hhi]. pose proof PI2_1 as Hpi.
  destruct (SIN t Hlo) as [Hlb _]; [lra|].
  unfold sin_lb, sin_approx, sin_term, sum_f_R0 in Hlb.
  simpl in Hlb.
  assert (H2 : 0 <= t * t <= 1) by nra.
  assert (H5 : 0 <= t * t * t * t * t) by (repeat apply Rmult_le_pos; lra).
  nra.
Qed.

Lemma atan2_asin (h : R) :
  0 <= h < 1 -> atan2 (sqrt h) (sqrt (1 - h)) = asin (sqrt h).
Proof.
  intros [Hlo Hhi].
  assert (Hroot : 0 < sqrt (1 - h)) by (apply sqrt_lt_R0; lra).
  assert (Hs : 0 <= sqrt h < 1).
  { split; [apply sqrt_pos|].
    rewrite <- sqrt_1. apply sqrt_lt_1_alt. lra. }
  unfold atan2. destruct (Rlt_dec 0 (sqrt (1 - h))) as [_|Hno]; [|lra].
  rewrite asin_atan by lra.
  rewrite Rsqr_sqrt by exact Hlo. reflexivity.
Qed.

Lemma asin_small (x s t : R) :
  0 <= x <= s -> s < t - t * t * t / 6 -> 0 <= t <= 1 -> asin x <= t.
Proof.
  intros [Hx0 Hxs] Hst [Ht0 Ht1].
  pose proof PI2_1 as Hpi.
  pose proof (sin_lower t (conj Ht0 Ht1)) as Hsin.
  destruct (Rle_lt_dec (asin x) t) as [Hle|Hgt]; [exact Hle|exfalso].
  pose proof (asin_bound x) as [_ Hup].
  assert (Ht3 : 0 <= t * t * t) by (repeat apply Rmult_le_pos; lra).
  pose proof (sin_increasing_1 t (asin x)) as Hinc.
  rewrite sin_asin in Hinc by lra.
  lra.
Qed.

(** Two points that differ by at most 0.05 degrees in latitude and in
    longitude are less than 7.9 km apart. *)
Lemma calculateDistance_near (lat lng lat' lng' : R) :
  Rabs (lat' - lat) <= 0.05 -> Rabs (lng' - lng) <= 0.05 ->
  0 <= calculateDistance lat lng lat' lng' <= 7.9.
Proof.
  intros Hlat Hlng.
  pose proof PI_upper as Hpi. pose proof PI_RGT_0 as Hpi0.
  assert (Hdlat : -0.05 <= lat' - lat <= 0.05).
  { unfold Rabs in Hlat. destruct (Rcase_abs (lat' - lat)); lra. }
  assert (Hdlng : -0.05 <= lng' - lng <= 0.05).
  { unfold Rabs in Hlng. destruct (Rcase_abs (lng' - lng)); lra. }
  unfold calculateDistance.
  pose proof (haversine_term_bounds (lat * PI / 180) (lat' * PI / 180)
                                    ((lng' - lng) * PI / 180)) as Hterm.
  replace ((lat' * PI / 180 - lat * PI / 180) / 2)
    with ((lat' - lat) * PI / 180 / 2) in Hterm by field.
  set (u := (lat' - lat) * PI / 180 / 2) in *.
  set (v := (lng' - lng) * PI / 180 / 2) in *.
  set (c1 := cos (lat * PI / 180)) in *.
  set (c2 := cos (lat' * PI / 180)) in *.
  assert (Hscale : forall d, -0.05 <= d <= 0.05 ->
                             - 0.0004365 <= d * PI / 180 / 2 <= 0.0004365).
  { intros d [Hd1 Hd2].
    assert (d * PI <= 0.05 * PI) by (apply Rmult_le_compat_r; lra).
    assert (-0.05 * PI <= d * PI) by (apply Rmult_le_compat_r; lra).
    lra. }
  assert (Hu : - 0.0004365 <= u <= 0.0004365) by (apply Hscale; exact Hdlat).
  assert (Hv : - 0.0004365 <= v <= 0.0004365) by (apply Hscale; exact Hdlng).
  assert (Hsu : sin u * sin u <= u * u).
  { apply sin_sqr_le. apply Rabs_le. lra. }
  assert (Hsv : sin v * sin v <= v * v).
  { apply sin_sqr_le. apply Rabs_le. lra. }
  assert (Hc1 : -1 <= c1 <= 1) by apply COS_bound.
  assert (Hc2 : -1 <= c2 <= 1) by apply COS_bound.
  assert (Hsv0 : 0 <= sin v * sin v) by nra.
  assert (Hc12 : c1 * c2 <= 1) by nra.
  assert (Hcc : c1 * c2 * sin v * sin v <= sin v * sin v).
  { replace (c1 * c2 * sin v * sin v) with ((c1 * c2) * (sin v * sin v))
      by ring.
    rewrite <- (Rmult_1_l (sin v * sin v)) at 2.
    apply Rmult_le_compat_r; assumption. }
  set (h := sin u * sin u + c1 * c2 * sin v * sin v) in *.
  assert (Huu : u * u <= 0.0004365 * 0.0004365) by nra.
  assert (Hvv : v * v <= 0.0004365 * 0.0004365) by nra.
  assert (Hh : h <= 0.000618 * 0.000618) by (unfold h; lra).
  destruct (atan2_first_quadrant (sqrt h) (sqrt (1 - h)))
    as [Hasin0 _]; [apply sqrt_pos|apply sqrt_pos|].
  rewrite atan2_asin in Hasin0 |- * by lra.
  assert (Hroot : 0 <= sqrt h <= 0.000618).
  { split; [apply sqrt_pos|].
    rewrite <- (sqrt_square 0.000618) by lra.
    apply sqrt_le_1_alt. exact Hh. }
  pose proof (asin_small (sqrt h) 0.000618 0.0006185 Hroot) as Hsmall.
  assert (Hasin : asin (sqrt h) <= 0.0006185) by (apply Hsmall; lra).
  lra.
Qed.

(** X16: nearby points are a short distance apart.  For two points of valid
    coordinates (latitudes in [-90, 90], longitudes in [-180, 180]) that
    differ by at most 0.05 degrees in latitude and in longitude,
    [calculateDistance] lies between 0 and 7.9 kilometres. *)
Theorem calculateDistance_nearby_points (lat1 lng1 lat2 lng2 : R) :
  -90 <= lat1 <= 90 -> -180 <= lng1 <= 180 ->
  -90 <= lat2 <= 90 -> -180 <= lng2 <= 180 ->
  Rabs (lat2 - lat1) <= 0.05 -> Rabs (lng2 - lng1) <= 0.05 ->
  0 <= calculateDistance lat1 lng1 lat2 lng2 <= 7.9.
Proof.
  intros _ _ _ _ Hlat Hlng. apply calculateDistance_near; assumption.
Qed.

Lemma calculateDistance_nearby_points_witness :
  0 <= calculateDistance 40.7128 (-74.0060) 40.75 (-74.05) <= 7.9.
Proof.
  apply (calculateDistance_nearby_points 40.7128 (-74.0060) 40.75 (-74.05));
    try lra;
    unfold Rabs; destruct (Rcase_abs _); lra.
Defined.

End DistanceRange.

(** ** Official updates *)

Lemma getCachedData_hit (key : string) (w : World) (p : Payload) :
  run_outcome (getCachedData key w) = Ret (Some p) ->
  exists row, w_cache w !! key = Some row /\ c_value row = p.
Proof.
  unfold getCachedData, try_catch, Store.cache_select_single, bind, next_fault,
    advance_fault.
  destruct (w_fault w 0%nat) as [|code|]; cbn.
  - destruct (w_cache w !! key) as [row|]; cbn; [|discriminate].
    destruct (c_expires_at row <? w_clock w 0%nat); cbn.
    + unfold Store.cache_delete, bind, next_fault, advance_clock; cbn.
      destruct (shift (w_fault w) 0%nat); cbn; discriminate.
    + intros Heq. injection Heq as <-. exists row. split; reflexivity.
  - destruct (String.eqb code Store.NO_ROWS); cbn; discriminate.
  - discriminate.
Qed.

(** X17: [GET /updates/:disasterId] can answer only from the cache.  The
    handler refers to [supabase], which its module never imports, as soon as
    the cache probe gives nothing; so for every request and every datastore
    behaviour the answer is either 200 with a payload that was already in
    the cache under the key of the request, or 500 "Internal server error".
    The route never adds or replaces a cache entry and never changes the
    [disasters] or [resources] table; in particular, while the cache has no
    entry under the key, the answer is 500 and none is created. *)
Theorem getOfficialUpdates_answers_only_from_cache
        (disasterId : string) (source_type urgency : option string)
        (w : World) :
  let key := updates_cache_key disasterId source_type urgency in
  let r := getOfficialUpdates disasterId source_type urgency w in
  exists resp : HttpResponse,
    run_outcome r = Ret resp
    /\ ((status resp = 200
         /\ exists row, w_cache w !! key = Some row
                        /\ body resp = BodyCached (c_value row))
        \/ (resp = mkHttpResponse 500 (BodyError "Internal server error")))
    /\ (w_cache (run_world r) = w_cache w
        \/ w_cache (run_world r) = delete key (w_cache w))
    /\ same_tables w (run_world r)
    /\ (w_cache w !! key = None ->
        resp = mkHttpResponse 500 (BodyError "Internal server error")
        /\ w_cache (run_world r) !! key = None).
Proof.
  intros key r; subst r.
  pose proof (getCachedData_hit key w) as Hhit.
  pose proof (getCachedData_cache key w) as Hcache.
  destruct (getCachedData_total key w) as (o & w1 & t1 & Hprobe & Htab & _).
  rewrite Hprobe in Hhit, Hcache.
  unfold run_outcome, run_world in Hhit, Hcache. cbn [fst snd] in Hhit, Hcache.
  assert (Hnone : w_cache w !! key = None -> w_cache w1 !! key = None).
  { intros Hk. destruct Hcache as [-> | ->];
      [exact Hk|apply lookup_delete_eq]. }
  assert (Hrun :
            getOfficialUpdates disasterId source_type urgency w
            = match o with
              | Some p =>
                  if payload_truthy o then
                    (Ret (mkHttpResponse 200 (BodyCached p)), w1,
                     t1 ++ [Log LogInfo
                              "Serving cached official updates for disaster:"])
                  else
                    (Ret (mkHttpResponse 500
                            (BodyError "Internal server error")), w1,
                     t1 ++ [Log LogError
                              "Unexpected error in GET /updates/:disasterId:"])
              | None =>
                  (Ret (mkHttpResponse 500
                          (BodyError "Internal server error")), w1,
                   t1 ++ [Log LogError
                            "Unexpected error in GET /updates/:disasterId:"])
              end).
  { unfold getOfficialUpdates, try_catch. fold key.
    unfold bind at 1. rewrite Hprobe.
    destruct o as [p|]; [destruct (payload_truthy (Some p))|];
      cbn; rewrite ?app_nil_r; reflexivity. }
  rewrite Hrun. clear Hrun.
  destruct o as [p|].
  - destruct (Hhit p eq_refl) as (row & Hrow & Hvalue).
    destruct (payload_truthy (Some p)).
    + eexists. split; [reflexivity|]. cbn.
      split; [left; split; [reflexivity|]; exists row; split; congruence|].
      split; [exact Hcache|]. split; [exact Htab|].
      intros Hk. congruence.
    + eexists. split; [reflexivity|]. cbn.
      split; [right; reflexivity|].
      split; [exact Hcache|]. split; [exact Htab|].
      intros Hk. congruence.
  - eexists. split; [reflexivity|]. cbn.
    split; [right; reflexivity|].
    split; [exact Hcache|]. split; [exact Htab|].
    intros Hk. split; [reflexivity|exact (Hnone Hk)].
Qed.

(** ** Priority of a post *)

Lemma toLowerCase_app (a b : string) :
  JsText.toLowerCase (a ++ b) = (JsText.toLowerCase a ++ JsText.toLowerCase b)%string.
Proof.
  induction a as [|c a IH]; [reflexivity|].
  change (String (JsText.lower c) (JsText.toLowerCase (a ++ b))
          = String (JsText.lower c)
                   (JsText.toLowerCase a ++ JsText.toLowerCase b)%string).
  rewrite IH. reflexivity.
Qed.

Lemma includes_prefix (s k : string) :
  String.prefix k s = true -> JsText.includes s k = true.
Proof.
  intros Hp. destruct s as [|c s].
  - change (String.prefix k "" || false = true). rewrite Hp. reflexivity.
  - change (String.prefix k (String c s) || JsText.includes s k = true).
    rewrite Hp. reflexivity.
Qed.

Lemma includes_app (a k b : string) :
  JsText.includes (a ++ k ++ b) k = true.
Proof.
  induction a as [|c a IH].
  - change (JsText.includes (k ++ b) k = true).
    apply includes_prefix. apply prefix_append.
  - change (String.prefix k (String c (a ++ k ++ b))
            || JsText.includes (a ++ k ++ b) k = true).
    rewrite IH. apply orb_true_r.
Qed.

Lemma includes_keyword (a k b : string) :
  JsText.includes (JsText.toLowerCase (a ++ k ++ b)) (JsText.toLowerCase k)
  = true.
Proof. rewrite !toLowerCase_app. apply includes_app. Qed.

(** X18: a keyword decides the priority wherever it occurs and however it
    is capitalised.  A post that contains an urgent keyword ("urgent",
    "emergency", "sos", "help", "critical", "immediate"), in any mix of upper
    and lower case and at any position, also inside a longer word, is
    classified "high", even when it contains medium keywords as well; a post
    that contains a medium keyword ("need", "looking for", "available",
    "shelter", "food") is classified "high" or "medium", never "low". *)
Theorem classifyPriority_keyword_decides (before k after : string) :
  (In (JsText.toLowerCase k) urgentKeywords ->
   classifyPriority (before ++ k ++ after) = "high")
  /\ (In (JsText.toLowerCase k) mediumKeywords ->
      classifyPriority (before ++ k ++ after) = "high"
      \/ classifyPriority (before ++ k ++ after) = "medium").
Proof.
  unfold classifyPriority. split.
  - intros Hin.
    assert (Hex : List.existsb
                    (fun keyword =>
                       JsText.includes
                         (JsText.toLowerCase (before ++ k ++ after)) keyword)
                    urgentKeywords = true).
    { apply existsb_exists. exists (JsText.toLowerCase k).
      split; [exact Hin|apply includes_keyword]. }
    rewrite Hex. reflexivity.
  - intros Hin.
    destruct (List.existsb _ urgentKeywords); [left; reflexivity|].
    assert (Hex : List.existsb
                    (fun keyword =>
                       JsText.includes
                         (JsText.toLowerCase (before ++ k ++ after)) keyword)
                    mediumKeywords = true).
    { apply existsb_exists. exists (JsText.toLowerCase k).
      split; [exact Hin|apply includes_keyword]. }
    rewrite Hex. right. reflexivity.
Qed.

Lemma classifyPriority_keyword_decides_witness :
  classifyPriority "Unhelpful roads, FOOD is short" = "high".
Proof.
  apply (proj1 (classifyPriority_keyword_decides
                  "Un" "help" "ful roads, FOOD is short")).
  cbn. tauto.
Defined.

(** ** Distance of the synthesized resources *)

Lemma string_to_number_city_lat :
  Js.string_to_number "40.7128" = Js.Fin 40.7128.
Proof.
  change (Js.string_to_number "40.7128")
    with (Js.Fin (Js.decimal_value 407128 (-4))).
  f_equal. unfold Js.decimal_value, powerRZ.
  change (Pos.to_nat 4) with 4%nat. simpl pow. lra.
Qed.

Lemma string_to_number_city_lng :
  Js.string_to_number "-74.0060" = Js.Fin (-74.0060).
Proof.
  change (Js.string_to_number "-74.0060")
    with (Js.Fin (- Js.decimal_value 740060 (-4))).
  f_equal. unfold Js.decimal_value, powerRZ.
  change (Pos.to_nat 4) with 4%nat. simpl pow. lra.
Qed.

(** Two non-empty strings are both given. *)
Lemma both_given_nonempty (slat slng : string) :
  slat <> "" -> slng <> "" -> both_given (Some slat) (Some slng) = true.
Proof.
  intros Hlat Hlng. unfold both_given. cbn.
  destruct slat as [|a s]; [congruence|].
  destruct slng as [|b t]; [congruence|].
  reflexivity.
Qed.

(** X19: [generateMockResources], called with a center, places its
    resources close to it.  When [centerLat] and [centerLng] are non-empty
    strings that are plain decimal numbers (read the same by [parseFloat]
    and by numeric coercion), the latitude within 89.95 degrees of the
    equator and the longitude within 179.95 degrees of the meridian, and
    [Math.random] gives values in [0, 1), the function returns five
    resources, each within 0.05 degrees of the center per axis and with a
    finite [distance_km] between 0 and 7.9. *)
Theorem generateMockResources_near_center
        (id slat slng : string) (w : World) (clat clng : R) :
  slat <> "" -> slng <> "" ->
  Js.parseFloat slat = Js.Fin clat ->
  Js.string_to_number slat = Js.Fin clat ->
  Js.parseFloat slng = Js.Fin clng ->
  Js.string_to_number slng = Js.Fin clng ->
  (-89.95 <= clat <= 89.95)%R ->
  (-179.95 <= clng <= 179.95)%R ->
  (forall n, (0 <= w_random w n < 1)%R) ->
  exists mocks : list MockResource,
    run_outcome (generateMockResources id (Some slat) (Some slng) w)
    = Ret mocks
    /\ List.length mocks = 5%nat
    /\ Forall (fun m =>
                 jittered_around clat clng m
                 /\ exists d : R,
                     m_distance_km m = Some (Js.Fin d) /\ (0 <= d <= 7.9)%R)
              mocks.
Proof.
  intros Hlat Hlng Hplat Hnlat Hplng Hnlng _ _ Hrandom.
  pose proof (both_given_nonempty slat slng Hlat Hlng) as Hgiven.
  exists (mocks_from id (Some slat) (Some slng) w 0 baseResources).
  split; [rewrite generateMockResources_run; reflexivity|].
  split; [apply mocks_from_length|].
  pose proof (mocks_from_jittered id (Some slat) (Some slng) w baseResources
                                  0 Hrandom) as Hnear.
  unfold search_center_of in Hnear. rewrite Hgiven in Hnear.
  specialize (Hnear clat clng Hplat Hplng).
  pose proof (mocks_from_distance id (Some slat) (Some slng) w baseResources
                                  0) as Hdist.
  rewrite Hgiven in Hdist.
  apply List.Forall_forall. intros m Hm.
  pose proof (proj1 (List.Forall_forall _ _) Hnear m Hm) as Hjit.
  pose proof (proj1 (List.Forall_forall _ _) Hdist m Hm) as Hd.
  cbn beta in Hd.
  split; [exact Hjit|].
  destruct Hjit as (x & y & Hx & Hy & Hdx & Hdy).
  change (to_number (Some slat)) with (Js.string_to_number slat) in Hd.
  change (to_number (Some slng)) with (Js.string_to_number slng) in Hd.
  rewrite Hnlat, Hnlng, Hx, Hy in Hd. cbn [calculateDistance_num] in Hd.
  exists (calculateDistance clat clng x y).
  split; [exact Hd|].
  apply calculateDistance_near; assumption.
Qed.

Lemma generateMockResources_near_center_witness :
  exists mocks : list MockResource,
    run_outcome (generateMockResources "d1" (Some "40.7128")
                                       (Some "-74.0060") Sample.city_world)
    = Ret mocks
    /\ List.length mocks = 5%nat
    /\ Forall (fun m =>
                 jittered_around 40.7128 (-74.0060) m
                 /\ exists d : R,
                     m_distance_km m = Some (Js.Fin d) /\ (0 <= d <= 7.9)%R)
              mocks.
Proof.
  apply (generateMockResources_near_center
           "d1" "40.7128" "-74.0060" Sample.city_world 40.7128 (-74.0060)).
  - discriminate.
  - discriminate.
  - exact parseFloat_city_lat.
  - exact string_to_number_city_lat.
  - exact parseFloat_city_lng.
  - exact string_to_number_city_lng.
  - lra.
  - lra.
  - intros n. cbn. lra.
Defined.

(** X20: [generateMockResources] computes the distance by numeric coercion
    of the strings it was given.  When [centerLat] and [centerLng] are
    non-empty strings and one of them is not a number as a whole (a number
    followed by other text, for instance), the function returns five
    resources and each one carries [NaN] as its [distance_km], whatever
    [parseFloat] reads from the same text. *)
Theorem generateMockResources_distance_is_NaN_for_trailing_text
        (id slat slng : string) (w : World) :
  slat <> "" -> slng <> "" ->
  Js.string_to_number slat = Js.NaN \/ Js.string_to_number slng = Js.NaN ->
  exists mocks : list MockResource,
    run_outcome (generateMockResources id (Some slat) (Some slng) w)
    = Ret mocks
    /\ List.length mocks = 5%nat
    /\ Forall (fun m => m_distance_km m = Some Js.NaN) mocks.
Proof.
  intros Hlat Hlng Hnan.
  pose proof (both_given_nonempty slat slng Hlat Hlng) as Hgiven.
  exists (mocks_from id (Some slat) (Some slng) w 0 baseResources).
  split; [rewrite generateMockResources_run; reflexivity|].
  split; [apply mocks_from_length|].
  pose proof (mocks_from_distance id (Some slat) (Some slng) w baseResources
                                  0) as Hdist.
  rewrite Hgiven in Hdist.
  apply List.Forall_forall. intros m Hm.
  pose proof (proj1 (List.Forall_forall _ _) Hdist m Hm) as Hd.
  cbn beta in Hd. rewrite Hd. f_equal.
  change (to_number (Some slat)) with (Js.string_to_number slat).
  change (to_number (Some slng)) with (Js.string_to_number slng).
  destruct Hnan as [-> | ->]; [reflexivity|].
  destruct (Js.string_to_number slat); reflexivity.
Qed.

Lemma generateMockResources_distance_is_NaN_for_trailing_text_witness :
  exists mocks : list MockResource,
    run_outcome (generateMockResources "d1" (Some "12.5km") (Some "0")
                                       Sample.city_world)
    = Ret mocks
    /\ List.length mocks = 5%nat
    /\ Forall (fun m => m_distance_km m = Some Js.NaN) mocks.
Proof.
  apply (generateMockResources_distance_is_NaN_for_trailing_text
           "d1" "12.5km" "0" Sample.city_world).
  - discriminate.
  - discriminate.
  - left. reflexivity.
Defined.

(** ** Expiry of a cached search *)

(** X21: an expired search result is dropped and rebuilt.  For a request
    without coordinates ([lat] or [lng] missing or empty), on a datastore
    that serves every call, when the cache entry under the key of the
    request has expired and the disaster exists,
    [GET /resources/:disasterId] does not serve the old payload: it answers
    200 with a freshly built response, and the entry under the key is
    afterwards that response, to expire 1800 s after a reading of the
    clock. *)
Theorem getResources_rebuilds_after_expiry
        (req : GetRequest) (w : World) (row : CacheRow) (d : Disaster) :
  both_given (req_lat req) (req_lng req) = false ->
  (forall n, w_fault w n = Served) ->
  w_cache w !! cache_key req = Some row ->
  c_expires_at row < w_clock w 0%nat ->
  w_disasters w !! req_disasterId req = Some d ->
  exists (resp : ResourcesResponse) (k : nat),
    run_outcome (getResources req w)
    = Ret (mkHttpResponse 200 (BodyResources resp))
    /\ w_cache (run_world (getResources req w)) !! cache_key req
       = Some (mkCacheRow (PResources resp) (w_clock w k + 1800 * 1000)).
Proof.
  intros Hgiven Hserved Hrow Hexpired Hd.
  pose proof (getCachedData_served w (cache_key req) (Hserved 0%nat)
                                   (Hserved 1%nat)) as Hprobe.
  rewrite Hrow in Hprobe.
  destruct (Z.ltb_spec (c_expires_at row) (w_clock w 0%nat)); [|lia].
  set (w1 := with_cache (delete (cache_key req) (w_cache w))
                        (advance_fault (advance_clock (advance_fault w))))
    in Hprobe.
  assert (Hrun :
            getResources req w
            = after_trace [CacheSelect (cache_key req);
                           CacheDelete (cache_key req)]
                          (catch_get (on_cache_miss req w1))).
  { unfold getResources, try_catch. unfold bind at 1. rewrite Hprobe.
    destruct (on_cache_miss req w1) as [[[a|] w2] t2]; reflexivity. }
  destruct (on_cache_miss_served req w1 d (Hserved 2%nat) (Hserved 3%nat)
                                 (Hserved 4%nat) Hd Hgiven)
    as (response & w2 & t & i & j & k & Hmiss & Hcache & _ & _).
  rewrite Hrun, Hmiss.
  exists response, (1 + k)%nat.
  split; [reflexivity|].
  unfold after_trace, catch_get, run_world. cbn [fst snd].
  rewrite Hcache. apply lookup_insert_eq.
Qed.

Lemma getResources_rebuilds_after_expiry_witness :
  exists (resp : ResourcesResponse) (k : nat),
    run_outcome (getResources Sample.plain_request Cases.expired_world)
    = Ret (mkHttpResponse 200 (BodyResources resp))
    /\ w_cache (run_world (getResources Sample.plain_request
                                        Cases.expired_world))
       !! cache_key Sample.plain_request
       = Some (mkCacheRow (PResources resp)
                          (w_clock Cases.expired_world k + 1800 * 1000)).
Proof.
  apply (getResources_rebuilds_after_expiry
           Sample.plain_request Cases.expired_world
           (mkCacheRow (PJson (Js.Str "v")) 500) (mkDisaster "d1" "Flood")).
  - reflexivity.
  - intros n. reflexivity.
  - apply lookup_singleton_eq.
  - cbn. lia.
  - apply lookup_singleton_eq.
Defined.

(** ** Searches with and without a center *)

Lemma getCachedData_lookup_effects (key : string) (w : World) :
  Forall lookup_effect (run_trace (getCachedData key w)).
Proof.
  unfold getCachedData, try_catch, Store.cache_select_single, bind, next_fault,
    advance_fault.
  destruct (w_fault w 0%nat) as [|code|]; cbn.
  - destruct (w_cache w !! key) as [row|]; cbn; [|repeat constructor].
    destruct (c_expires_at row <? w_clock w 0%nat); cbn;
      [|repeat constructor].
    unfold Store.cache_delete, bind, next_fault, advance_clock; cbn.
    destruct (shift (w_fault w) 0%nat); cbn; repeat constructor.
  - destruct (String.eqb code Store.NO_ROWS); cbn; repeat constructor.
  - repeat constructor.
Qed.

(** X22: a search with both coordinates is never built afresh.  When [lat]
    and [lng] are both non-empty, [GET /resources/:disasterId] answers from
    the cache or with an error: the body is never a freshly built response,
    and the only datastore calls are the cache probe, the eviction of an
    expired entry and the disaster lookup, so the [resources] table is not
    queried and nothing is written to the cache.  When the cache has no
    entry under the key and the disaster exists (the datastore serving the
    probe and the lookup), the answer is 500 "Internal server error": the
    handler raises at the call of [rpc]. *)
Theorem getResources_center_search_fails (req : GetRequest) (w : World) :
  both_given (req_lat req) (req_lng req) = true ->
  (exists resp : HttpResponse,
      run_outcome (getResources req w) = Ret resp
      /\ forall fresh : ResourcesResponse, body resp <> BodyResources fresh)
  /\ Forall lookup_effect (run_trace (getResources req w))
  /\ forall d : Disaster,
      w_fault w 0%nat = Served ->
      w_cache w !! cache_key req = None ->
      w_fault w 1%nat = Served ->
      w_disasters w !! req_disasterId req = Some d ->
      getResources req w
      = (Ret (mkHttpResponse 500 (BodyError "Internal server error")),
         advance_fault (advance_fault w),
         [CacheSelect (cache_key req); DisasterSelect (req_disasterId req);
          Log LogError "Unexpected error in GET /resources/:disasterId:"]).
Proof.
  intros Hgiven.
  pose proof (getCachedData_lookup_effects (cache_key req) w) as Hprobe.
  destruct (getResources_run req w)
    as (o & w1 & t1 & Hrun & _ & _ & _ & Hcases).
  rewrite Hrun in Hprobe. change (Forall lookup_effect t1) in Hprobe.
  split; [|split].
  - destruct Hcases as [(p & _ & _ & ->) | (_ & ->)].
    + eexists. split; [reflexivity|]. intros fresh. discriminate.
    + destruct (on_cache_miss_run req w1) as
          [Hf | Hf | code Hf Hcode | d Hf Hd Hg
           | d Hf Hd Hg Hq | d code Hf Hd Hg Hq
           | d w' t Hf Hd Hg Hq Hrows Hsame Ht
           | d w' t Hf Hd Hg Hq Hrows Hsame Ht];
        try congruence;
        unfold after_trace, catch_get, run_outcome; cbn [fst snd];
        eexists; (split; [reflexivity|]); intros fresh; discriminate.
  - destruct Hcases as [(p & _ & _ & ->) | (_ & ->)].
    + apply Forall_app; split; [exact Hprobe|repeat constructor].
    + destruct (on_cache_miss_run req w1) as
          [Hf | Hf | code Hf Hcode | d Hf Hd Hg
           | d Hf Hd Hg Hq | d code Hf Hd Hg Hq
           | d w' t Hf Hd Hg Hq Hrows Hsame Ht
           | d w' t Hf Hd Hg Hq Hrows Hsame Ht];
        try congruence;
        unfold after_trace, catch_get, run_trace; cbn [fst snd];
        (apply Forall_app; split; [exact Hprobe|repeat constructor]).
  - intros d H0 Hnone H1 Hd.
    exact (getResources_center_uncached req w d Hgiven H0 Hnone H1 Hd).
Qed.

Lemma getResources_center_search_fails_witness :
  (exists resp : HttpResponse,
      run_outcome (getResources Sample.city_request Sample.shelter_world)
      = Ret resp
      /\ forall fresh : ResourcesResponse, body resp <> BodyResources fresh)
  /\ Forall lookup_effect
            (run_trace (getResources Sample.city_request
                                     Sample.shelter_world))
  /\ getResources Sample.city_request Sample.shelter_world
     = (Ret (mkHttpResponse 500 (BodyError "Internal server error")),
        advance_fault (advance_fault Sample.shelter_world),
        [CacheSelect (cache_key Sample.city_request);
         DisasterSelect (req_disasterId Sample.city_request);
         Log LogError "Unexpected error in GET /resources/:disasterId:"]).
Proof.
  destruct (getResources_center_search_fails
              Sample.city_request Sample.shelter_world eq_refl)
    as (Hanswer & Hcalls & Hrun).
  split; [exact Hanswer|]. split; [exact Hcalls|].
  apply (Hrun (mkDisaster "d1" "Flood")).
  - reflexivity.
  - apply lookup_empty.
  - reflexivity.
  - apply lookup_singleton_eq.
Defined.

(** X23: without coordinates, a disaster with no stored resource gets five
    synthesized ones around the default point.  When [lat] or [lng] is
    missing or empty, the cache has no entry under the key, the disaster
    exists, no stored row matches the disaster id and the type filter, the
    datastore serves the four calls and [Math.random] gives values in
    [0, 1), [GET /resources/:disasterId] answers 200 with exactly five
    synthesized resources, of types shelter, medical, food, supplies and
    housing in this order, with the next five identifiers of the generator,
    each carrying the disaster id of the request, no distance, and a
    position within 0.05 degrees per axis of (40.7128, -74.0060).  The
    response has no search center, and the [resources] table is left as it
    was: the synthesized resources are not stored. *)
Theorem getResources_synthesizes_without_center
        (req : GetRequest) (w : World) (d : Disaster) :
  both_given (req_lat req) (req_lng req) = false ->
  w_fault w 0%nat = Served ->
  w_fault w 1%nat = Served ->
  w_fault w 2%nat = Served ->
  w_fault w 3%nat = Served ->
  w_cache w !! cache_key req = None ->
  w_disasters w !! req_disasterId req = Some d ->
  scoped_rows req (w_resources w) = [] ->
  (forall n, (0 <= w_random w n < 1)%R) ->
  exists (resp : ResourcesResponse) (mocks : list MockResource),
    run_outcome (getResources req w)
    = Ret (mkHttpResponse 200 (BodyResources resp))
    /\ resp_resources resp = List.map Synthesized mocks
    /\ resp_total_resources resp = 5%nat
    /\ resp_search_center resp = None
    /\ List.map m_type mocks
       = ["shelter"; "medical"; "food"; "supplies"; "housing"]
    /\ List.map m_id mocks = List.map (w_uuid w) [0; 1; 2; 3; 4]%nat
    /\ Forall (fun m =>
                 m_disaster_id m = req_disasterId req
                 /\ m_distance_km m = None
                 /\ jittered_around 40.7128 (-74.0060) m)
              mocks
    /\ w_resources (run_world (getResources req w)) = w_resources w.
Proof.
  intros Hgiven H0 H1 H2 H3 Hnone Hd Hrows Hrandom.
  pose proof (getResources_first_search req w d H0 H1 H2 H3 Hnone Hd Hgiven
                                        Hrows) as Hfirst.
  cbv zeta in Hfirst. rewrite Hfirst.
  set (mocks := mocks_from (req_disasterId req) (req_lat req) (req_lng req)
                           w 0 baseResources).
  exists (response_of req d (List.map Synthesized mocks) (w_clock w 5%nat)),
    mocks.
  split; [reflexivity|].
  split; [reflexivity|].
  split.
  { change (List.length (List.map Synthesized mocks) = 5%nat).
    rewrite List.length_map. apply mocks_from_length. }
  split.
  { change (search_center_of (req_lat req) (req_lng req) = None).
    unfold search_center_of. rewrite Hgiven. reflexivity. }
  split; [apply mocks_from_types|].
  split; [apply mocks_from_ids|].
  split; [|reflexivity].
  pose proof (mocks_from_disaster (req_disasterId req) (req_lat req)
                                  (req_lng req) w baseResources 0) as Hids.
  pose proof (mocks_from_distance (req_disasterId req) (req_lat req)
                                  (req_lng req) w baseResources 0) as Hdist.
  pose proof (mocks_from_jittered (req_disasterId req) (req_lat req)
                                  (req_lng req) w baseResources 0 Hrandom)
    as Hjit.
  unfold search_center_of in Hjit. rewrite Hgiven in Hjit, Hdist.
  apply List.Forall_forall. intros m Hm.
  split; [exact (proj1 (List.Forall_forall _ _) Hids m Hm)|].
  split; [exact (proj1 (List.Forall_forall _ _) Hdist m Hm)|].
  exact (proj1 (List.Forall_forall _ _) Hjit m Hm).
Qed.

Lemma getResources_synthesizes_without_center_witness :
  exists (resp : ResourcesResponse) (mocks : list MockResource),
    run_outcome (getResources Sample.plain_request Sample.city_world)
    = Ret (mkHttpResponse 200 (BodyResources resp))
    /\ resp_resources resp = List.map Synthesized mocks
    /\ resp_total_resources resp = 5%nat
    /\ resp_search_center resp = None
    /\ List.map m_type mocks
       = ["shelter"; "medical"; "food"; "supplies"; "housing"]
    /\ List.map m_id mocks
       = List.map (w_uuid Sample.city_world) [0; 1; 2; 3; 4]%nat
    /\ Forall (fun m =>
                 m_disaster_id m = req_disasterId Sample.plain_request
                 /\ m_distance_km m = None
                 /\ jittered_around 40.7128 (-74.0060) m)
              mocks
    /\ w_resources (run_world (getResources Sample.plain_request
                                            Sample.city_world))
       = w_resources Sample.city_world.
Proof.
  apply (getResources_synthesizes_without_center
           Sample.plain_request Sample.city_world (mkDisaster "d1" "Flood")).
  - reflexivity.
  - reflexivity.
  - reflexivity.
  - reflexivity.
  - reflexivity.
  - apply lookup_empty.
  - apply lookup_singleton_eq.
  - reflexivity.
  - intros n. cbn. lra.
Defined.
